(** * Region-Graph-Exploration: the helpers of [app/Helpers.py]

  A shallow embedding of [statistics], [kcore_decomposition],
  [traverse_tree], [get_indices] and [save_adjacency], together with the
  fragment of Python 2, NumPy and graph_tool they rely on, and the
  properties of the filtered-subgraph analysis engine stated over it.

  How the program is modelled:
  - a helper is a computation in a world that holds the one graph object
    of the application (its filters are shared mutable state), a counter
    naming new objects (for [is]), the input handed to each peeling
    process launched, and the files written; it returns a value or raises
    a Python exception, and what it changed before raising stays changed;
  - the graph is a number of stored vertices, a list of stored edges and
    two optional boolean masks; vertices, edges, counts and degrees are
    those of the filtered view, property maps span all stored items;
  - what lies outside the module (the component labelling and the k-core
    decomposition of the graph library, the peeling executable, [log2] and
    the formatting of a finite double) is a parameter, the class
    [Collaborators]; reference implementations serve to run examples;
  - dictionaries are finite maps; the order of [Counter.items()] is the
    order of the map, which no property below relies on. *)

From Stdlib Require Import ZArith List String Ascii Bool Lia Floats Uint63.
From stdpp Require Import gmap list sorting strings pretty.

Open Scope Z_scope.

(* ===================================================================== *)
(** * The fragment of Python 2 used by the helpers *)
(* ===================================================================== *)

Module Py.

(** The built-in exceptions the helpers can raise. *)
Inductive exn : Type :=
| IndexError   (* sequence index out of range *)
| ValueError.  (* int() of a bad literal, unpacking a wrong number of values *)

(** The outcome of evaluating an expression: a value, or a raised exception. *)
Inductive res (A : Type) : Type :=
| Ok (a : A)
| Raise (e : exn).
Arguments Ok {A} a.
Arguments Raise {A} e.

Definition bind {A B} (r : res A) (k : A -> res B) : res B :=
  match r with
  | Ok a => k a
  | Raise e => Raise e
  end.

Definition is_ok {A} (r : res A) : bool :=
  match r with Ok _ => true | Raise _ => false end.

(** ** Byte strings ([str] of Python 2) *)

(** [c.isspace()] in the C locale: space, and \t \n \v \f \r. *)
Definition is_space (c : ascii) : bool :=
  let n := nat_of_ascii c in
  ((n =? 32) || ((9 <=? n) && (n <=? 13)))%nat.

Definition lower_ascii (c : ascii) : ascii :=
  let n := nat_of_ascii c in
  if ((65 <=? n) && (n <=? 90))%nat then ascii_of_nat (n + 32) else c.

(** [s.lower()] *)
Fixpoint lower (s : string) : string :=
  match s with
  | EmptyString => EmptyString
  | String c r => String (lower_ascii c) (lower r)
  end.

(** [s.startswith(p)] *)
Definition startswith (s p : string) : bool := String.prefix p s.

(** [s.split(sep)] for a non-empty separator: the pieces between the
    non-overlapping occurrences of [sep], scanned left to right.  [skip]
    counts the characters of a matched separator still to be dropped.
    The result is never empty; its head is the piece being read. *)
Fixpoint split_go (sep : string) (skip : nat) (s : string) : list string :=
  match s with
  | EmptyString => [EmptyString]
  | String c r =>
      match skip with
      | S k => split_go sep k r
      | O =>
          if String.prefix sep s
          then EmptyString :: split_go sep (String.length sep - 1) r
          else match split_go sep 0 r with
               | h :: t => String c h :: t
               | [] => [String c EmptyString]
               end
      end
  end.

Definition split (s sep : string) : list string := split_go sep 0 s.

(** [l[-1]] of a list that [split] returned (never empty). *)
Definition last_piece (l : list string) : string := List.last l EmptyString.

(** [s.lstrip()], [s.rstrip()], [s.strip()] *)
Fixpoint lstrip (s : string) : string :=
  match s with
  | EmptyString => EmptyString
  | String c r => if is_space c then lstrip r else s
  end.

Fixpoint rstrip (s : string) : string :=
  match s with
  | EmptyString => EmptyString
  | String c r =>
      match rstrip r with
      | EmptyString => if is_space c then EmptyString else String c EmptyString
      | r' => String c r'
      end
  end.

Definition strip (s : string) : string := rstrip (lstrip s).

(** [s.split()] with no argument: the maximal runs of non-space characters. *)
Fixpoint split_ws (s : string) : list string :=
  match s with
  | EmptyString => []
  | String c r =>
      if is_space c then split_ws r
      else match r with
           | EmptyString => [String c EmptyString]
           | String c' _ =>
               if is_space c' then String c EmptyString :: split_ws r
               else match split_ws r with
                    | h :: t => String c h :: t
                    | [] => [String c EmptyString]
                    end
           end
  end.

(** ** [int(s)] on a string, base 10 *)

Definition digit_of (c : ascii) : option Z :=
  let n := nat_of_ascii c in
  if ((48 <=? n) && (n <=? 57))%nat then Some (Z.of_nat (n - 48)) else None.

Fixpoint digits_go (acc : Z) (s : string) : option Z :=
  match s with
  | EmptyString => Some acc
  | String c r =>
      match digit_of c with
      | Some d => digits_go (10 * acc + d) r
      | None => None
      end
  end.

(** One digit at least, and digits only. *)
Definition digits (s : string) : option Z :=
  match s with
  | EmptyString => None
  | _ => digits_go 0 s
  end.

(** Surrounding white space is ignored, one sign is allowed, anything
    else raises [ValueError]. *)
Definition int (s : string) : res Z :=
  let of_opt (o : option Z) :=
    match o with Some z => Ok z | None => Raise ValueError end in
  match strip s with
  | EmptyString => Raise ValueError
  | String c r =>
      if Ascii.eqb c "-" then of_opt (Z.opp <$> digits r)
      else if Ascii.eqb c "+" then of_opt (digits r)
      else of_opt (digits (String c r))
  end.

(** ** Sequences indexed by a Python integer *)

(** [l[i]]: a negative index counts from the end. *)
Definition getitem {A} (l : list A) (i : Z) : res A :=
  let n := Z.of_nat (length l) in
  let j := if i <? 0 then i + n else i in
  if (0 <=? j) && (j <? n)
  then match l !! Z.to_nat j with
       | Some x => Ok x
       | None => Raise IndexError
       end
  else Raise IndexError.

(** ** Objects with identity

    A list or array object: its identity and its items.  Identities are
    handed out by a counter, so an object created later differs from
    every object that already exists. *)
Record seqobj : Type := SeqObj { oid : nat; items : list Z }.

(** [bool(l)] of a list: non-empty. *)
Definition truthy_list (l : seqobj) : bool :=
  match items l with [] => false | _ => true end.

(** [a is b] *)
Definition is_ (a b : seqobj) : bool := Nat.eqb (oid a) (oid b).

(** [bool(o)] of an object that is [None] or an instance of a class
    defining neither [__nonzero__] nor [__len__]. *)
Definition truthy_obj {A} (o : option A) : bool :=
  match o with Some _ => true | None => false end.

End Py.


(* ===================================================================== *)
(** * NumPy arrays as lists *)
(* ===================================================================== *)

Module Np.
Import Py.
Local Open Scope nat_scope.

(** [np.arange(n)] *)
Definition arange (n : nat) : list nat := seq 0 n.

(** [np.where(a == 1)[0]] on a boolean array: the positions holding true. *)
Fixpoint where_from (i : nat) (a : list bool) : list nat :=
  match a with
  | [] => []
  | b :: r => if b then i :: where_from (S i) r else where_from (S i) r
  end.
Definition where_true (a : list bool) : list nat := where_from 0 a.

(** [np.where(a != 0)[0]] on an array of counts. *)
Definition where_nonzero (a : list nat) : list nat :=
  where_from 0 (map (fun c => negb (c =? 0)) a).

(** [a[idx]] for an array of positions (all non-negative). *)
Fixpoint take {A} (a : list A) (idx : list nat) : res (list A) :=
  match idx with
  | [] => Ok []
  | i :: r =>
      match a !! i with
      | None => Raise IndexError
      | Some x => bind (take a r) (fun xs => Ok (x :: xs))
      end
  end.

(** An index of a fancy-indexing expression, brought into [0, n):
    negative indices wrap once, anything else out of range raises. *)
Definition norm_index (n : nat) (i : Z) : res nat :=
  let j := (if i <? 0 then i + Z.of_nat n else i)%Z in
  if ((0 <=? j) && (j <? Z.of_nat n))%Z then Ok (Z.to_nat j)
  else Raise IndexError.

Fixpoint norm_indices (n : nat) (idx : list Z) : res (list nat) :=
  match idx with
  | [] => Ok []
  | i :: r =>
      bind (norm_index n i) (fun j =>
      bind (norm_indices n r) (fun js => Ok (j :: js)))
  end.

(** [a[idx] = x] with a sequence of integers as index: every index is
    checked before anything is written. *)
Definition setitem_fancy {A} (a : list A) (idx : list Z) (x : A)
  : res (list A) :=
  bind (norm_indices (length a) idx) (fun js =>
  Ok (fold_left (fun acc j => <[j := x]> acc) js a)).

(** The items of [np.ones_like(a)]: as many ones as [a] has entries. *)
Definition ones_like {A} (a : list A) : list Z := replicate (length a) 1%Z.

(** [len(np.unique(a))] *)
Definition count_unique (a : list nat) : nat :=
  length (remove_dups a).

End Np.

(* ===================================================================== *)
(** * The graph object of graph_tool *)
(* ===================================================================== *)

Module GT.
Local Open Scope nat_scope.

(** A graph with stable vertex and edge indices and two optional filters.
    Vertices are [0 .. num_stored - 1]; edge [i] is the [i]-th entry of
    [stored_edges].  A filter is a boolean property map over all stored
    vertices (edges), or [None]. *)
Record Graph : Type := mkGraph {
  directed : bool;
  num_stored : nat;
  stored_edges : list (nat * nat);
  vertex_filter : option (list bool);   (* G.get_vertex_filter()[0] *)
  edge_filter : option (list bool);     (* G.get_edge_filter()[0] *)
}.

Definition passes (filt : option (list bool)) (i : nat) : bool :=
  match filt with
  | None => true
  | Some a => default false (a !! i)
  end.

Definition vertex_visible (G : Graph) (v : nat) : bool :=
  (v <? num_stored G) && passes (vertex_filter G) v.

(** [G.vertices()] *)
Definition vertices (G : Graph) : list nat :=
  List.filter (vertex_visible G) (seq 0 (num_stored G)).

(** An edge is visible when it passes the edge filter and both its
    endpoints are visible. *)
Definition edge_visible (G : Graph) (ie : nat * (nat * nat)) : bool :=
  passes (edge_filter G) ie.1
  && vertex_visible G ie.2.1 && vertex_visible G ie.2.2.

(** [G.edges()], as (source, target) pairs *)
Definition edges (G : Graph) : list (nat * nat) :=
  map snd (List.filter (edge_visible G) (imap pair (stored_edges G))).

Definition num_vertices (G : Graph) : nat := length (vertices G).
Definition num_edges (G : Graph) : nat := length (edges G).

(** [G.new_vp('bool', vals=b).a] and [G.new_ep('bool', vals=b).a]: one
    entry per stored vertex (edge), whatever the filters. *)
Definition new_vp (G : Graph) (b : bool) : list bool :=
  replicate (num_stored G) b.
Definition new_ep (G : Graph) (b : bool) : list bool :=
  replicate (length (stored_edges G)) b.

Definition set_vertex_filter (G : Graph) (vp : list bool) : Graph :=
  mkGraph (directed G) (num_stored G) (stored_edges G)
          (Some vp) (edge_filter G).
Definition set_edge_filter (G : Graph) (ep : list bool) : Graph :=
  mkGraph (directed G) (num_stored G) (stored_edges G)
          (vertex_filter G) (Some ep).

(** [v.out_degree()] in the filtered view; an undirected edge counts at
    both of its endpoints. *)
Definition out_degree (G : Graph) (v : nat) : nat :=
  let es := edges G in
  let outs := length (List.filter (fun e => e.1 =? v) es) in
  let ins := length (List.filter (fun e => e.2 =? v) es) in
  if directed G then outs else outs + ins.

(** [v.out_neighbours()] in the filtered view. *)
Definition out_neighbours (G : Graph) (v : nat) : list nat :=
  flat_map (fun e =>
    (if e.1 =? v then [e.2] else [])
    ++ (if negb (directed G) && (e.2 =? v) then [e.1] else []))
    (edges G).

(** Modelled from the spec: the histogram primitive of the graph library
    ([gt.vertex_hist(G, 'out', float_count=False)], unit-width bins
    starting at 0).  [counts[d]] is the number of visible vertices of
    out-degree [d], for [d] up to the largest degree; [bins] holds the
    bin edges, one more than there are counts. *)
Definition vertex_hist (G : Graph) : list nat * list nat :=
  let degs := map (out_degree G) (vertices G) in
  let top := foldr Nat.max 0 degs in
  (map (fun d => length (List.filter (Nat.eqb d) degs)) (seq 0 (S top)),
   seq 0 (S (S top))).

End GT.

(* ===================================================================== *)
(** * The hierarchical partition tree *)
(* ===================================================================== *)

Module HPT.

(** Modelled from the spec: [PartitionNode] of the module
    HierarchicalPartitioningTree, which the helpers import.  A node owns a
    list of vertex indices, a list of edge indices and an ordered list of
    child nodes; a leaf has no children. *)
#[warnings="-register-all"]
Inductive PartitionNode : Type :=
| Node (vertex_indices edge_indices : list Z) (children : list PartitionNode).

Definition vertex_indices (n : PartitionNode) : list Z :=
  match n with Node vs _ _ => vs end.
Definition edge_indices (n : PartitionNode) : list Z :=
  match n with Node _ es _ => es end.
Definition children (n : PartitionNode) : list PartitionNode :=
  match n with Node _ _ cs => cs end.

(** Modelled from the spec: [PartitionTree], owning the root node. *)
Record PartitionTree : Type := mkTree { root : PartitionNode }.

(** Modelled from the spec: [PartitionTree.collect_indices], the indices of
    every leaf below a node, depth first, children in their stored order. *)
Fixpoint collect_indices (n : PartitionNode) : list Z * list Z :=
  match n with
  | Node vs es [] => (vs, es)
  | Node _ _ cs =>
      (flat_map (fun c => (collect_indices c).1) cs,
       flat_map (fun c => (collect_indices c).2) cs)
  end.

End HPT.

(* ===================================================================== *)
(** * The world the helpers run in *)
(* ===================================================================== *)

Module Env.
Import Py.

(** What the helpers obtain from outside this module: two primitives of the
    graph library, the peeling executable, and the floating-point routines
    behind [np.log2] and ['{:.2f}'.format]. *)
Class Collaborators : Type := {
  (** [gt.label_components(G)]: the component label of every stored vertex
      ([comp.a]) and the size of every component. *)
  label_components : GT.Graph -> list nat * list nat;
  (** [gt.kcore_decomposition(G).a]: a core number per stored vertex. *)
  kcore_values : GT.Graph -> list Z;
  (** [./app/bin/graph_peeling.bin -t core -o core]: from the lines written
      to its standard input to the lines read from its standard output. *)
  graph_peeling_bin : list string -> list string;
  (** [log2] on a positive double. *)
  libm_log2 : float -> float;
  (** A finite double in fixed notation with two decimals. *)
  format_fixed2 : float -> string;
}.

(** The state a helper can read and change: the application's graph object
    (shared, so a filter set by one call is seen by the next), the counter
    that names new objects, the standard input handed to each peeling
    process launched so far, and the files written. *)
Record World : Type := mkWorld {
  the_graph : GT.Graph;
  next_oid : nat;
  spawned : list (list string);
  files : gmap string (list string);
}.

(** A computation: runs in a world, returns a value or raises, and leaves
    a world behind.  What was changed before an exception stays changed. *)
Definition M (A : Type) : Type := World -> res A * World.

#[export] Instance res_ret : MRet res := fun _ a => Ok a.
#[export] Instance res_bind : MBind res := fun _ _ k r => bind r k.

#[export] Instance M_ret : MRet M := fun _ a w => (Ok a, w).
#[export] Instance M_bind : MBind M := fun _ _ k m w =>
  match m w with
  | (Ok a, w') => k a w'
  | (Raise e, w') => (Raise e, w')
  end.

Definition lift {A} (r : res A) : M A := fun w => (r, w).

Definition get_graph : M GT.Graph := fun w => (Ok (the_graph w), w).

Definition modify_graph (f : GT.Graph -> GT.Graph) : M unit := fun w =>
  (Ok tt, mkWorld (f (the_graph w)) (next_oid w) (spawned w) (files w)).

(** A list display [[...]] or a NumPy constructor: a new object. *)
Definition new_seq (l : list Z) : M seqobj := fun w =>
  (Ok (SeqObj (next_oid w) l),
   mkWorld (the_graph w) (S (next_oid w)) (spawned w) (files w)).

(** [Popen], the writes to [p.stdin] up to [close], and the lines that
    [p.stdout.readline()] then returns.  The process is taken to read all
    that it is sent: the writes themselves do not fail. *)
Definition run_peeling `{Collaborators} (stdin : list string)
  : M (list string) := fun w =>
  (Ok (graph_peeling_bin stdin),
   mkWorld (the_graph w) (next_oid w) (spawned w ++ [stdin]) (files w)).

(** [open(filename, 'w')] and the writes until the file is closed. *)
Definition write_file (filename : string) (lines : list string) : M unit :=
  fun w =>
  (Ok tt,
   mkWorld (the_graph w) (next_oid w) (spawned w)
           (<[filename := lines]> (files w))).

End Env.

(* ===================================================================== *)
(** * app/Helpers.py *)
(* ===================================================================== *)

Module Helpers.
Import Py Env.
Export HPT.

Local Open Scope string_scope.

(** The line feed that ends every line of the text protocols. *)
Definition LF : string := String (ascii_of_nat 10) EmptyString.

(** [collections.Counter(xs)] *)
Definition Counter `{Countable K} (xs : list K) : gmap K nat :=
  fold_left (fun c x => <[x := S (default 0%nat (c !! x))]> c) xs ∅.

(** [sorted(d.keys())] of a dictionary with integer keys *)
Definition sorted_keys {V} (d : gmap Z V) : list Z :=
  merge_sort Z.le (map fst (map_to_list d)).

(** [sorted(d.items())] of a dictionary with natural-number keys: keys are
    distinct, so the order of the pairs is the order of the keys. *)
Definition key_le {V} (a b : nat * V) : Prop := (a.1 <= b.1)%nat.
#[export] Instance key_le_dec {V} : RelDecision (@key_le V) :=
  fun a b => decide (a.1 <= b.1)%nat.
Definition sorted_items {V} (d : gmap nat V) : list (nat * V) :=
  merge_sort key_le (map_to_list d).

(** [a, b = [list(t) for t in zip( *d.items())]]: the keys and the values,
    in the order of the dictionary; with no item there is nothing to
    unpack and the assignment raises. *)
Definition unzip_items {K V} (its : list (K * V)) : res (list K * list V) :=
  match its with
  | [] => Raise ValueError
  | _ => Ok (map fst its, map snd its)
  end.

(** The two default arguments [vlist=[]] and [elist=[]]: two empty lists
    made once, when the function is defined. *)
Definition default_vlist : seqobj := SeqObj 0 [].
Definition default_elist : seqobj := SeqObj 1 [].

(** ['{} {}\n'.format(e.source(), e.target())] *)
Definition edge_line (e : nat * nat) : string :=
  pretty e.1 +:+ " " +:+ pretty e.2 +:+ LF.

(** What the reading loop does with a line that starts with [Core]:

<<
        peel, vertices = line.split(' = ')
        peel = int(peel.split('_')[-1])
        vertices = vertices.strip().split()
>>
    Unpacking raises unless the split gives two pieces exactly. *)
Definition parse_core_line (line : string) : res (Z * list string) :=
  match split line " = " with
  | [peel; vertices] =>
      peel ← int (last_piece (split peel "_"));
      let vertices := split_ws (strip vertices) in
      Ok (peel, vertices)
  | _ => Raise ValueError
  end.

(** The reading loop of [kcore_decomposition] over the lines that
    [readline] returns; past the last line [readline] returns [''].

<<
    while True:
        line = p.stdout.readline()
        if line == '': break
        if not line.startswith('Core'): continue
        ...
        peel_partition[peel] = vertices
>> *)
Fixpoint read_core_lines (lines : list string)
  (peel_partition : gmap Z (list string)) : res (gmap Z (list string)) :=
  match lines with
  | [] => Ok peel_partition
  | line :: rest =>
      if String.eqb line "" then Ok peel_partition
      else if negb (startswith line "Core") then
        read_core_lines rest peel_partition
      else
        '(peel, vertices) ← parse_core_line line;
        read_core_lines rest (<[peel := vertices]> peel_partition)
  end.

(** Lines 95-98 of [kcore_decomposition]: each [[]] is a list made on the
    spot, and [is] compares identities.

<<
        if vlist is []:
            vlist = np.ones_like(vp.a)
        elif elist is []:
            elist = np.ones_like(ep.a)
>> *)
Definition rebind_empty (vp ep : list bool) (vlist elist : seqobj)
  : M (seqobj * seqobj) :=
  lit ← new_seq [];
  if is_ vlist lit then
    ones ← new_seq (Np.ones_like vp); mret (ones, elist)
  else
    lit ← new_seq [];
    if is_ elist lit then
      ones ← new_seq (Np.ones_like ep); mret (vlist, ones)
    else mret (vlist, elist).

Section WithCollaborators.
Context `{Collaborators}.

(** [kcore_decomposition(G, vlist, elist)], [G] being the graph of the
    world. *)
Definition kcore_decomposition (vlist elist : seqobj)
  : M (gmap Z (list string)) :=
  (* initiate filters, if necessary *)
  (if truthy_list vlist || truthy_list elist then
     G ← get_graph;
     let vp := GT.new_vp G false in
     let ep := GT.new_ep G false in
     '(vlist, elist) ← rebind_empty vp ep vlist elist;
     vp ← lift (Np.setitem_fancy vp (items vlist) true);
     ep ← lift (Np.setitem_fancy ep (items elist) true);
     modify_graph (fun G => GT.set_vertex_filter G vp);;
     modify_graph (fun G => GT.set_edge_filter G ep)
   else mret tt);;
  G ← get_graph;
  out ← run_peeling (map edge_line (GT.edges G));
  lift (read_core_lines out ∅).

End WithCollaborators.

(** [traverse_tree]: the loop over [sub_ids]. *)
Fixpoint walk (node : PartitionNode) (sub_ids : list string)
  : res PartitionNode :=
  match sub_ids with
  | [] => Ok node
  | s :: rest =>
      idx ← int (last_piece (split s "_"));
      node ← getitem (children node) idx;
      walk node rest
  end.

(** Lines 139-141: the tokens of the label, a leading [root] dropped. *)
Definition label_tokens (fully_qualified_label : string) : list string :=
  let sub_ids := split fully_qualified_label "|" in
  match sub_ids with
  | s0 :: tl => if String.eqb (lower s0) "root" then tl else sub_ids
  | [] => sub_ids
  end.

Definition traverse_tree (T : PartitionTree) (fully_qualified_label : string)
  : res PartitionNode :=
  if String.eqb (lower fully_qualified_label) "root" then Ok (root T)
  else walk (root T) (label_tokens fully_qualified_label).

Definition get_indices (T : PartitionTree) (fully_qualified_label : string)
  : res (list Z * list Z) :=
  node ← traverse_tree T fully_qualified_label;
  if negb (Nat.eqb (length (vertex_indices node)) 0)
  then Ok (vertex_indices node, edge_indices node)
  else Ok (collect_indices node).

(** The value a caller binds to the name [G]: [None] while no graph is
    loaded, else the graph object of the world. *)
Inductive graph_arg : Type := NoGraph | TheGraph.

(** The dictionary [statistics] returns. *)
Record Report : Type := mkReport {
  num_vertices : nat;
  num_edges : nat;
  num_cc : nat;
  num_singletons : nat;
  vlogv : string;
  deg_bins : list nat;
  deg_counts : list nat;
  cc_sizes : list nat;
  cc_counts : list nat;
  peel_bins : list Z;
  peel_counts : list nat;
}.

Inductive stats_result : Type :=
| Message (msg : string)
| Stats (r : Report).

(** A count as a double. *)
Definition float_of_nat (n : nat) : float :=
  PrimFloat.of_uint63 (Uint63.of_Z (Z.of_nat n)).

(** [('{} ' + ('{} ' * len(neighbors))[:-1] + '\n').format(v, *neighbors)]:
    the vertex, a space, the neighbours separated by spaces. *)
Definition adjacency_line (v : nat) (neighbors : list nat) : string :=
  pretty v +:+ " " +:+ String.concat " " (map pretty neighbors) +:+ LF.

Section Statistics.
Context `{Collaborators}.

(** [np.log2(n)] of a count: minus infinity at zero. *)
Definition np_log2 (n : nat) : float :=
  if Nat.eqb n 0 then neg_infinity else libm_log2 (float_of_nat n).

(** [float_formatter = lambda x: '{:.2f}'.format(x)] *)
Definition float_formatter (x : float) : string :=
  if PrimFloat.is_nan x then "nan"
  else if PrimFloat.eqb x infinity then "inf"
  else if PrimFloat.eqb x neg_infinity then "-inf"
  else format_fixed2 x.

(** Lines 49-53: the exact strategy. *)
Definition exact_peel_histogram : M (list Z * list nat) :=
  peel_partition ← kcore_decomposition default_vlist default_elist;
  let peel_bins := sorted_keys peel_partition in
  (* every k is a key of peel_partition *)
  let peel_counts :=
    map (fun k => length (default [] (peel_partition !! k))) peel_bins in
  mret (peel_bins, peel_counts).

(** Lines 57-59: the fast strategy. *)
Definition fast_peel_histogram (G : GT.Graph) (v_idx : list nat)
  : res (list Z * list nat) :=
  let kcore := kcore_values G in
  picked ← Np.take kcore v_idx;
  let C := Counter picked in
  unzip_items (map_to_list C).

Definition statistics (G : graph_arg) : M stats_result :=
  match G with
  | NoGraph => mret (Message "No Graph Loaded")
  | TheGraph =>
      G ← get_graph;
      let v_idx :=
        match GT.vertex_filter G with
        | Some vfilt => Np.where_true vfilt
        | None => Np.arange (GT.num_vertices G)
        end in

      let '(deg_counts, deg_bins) := GT.vertex_hist G in
      let incl_idx := Np.where_nonzero deg_counts in
      deg_bins ← lift (Np.take deg_bins incl_idx);
      deg_counts ← lift (Np.take deg_counts incl_idx);

      let '(comp, cc_hist) := label_components G in
      let cc_size_counts := sorted_items (Counter cc_hist) in
      let cc_sizes := map fst cc_size_counts in
      let cc_counts := map snd cc_size_counts in

      let num_cc := Np.count_unique comp in
      bin0 ← lift (getitem deg_bins 0);
      num_singletons ←
        (if Nat.eqb bin0 0 then lift (getitem deg_counts 0) else mret 0%nat);

      '(peel_bins, peel_counts) ←
        (if truthy_obj (GT.vertex_filter G) || truthy_obj (GT.edge_filter G)
         then (* Always correct, but much slower *)
           exact_peel_histogram
         else (* Very fast, but unstable for graphs with filters *)
           lift (fast_peel_histogram G v_idx));

      G ← get_graph;
      let vlogv :=
        PrimFloat.mul (float_of_nat (GT.num_vertices G))
                      (np_log2 (GT.num_vertices G)) in

      mret (Stats {|
        num_vertices := GT.num_vertices G;
        num_edges := GT.num_edges G;
        num_cc := num_cc;
        num_singletons := num_singletons;
        vlogv := float_formatter vlogv;
        deg_bins := deg_bins;
        deg_counts := deg_counts;
        cc_sizes := cc_sizes;
        cc_counts := cc_counts;
        peel_bins := peel_bins;
        peel_counts := peel_counts;
      |})
  end.

End Statistics.

(** [save_adjacency(G, vlist, elist, filename)], [G] being the graph of the
    world; returns the text of the confirmation. *)
Definition save_adjacency (vlist elist : seqobj) (filename : string)
  : M string :=
  (* get proper indices *)
  G ← get_graph;
  let vp := GT.new_vp G false in
  let ep := GT.new_ep G false in
  vp ← lift (Np.setitem_fancy vp (items vlist) true);
  ep ← lift (Np.setitem_fancy ep (items elist) true);
  modify_graph (fun G => GT.set_vertex_filter G vp);;
  modify_graph (fun G => GT.set_edge_filter G ep);;

  G ← get_graph;
  write_file filename
    (map (fun v => adjacency_line v (GT.out_neighbours G v)) (GT.vertices G));;
  mret ("Adjacency saved as " +:+ filename).

End Helpers.

(* ===================================================================== *)
(** * Reference collaborators

    Executable stand-ins for what lives outside [Helpers.py], used to run
    the helpers on concrete graphs.  The properties below that quantify
    over [Collaborators] do not depend on them. *)
(* ===================================================================== *)

Module Ref.
Import Py Env Helpers.
Local Open Scope string_scope.
Local Open Scope nat_scope.

(** The degree of [v] in an edge list, both directions counted. *)
Definition degree (es : list (nat * nat)) (v : nat) : nat :=
  length (List.filter (fun e => e.1 =? v) es)
  + length (List.filter (fun e => e.2 =? v) es).

(** Modelled from the spec: the classical degeneracy ordering.  Repeatedly
    remove a vertex of minimum remaining degree; its core number is the
    largest removal degree seen so far; the degrees of its neighbours drop
    with the removal of its edges. *)
Fixpoint peel (fuel : nat) (vs : list nat) (es : list (nat * nat)) (k : nat)
  : list (nat * nat) :=
  match fuel, vs with
  | S fuel, v0 :: _ =>
      let v :=
        fold_left (fun best u => if degree es u <? degree es best then u else best)
                  vs v0 in
      let k := Nat.max k (degree es v) in
      (v, k)
        :: peel fuel (List.filter (fun u => negb (u =? v)) vs)
                (List.filter (fun e => negb ((e.1 =? v) || (e.2 =? v))) es) k
  | _, _ => []
  end.

Definition core_numbers (vs : list nat) (es : list (nat * nat))
  : list (nat * nat) :=
  peel (length vs) vs es 0.

Definition core_of (cores : list (nat * nat)) (v : nat) : nat :=
  match List.find (fun p => p.1 =? v) cores with
  | Some p => p.2
  | None => 0
  end.

(** The whole-graph decomposition of the library: the core number of every
    stored vertex in the current view (0 for a vertex that is filtered out). *)
Definition ref_kcore_values (G : GT.Graph) : list Z :=
  let cores := core_numbers (GT.vertices G) (GT.edges G) in
  map (fun v => Z.of_nat (core_of cores v)) (seq 0 (GT.num_stored G)).

(** Modelled from the spec: the peeling executable.  One line
    [<source> <target>] per edge comes in; one line
    [Core_<k> = <id> ... <id>] per core number goes out.  The executable
    knows the vertices that occur in some edge, and no others. *)
Definition parse_edge (line : string) : option (nat * nat) :=
  match split_ws line with
  | [a; b] =>
      match int a, int b with
      | Ok x, Ok y => Some (Z.to_nat x, Z.to_nat y)
      | _, _ => None
      end
  | _ => None
  end.

Definition core_line (cores : list (nat * nat)) (k : nat) : string :=
  "Core_" +:+ pretty k +:+ " = "
  +:+ String.concat " "
        (map (fun p => pretty p.1) (List.filter (fun p => p.2 =? k) cores))
  +:+ LF.

Definition ref_graph_peeling_bin (stdin : list string) : list string :=
  let es := omap parse_edge stdin in
  let vs := remove_dups (flat_map (fun e => [e.1; e.2]) es) in
  let cores := core_numbers vs es in
  let ks := merge_sort le (remove_dups (map snd cores)) in
  map (core_line cores) ks.

(** Connected components by propagating the smallest vertex index along
    the visible edges until nothing changes. *)
Definition relax (es : list (nat * nat)) (lab : list nat) : list nat :=
  fold_left
    (fun lab e =>
       match lab !! e.1, lab !! e.2 with
       | Some a, Some b => <[e.1 := Nat.min a b]> (<[e.2 := Nat.min a b]> lab)
       | _, _ => lab
       end)
    es lab.

Definition ref_label_components (G : GT.Graph) : list nat * list nat :=
  let n := GT.num_stored G in
  let lab := Nat.iter n (relax (GT.edges G)) (seq 0 n) in
  let reps := remove_dups (map (fun v => default 0 (lab !! v)) (GT.vertices G)) in
  let label_of v :=
    if GT.vertex_visible G v
    then default 0 (fst <$> list_find (Nat.eqb (default 0 (lab !! v))) reps)
    else 0 in
  (map label_of (seq 0 n),
   map (fun r => length (List.filter
                   (fun v => default 0 (lab !! v) =? r) (GT.vertices G)))
       reps).

(** ['{:.2f}'.format(x)] of a finite double, computed on its exact value
    [m * 2^e]: the nearest multiple of 1/100, ties to the even one. *)
Definition hundredths (m : positive) (e : Z) : Z :=
  if (0 <=? e)%Z then (Z.pos m * 2 ^ e * 100)%Z
  else
    let num := (Z.pos m * 100)%Z in
    let den := (2 ^ (- e))%Z in
    let q := (num / den)%Z in
    let r := (num mod den)%Z in
    if (den <? 2 * r)%Z || ((den =? 2 * r)%Z && Z.odd q) then (q + 1)%Z else q.

Definition two_digits (n : Z) : string :=
  (if (n <? 10)%Z then "0" else "") +:+ pretty n.

Definition ref_format_fixed2 (x : float) : string :=
  match Prim2SF x with
  | S754_zero s => (if s then "-" else "") +:+ "0.00"
  | S754_finite s m e =>
      let h := hundredths m e in
      (if s then "-" else "") +:+ pretty (h / 100)%Z +:+ "."
      +:+ two_digits (h mod 100)%Z
  | S754_infinity s => if s then "-inf" else "inf"
  | S754_nan => "nan"
  end.

(** [log2] of a positive double: split off the binary exponent, then sum
    the series of the inverse hyperbolic tangent for the mantissa. *)
Definition float_of_Z (z : Z) : float :=
  if (z <? 0)%Z then PrimFloat.opp (PrimFloat.of_uint63 (Uint63.of_Z (- z)))
  else PrimFloat.of_uint63 (Uint63.of_Z z).

Fixpoint atanh_series (terms : nat) (k : Z) (t2 pow : float) : float :=
  match terms with
  | O => PrimFloat.zero
  | S terms =>
      PrimFloat.add (PrimFloat.div pow (float_of_Z (2 * k + 1)))
                    (atanh_series terms (k + 1) t2 (PrimFloat.mul pow t2))
  end.

Definition ln (m : float) : float :=
  let t := PrimFloat.div (PrimFloat.sub m PrimFloat.one)
                         (PrimFloat.add m PrimFloat.one) in
  PrimFloat.mul PrimFloat.two (atanh_series 24 0 (PrimFloat.mul t t) t).

Definition ref_libm_log2 (x : float) : float :=
  let (m, e) := Z.frexp x in
  PrimFloat.add (float_of_Z e) (PrimFloat.div (ln m) (ln PrimFloat.two)).

(** The reference collaborators. *)
Definition reference : Collaborators := {|
  label_components := ref_label_components;
  kcore_values := ref_kcore_values;
  graph_peeling_bin := ref_graph_peeling_bin;
  libm_log2 := ref_libm_log2;
  format_fixed2 := ref_format_fixed2;
|}.


(** The same, with a peeling process that prints a diagnostic line and then
    a result line whose core number is not an integer. *)
Definition garbled : Collaborators := {|
  label_components := ref_label_components;
  kcore_values := ref_kcore_values;
  graph_peeling_bin := fun _ => ["reading edges" +:+ LF; "Core_x = 0 1" +:+ LF];
  libm_log2 := ref_libm_log2;
  format_fixed2 := ref_format_fixed2;
|}.

(** The same, with a peeling process that prints two result lines, a
    diagnostic in between, and a third result line that repeats the core
    number of the first. *)
Definition talkative : Collaborators := {|
  label_components := ref_label_components;
  kcore_values := ref_kcore_values;
  graph_peeling_bin := fun _ =>
    ["Core_1 = 0 4" +:+ LF; "peeling" +:+ LF; "Core_2 = 1 2 3" +:+ LF;
     "Core_1 = 0" +:+ LF];
  libm_log2 := ref_libm_log2;
  format_fixed2 := ref_format_fixed2;
|}.

(** A world in which the graph has just been loaded: the two default
    argument lists exist, and nothing else. *)
Definition fresh_world (G : GT.Graph) : World := mkWorld G 2 [] ∅.

(** The graphs of the end-to-end examples. *)
Definition path5 : GT.Graph :=
  GT.mkGraph false 5 [(0, 1); (1, 2); (2, 3); (3, 4)] None None.
Definition isolated (n : nat) : GT.Graph := GT.mkGraph false n [] None None.

(** A graph seen through a vertex filter that lets every vertex pass. *)
Definition all_visible (G : GT.Graph) : GT.Graph :=
  GT.set_vertex_filter G (GT.new_vp G true).

(** A graph seen through a vertex filter that lets no vertex pass. *)
Definition none_visible (G : GT.Graph) : GT.Graph :=
  GT.set_vertex_filter G (GT.new_vp G false).

(** A partition tree: a root with two leaves. *)
Definition two_leaves : PartitionTree :=
  mkTree (Node [] [] [Node [0; 1]%Z [0]%Z []; Node [2; 3]%Z [1]%Z []]).

End Ref.

(* ===================================================================== *)
(** * Notions used to state the properties *)
(* ===================================================================== *)

Module Notions.
Import Py Env Helpers.
Local Open Scope string_scope.
Local Open Scope nat_scope.

(** The lines sent to the peeling process: one per visible edge. *)
Definition edge_stream (G : GT.Graph) : list string :=
  map edge_line (GT.edges G).

(** The world after a peeling process has been fed the edges of [G]. *)
Definition after_peeling (w : World) : World :=
  mkWorld (the_graph w) (next_oid w)
          (spawned w ++ [edge_stream (the_graph w)]) (files w).

(** The graph with both filters replaced. *)
Definition with_filters (G : GT.Graph) (vp ep : list bool) : GT.Graph :=
  GT.set_edge_filter (GT.set_vertex_filter G vp) ep.

(** A line of the process that the reading loop passes over: not the
    end of the stream, and not starting with [Core]. *)
Definition diagnostic (line : string) : Prop :=
  line <> "" /\ startswith line "Core" = false.






(** The number of visible vertices of out-degree [d]. *)
Definition degree_count (G : GT.Graph) (d : nat) : nat :=
  length (List.filter (Nat.eqb d) (map (GT.out_degree G) (GT.vertices G))).

(** The largest out-degree in the view. *)
Definition top_degree (G : GT.Graph) : nat :=
  foldr Nat.max 0 (map (GT.out_degree G) (GT.vertices G)).

(** The degrees that some visible vertex has, in ascending order. *)
Definition occupied_bins (G : GT.Graph) : list nat :=
  List.filter (fun d => negb (degree_count G d =? 0))
              (seq 0 (S (top_degree G))).

(** Whether a filter is set on the graph. *)
Definition filter_active (G : GT.Graph) : Prop :=
  GT.vertex_filter G <> None \/ GT.edge_filter G <> None.

(** The positions [statistics] groups core numbers over (lines 27-31). *)
Definition active_index (G : GT.Graph) : list nat :=
  match GT.vertex_filter G with
  | Some vfilt => Np.where_true vfilt
  | None => Np.arange (GT.num_vertices G)
  end.

(** Lines 49-59 of [statistics]: one strategy or the other. *)
Definition peel_histogram `{Collaborators} (G : GT.Graph)
  : M (list Z * list nat) :=
  if truthy_obj (GT.vertex_filter G) || truthy_obj (GT.edge_filter G)
  then exact_peel_histogram
  else lift (fast_peel_histogram G (active_index G)).

(** The report assembled from the pieces. *)
Definition report_of `{Collaborators} (G : GT.Graph)
    (bins : list nat) (singletons : nat) (peel : list Z * list nat)
  : Report :=
  let cc := sorted_items (Counter (label_components G).2) in
  {| num_vertices := GT.num_vertices G;
     num_edges := GT.num_edges G;
     num_cc := Np.count_unique (label_components G).1;
     num_singletons := singletons;
     vlogv := float_formatter
                (PrimFloat.mul (float_of_nat (GT.num_vertices G))
                               (np_log2 (GT.num_vertices G)));
     deg_bins := bins;
     deg_counts := map (degree_count G) bins;
     cc_sizes := map fst cc;
     cc_counts := map snd cc;
     peel_bins := peel.1;
     peel_counts := peel.2 |}.

(** The outcome of [statistics] on a peeling histogram that a strategy
    delivered or failed to deliver: a report holding that histogram, or the
    exception of the strategy. *)
Definition reports_peel (out : res stats_result)
    (peel : res (list Z * list nat)) : Prop :=
  match peel with
  | Ok h => exists r, out = Ok (Stats r) /\ (peel_bins r, peel_counts r) = h
  | Raise e => out = Raise e
  end.

(** The histogram the exact strategy makes of the output of the peeling
    process on the visible edges of [G]: the bucket sizes by ascending core
    number. *)
Definition exact_histogram_of `{Collaborators} (G : GT.Graph)
  : res (list Z * list nat) :=
  pp ← read_core_lines (graph_peeling_bin (edge_stream G)) ∅;
  Ok (sorted_keys pp,
      map (fun k => length (default [] (pp !! k))) (sorted_keys pp)).

(** [statistics], started in [w], ran the exact strategy: one peeling
    process was launched and fed the visible edges, and the outcome is
    that of the histogram made of its output. *)
Definition ran_exact `{Collaborators}
    (w : World) (run : res stats_result * World) : Prop :=
  spawned run.2 = (spawned w ++ [edge_stream (the_graph w)])%list
  /\ reports_peel run.1 (exact_histogram_of (the_graph w)).

(** [statistics], started in [w], ran the fast strategy: no process was
    launched, and the outcome is that of the library's decomposition
    counted over the visible vertices. *)
Definition ran_fast `{Collaborators}
    (w : World) (run : res stats_result * World) : Prop :=
  spawned run.2 = spawned w
  /\ reports_peel run.1
       (fast_peel_histogram (the_graph w) (GT.vertices (the_graph w))).

(** The identifier [id] is listed in the bucket of core number [k]. *)
Definition in_bucket (pp : gmap Z (list string)) (id : string) (k : Z)
  : Prop :=
  exists ids, pp !! k = Some ids /\ id ∈ ids.

(** The buckets partition the vertices [vs]: every vertex of [vs] is
    listed, under its decimal identifier, in one bucket and one only, and
    the buckets list nothing else. *)
Definition partitions (pp : gmap Z (list string)) (vs : list nat) : Prop :=
  (forall v, v ∈ vs ->
     exists k, in_bucket pp (pretty v) k
               /\ forall k', in_bucket pp (pretty v) k' -> k' = k)
  /\ (forall id k, in_bucket pp id k -> exists v, v ∈ vs /\ id = pretty v).

(** The histogram of a strategy as a mapping from core number to count. *)
Definition histogram_map (h : list Z * list nat) : gmap Z nat :=
  list_to_map (zip h.1 h.2).

(** The number of vertices a histogram accounts for. *)
Definition total_count (m : gmap Z nat) : nat :=
  map_fold (fun _ c acc => c + acc) 0 m.

(** Both strategies succeed on the graph of [w] and give the same
    histogram. *)
Definition strategies_agree `{Collaborators} (w : World) : Prop :=
  exists he hf,
    fst (exact_peel_histogram w) = Ok he
    /\ fast_peel_histogram (the_graph w) (GT.vertices (the_graph w)) = Ok hf
    /\ histogram_map he = histogram_map hf.

End Notions.

(* ===================================================================== *)
(** * Further notions, for the properties beyond the claims *)
(* ===================================================================== *)

Module Further.
Import Py Env Helpers Notions.
Local Open Scope string_scope.
Local Open Scope nat_scope.

(** The integer a token of a label ends in, as [traverse_tree] reads it:
    [int(s.split('_')[-1])]. *)
Definition token_index (s : string) : res Z :=
  int (last_piece (split s "_")).

(** The node found by going down from [node] along zero-based child
    positions. *)
Fixpoint descend (node : PartitionNode) (path : list nat)
  : option PartitionNode :=
  match path with
  | [] => Some node
  | i :: rest =>
      match children node !! i with
      | Some child => descend child rest
      | None => None
      end
  end.

(** Two graph objects that store the same vertices and edges and may
    differ in their filters. *)
Definition same_storage (G1 G2 : GT.Graph) : Prop :=
  GT.directed G1 = GT.directed G2
  /\ GT.num_stored G1 = GT.num_stored G2
  /\ GT.stored_edges G1 = GT.stored_edges G2.

(** An index that NumPy rejects for an array of [n] entries. *)
Definition out_of_range (n : nat) (i : Z) : Prop :=
  (i < - Z.of_nat n \/ Z.of_nat n <= i)%Z.

(** What [statistics] leaves alone. *)
Definition same_but_spawned (w w' : World) : Prop :=
  the_graph w' = the_graph w
  /\ next_oid w' = next_oid w
  /\ files w' = files w.

(** The sum of the products of two aligned sequences. *)
Definition weighted_sum (bins counts : list nat) : nat :=
  sum_list (zip_with Nat.mul bins counts).

End Further.

(* ===================================================================== *)
(** * app/Helpers.py: the exports for Vis.js *)
(* ===================================================================== *)

Module Vis.
Local Open Scope string_scope.

(** The Python values that property maps and the exported dictionaries
    hold. *)
Inductive value : Type :=
| VStr (s : string)
| VInt (z : Z)
| VBool (b : bool).

(** [str(x)], as ['{}'.format(x)] prints a value. *)
Definition str (x : value) : string :=
  match x with
  | VStr s => s
  | VInt z => pretty z
  | VBool b => if b then "True" else "False"
  end.

(** [bool(x)] *)
Definition truthy (x : value) : bool :=
  match x with
  | VStr s => negb (String.eqb s "")
  | VInt z => negb (z =? 0)%Z
  | VBool b => b
  end.

(** The outcome of an export: a value, or the [KeyError] of a dictionary
    that lacks the key asked for. *)
Inductive outcome (A : Type) : Type :=
| Returns (a : A)
| KeyError (key : value).
Arguments Returns {A} a.
Arguments KeyError {A} key.

#[export] Instance outcome_ret : MRet outcome := fun _ a => Returns a.
#[export] Instance outcome_bind : MBind outcome := fun _ _ k r =>
  match r with
  | Returns a => k a
  | KeyError key => KeyError key
  end.

(** [d[k]] on a dictionary; [shown] is the key as the error reports it. *)
Definition getkey `{Countable K} {V} (d : gmap K V) (k : K) (shown : value)
  : outcome V :=
  match d !! k with
  | Some x => Returns x
  | None => KeyError shown
  end.

(** A [for] loop that appends one item per element, left to right; the
    first [KeyError] ends it. *)
Fixpoint for_each {A B} (f : A -> outcome B) (l : list A) : outcome (list B) :=
  match l with
  | [] => Returns []
  | x :: rest =>
      y ← f x;
      ys ← for_each f rest;
      Returns (y :: ys)
  end.

(** A dictionary display [{'k': v, ...}]. *)
Definition dict (items : list (string * value)) : gmap string value :=
  list_to_map items.

(** A graph with its property dictionaries [G.vp] and [G.ep]: a named map
    gives a value to every stored vertex (edge). *)
Record PropGraph : Type := mkPropGraph {
  graph : GT.Graph;
  vp : gmap string (nat -> value);
  ep : gmap string (nat -> value);
}.

(** [G.edges()] with [G.edge_index[e]]: index, source and target of every
    visible edge. *)
Definition edges_indexed (G : GT.Graph) : list (nat * (nat * nat)) :=
  List.filter (GT.edge_visible G) (imap pair (GT.stored_edges G)).

(** What every export returns: [{'nodes': nodes, 'edges': edges}]. *)
Record VisData : Type := mkVisData {
  nodes : list (gmap string value);
  edges : list (gmap string value);
}.

Definition of_nat (n : nat) : value := VInt (Z.of_nat n).

(** [to_vis_json(G, filename=None)] *)
Definition to_vis_json (G : PropGraph) (filename : option string)
  : outcome VisData :=
  nodes ← for_each (fun v =>
      let v_id := of_nat v in
      ids ← getkey (vp G) "id" (VStr "id");
      let label := ids v in
      let group := VInt 1 in
      let title := label in
      let value := of_nat (GT.out_degree (graph G) v) in
      Returns (dict [("id", v_id); ("label", label); ("title", title);
                     ("value", value); ("group", group)]))
    (GT.vertices (graph G));
  edges ← for_each (fun e =>
      let src := of_nat e.2.1 in
      let tar := of_nat e.2.2 in
      Returns (dict [("id", of_nat e.1); ("from", src); ("to", tar)]))
    (edges_indexed (graph G));
  Returns (mkVisData nodes edges).

(** [to_vis_json_bcc_tree(G, filename=None)] *)
Definition to_vis_json_bcc_tree (G : PropGraph) (filename : option string)
  : outcome VisData :=
  let AP_GROUP := VInt 0 in
  let BCC_METANODE_GROUP := VInt 1 in
  nodes ← for_each (fun v =>
      let v_id := of_nat v in
      counts ← getkey (vp G) "count" (VStr "count");
      let count := counts v in
      arts ← getkey (vp G) "is_articulation" (VStr "is_articulation");
      let is_art := arts v in
      '(label, title, group) ←
        (if truthy is_art then
           ids ← getkey (vp G) "id" (VStr "id");
           let label := ids v in
           let title := VStr ("AP: " +:+ str label) in
           Returns (label, title, AP_GROUP)
         else
           let title :=
             VStr ("BCC: " +:+ str v_id +:+ " | Count: " +:+ str count) in
           let label := title in
           Returns (label, title, BCC_METANODE_GROUP));
      let value := count in
      Returns (dict [("id", v_id); ("label", label); ("title", title);
                     ("value", value); ("group", group)]))
    (GT.vertices (graph G));
  edges ← for_each (fun e =>
      let src := of_nat e.2.1 in
      let tar := of_nat e.2.2 in
      counts ← getkey (ep G) "count" (VStr "count");
      Returns (dict [("id", of_nat e.1); ("from", src); ("to", tar);
                     ("value", counts e.1)]))
    (edges_indexed (graph G));
  Returns (mkVisData nodes edges).

(** [to_vis_json_cluster_map(G, cluster_assignment, landmark_map, spine,
    branches)]; an edge in [spine] or [branches] is known by its index. *)
Definition to_vis_json_cluster_map (G : PropGraph)
    (cluster_assignment : gmap nat value) (landmark_map : gset nat)
    (spine branches : gset nat) : outcome VisData :=
  nodes ← for_each (fun v =>
      let v_id := of_nat v in
      ids ← getkey (vp G) "id" (VStr "id");
      let label := ids v in
      let title := label in
      let value := of_nat (GT.out_degree (graph G) v) in
      group ← getkey cluster_assignment v v_id;
      let '(shape, border_width) :=
        if bool_decide (v ∈ landmark_map) then (VStr "star", VInt 2)
        else (VStr "dot", VInt 1) in
      Returns (dict [("id", v_id); ("label", label); ("title", title);
                     ("value", value); ("group", group); ("shape", shape);
                     ("borderWidth", border_width)]))
    (GT.vertices (graph G));
  edges ← for_each (fun e =>
      let src := of_nat e.2.1 in
      let tar := of_nat e.2.2 in
      let category :=
        if bool_decide (e.1 ∈ spine) then VStr "spine"
        else if bool_decide (e.1 ∈ branches) then VStr "branch"
        else VStr "none" in
      Returns (dict [("id", of_nat e.1); ("from", src); ("to", tar);
                     ("category", category)]))
    (edges_indexed (graph G));
  Returns (mkVisData nodes edges).

(** [enumerate(l)] *)
Definition enumerate {A} (l : list A) : list (nat * A) := imap pair l.

(** A dictionary that is only walked: its items in the order in which
    [iteritems()] yields them, no key twice. *)
Definition items (K V : Type) : Type := list (K * V).

Definition keys {K V} (d : items K V) : list K := map fst d.

(** [to_vis_json_metagraph(metanodes, cross_edges)]: [metanodes] maps an
    identifier to the dictionary of a metanode, [cross_edges] a pair of
    identifiers to the list of edge indices running between them. *)
Definition to_vis_json_metagraph
    (metanodes : items Z (gmap string value))
    (cross_edges : items (Z * Z) (list Z)) : outcome VisData :=
  nodes ← for_each (fun '(mn_id, node_info) =>
      long_label ← getkey node_info "fully_qualified_label"
                     (VStr "fully_qualified_label");
      nv ← getkey node_info "num_vertices" (VStr "num_vertices");
      ne ← getkey node_info "num_edges" (VStr "num_edges");
      let title_html :=
        VStr ("<p>" +:+ str long_label +:+ "<br>|V|: " +:+ str nv
              +:+ "<br>|E|: " +:+ str ne) in
      short ← getkey node_info "short_label" (VStr "short_label");
      value ← getkey node_info "num_vertices" (VStr "num_vertices");
      Returns (dict [("id", VInt mn_id); ("label", short);
                     ("title", title_html); ("value", value)]))
    metanodes;
  edges ← for_each (fun '(idx, (e, edge_indices)) =>
      let value := of_nat (length edge_indices) in
      Returns (dict [("id", of_nat idx); ("from", VInt e.1); ("to", VInt e.2);
                     ("value", value);
                     ("title", VStr ("meta-edge size: " +:+ str value))]))
    (enumerate cross_edges);
  Returns (mkVisData nodes edges).

End Vis.

(* ===================================================================== *)
(** * Reading an export; sample inputs *)
(* ===================================================================== *)

Module VisRef.
Import Vis.
Local Open Scope string_scope.

(** The entries that a list of exported dictionaries holds under a key. *)
Definition field (k : string) (ds : list (gmap string value))
  : list (option value) :=
  map (fun d => d !! k) ds.

(** The integer that an exported dictionary holds under a key. *)
Definition int_field (k : string) (d : gmap string value) : Z :=
  match d !! k with
  | Some (VInt z) => z
  | _ => 0%Z
  end.

(** The keys that the metagraph export reads from every metanode. *)
Definition metanode_keys : list string :=
  ["fully_qualified_label"; "num_vertices"; "num_edges"; "short_label"].

(** A graph whose vertices carry the names [v0], [v1], ... under ['id']. *)
Definition named (G : GT.Graph) : PropGraph :=
  mkPropGraph G {[ "id" := fun v => VStr ("v" +:+ pretty v) ]} ∅.

(** A graph without any property map. *)
Definition bare (G : GT.Graph) : PropGraph := mkPropGraph G ∅ ∅.

(** A block-cut tree without an ['id'] map: [art] tells the articulation
    points from the blocks.  In [star3] vertex 1 joins the blocks 0 and
    2. *)
Definition star3 : GT.Graph := GT.mkGraph false 3 [(0, 1); (1, 2)]%nat None None.

Definition bcc_tree (G : GT.Graph) (art : nat -> bool) : PropGraph :=
  mkPropGraph G
    {[ "count" := fun _ => VInt 2;
       "is_articulation" := fun v => VBool (art v) ]}
    {[ "count" := fun _ => VInt 1 ]}.

(** Two metanodes joined by a meta-edge of three edges. *)
Definition metanode (label : string) (nv ne : Z) : gmap string value :=
  dict [("fully_qualified_label", VStr ("root|" +:+ label));
        ("short_label", VStr label);
        ("num_vertices", VInt nv); ("num_edges", VInt ne)].

Definition two_metanodes : items Z (gmap string value) :=
  [(0%Z, metanode "cc_0" 4 3); (1%Z, metanode "cc_1" 2 1)].

Definition one_cross_edge : items (Z * Z) (list Z) :=
  [((0, 1)%Z, [5; 6; 7]%Z)].

(** A cluster assignment that knows the vertices 0 and 1 only. *)
Definition two_clustered : gmap nat value :=
  {[ 0%nat := VInt 0; 1%nat := VInt 0 ]}.

(** A cluster assignment for every vertex below 5. *)
Definition five_clustered : gmap nat value :=
  list_to_map (map (fun v : nat => (v, VInt (Z.of_nat (v / 2)))) (seq 0 5)).

End VisRef.

(* ===================================================================== *)
(** * Properties *)
(* ===================================================================== *)

Import Py Env Helpers Notions.
Local Open Scope string_scope.
Local Open Scope nat_scope.

(** ** Running the helpers: equations *)

Section Runs.
Context `{Collaborators}.

(** With its default arguments [kcore_decomposition] touches no filter:
    it feeds the visible edges to a new process and reads the answer. *)
Lemma kcore_decomposition_default (w : World) :
  kcore_decomposition default_vlist default_elist w
  = (read_core_lines (graph_peeling_bin (edge_stream (the_graph w))) ∅,
     after_peeling w).
Proof. reflexivity. Qed.

(** Neither identity test of lines 95-98 can succeed on arguments that the
    caller made before the call: both lists come back as they were. *)
Lemma rebind_empty_same (vp ep : list bool) (vlist elist : seqobj) (w : World) :
  oid vlist < next_oid w -> oid elist < next_oid w ->
  rebind_empty vp ep vlist elist w
  = (Ok (vlist, elist),
     mkWorld (the_graph w) (S (S (next_oid w))) (spawned w) (files w)).
Proof.
  intros Hv He. unfold rebind_empty, mbind, M_bind, new_seq. simpl.
  unfold is_. simpl.
  destruct (Nat.eqb_spec (oid vlist) (next_oid w)); [lia |].
  simpl. destruct (Nat.eqb_spec (oid elist) (S (next_oid w))); [lia |].
  reflexivity.
Qed.

End Runs.

(** ** Masks and visibility *)


Lemma passes_all_false (n i : nat) :
  GT.passes (Some (replicate n false)) i = false.
Proof.
  unfold GT.passes. destruct (replicate n false !! i) as [b|] eqn:E; [|done].
  apply lookup_replicate in E as [-> _]. done.
Qed.

Lemma filter_none {A} (f : A -> bool) (l : list A) :
  (forall x, f x = false) -> List.filter f l = [].
Proof. intros Hf. induction l as [|x l IH]; simpl; [done|]. by rewrite Hf. Qed.

(** Behind an all-false vertex filter nothing is visible. *)
Lemma vertices_all_false (G : GT.Graph) :
  GT.vertex_filter G = Some (replicate (GT.num_stored G) false) ->
  GT.vertices G = [] /\ GT.edges G = [].
Proof.
  intros Hf.
  assert (Hv : forall v, GT.vertex_visible G v = false).
  { intros v. unfold GT.vertex_visible. rewrite Hf, passes_all_false.
    apply andb_false_r. }
  split.
  - unfold GT.vertices. by apply filter_none.
  - unfold GT.edges. rewrite filter_none; [done|].
    intros ie. unfold GT.edge_visible. rewrite !Hv. by rewrite andb_false_r.
Qed.

(** Behind an all-false edge filter no edge is visible. *)
Lemma edges_all_false (G : GT.Graph) :
  GT.edge_filter G = Some (replicate (length (GT.stored_edges G)) false) ->
  GT.edges G = [].
Proof.
  intros Hf. unfold GT.edges. rewrite filter_none; [done|].
  intros ie. unfold GT.edge_visible. by rewrite Hf, passes_all_false.
Qed.

(** ** Inducing a subgraph *)

Section Induce.
Context `{Collaborators}.

(** [kcore_decomposition] with a non-empty list, on arguments the caller
    made before the call and indices in range: both masks are installed,
    then the visible edges of the filtered graph are peeled. *)
Lemma kcore_decomposition_induce (w : World) (vlist elist : seqobj)
    (vp ep : list bool) :
  oid vlist < next_oid w -> oid elist < next_oid w ->
  truthy_list vlist || truthy_list elist = true ->
  Np.setitem_fancy (GT.new_vp (the_graph w) false) (items vlist) true = Ok vp ->
  Np.setitem_fancy (GT.new_ep (the_graph w) false) (items elist) true = Ok ep ->
  let G' := with_filters (the_graph w) vp ep in
  kcore_decomposition vlist elist w
  = (read_core_lines (graph_peeling_bin (edge_stream G')) ∅,
     mkWorld G' (S (S (next_oid w))) (spawned w ++ [edge_stream G'])
             (files w)).
Proof.
  intros Hv He Ht Hvp Hep G'.
  unfold kcore_decomposition. rewrite Ht.
  unfold mbind, M_bind, get_graph at 1.
  rewrite rebind_empty_same by assumption.
  unfold lift. rewrite Hvp, Hep. reflexivity.
Qed.

(** [save_adjacency] with indices in range. *)
Lemma save_adjacency_induce (w : World) (vlist elist : seqobj)
    (filename : string) (vp ep : list bool) :
  Np.setitem_fancy (GT.new_vp (the_graph w) false) (items vlist) true = Ok vp ->
  Np.setitem_fancy (GT.new_ep (the_graph w) false) (items elist) true = Ok ep ->
  let G' := with_filters (the_graph w) vp ep in
  save_adjacency vlist elist filename w
  = (Ok ("Adjacency saved as " +:+ filename),
     mkWorld G' (next_oid w) (spawned w)
       (<[filename :=
            map (fun v => adjacency_line v (GT.out_neighbours G' v))
                (GT.vertices G')]> (files w))).
Proof.
  intros Hvp Hep G'.
  unfold save_adjacency, mbind, M_bind, get_graph, lift.
  rewrite Hvp, Hep. reflexivity.
Qed.

End Induce.

(** ** What a fancy-index assignment writes *)

Lemma norm_index_lt (n : nat) (i : Z) (j : nat) :
  Np.norm_index n i = Ok j -> j < n.
Proof.
  unfold Np.norm_index.
  destruct (_ && _) eqn:E; [|discriminate].
  intros [= <-]. apply andb_true_iff in E as [E1 E2].
  apply Z.leb_le in E1. apply Z.ltb_lt in E2. lia.
Qed.

Lemma norm_indices_spec (n : nat) (idx : list Z) (js : list nat) :
  Np.norm_indices n idx = Ok js ->
  Forall (fun j => j < n) js
  /\ forall j, j ∈ js <-> exists i, i ∈ idx /\ Np.norm_index n i = Ok j.
Proof.
  revert js. induction idx as [|i idx IH]; intros js; simpl.
  - intros [= <-]. split; [constructor|].
    intros j. split; [by intros ?%elem_of_nil|].
    by intros (i & ?%elem_of_nil & _).
  - destruct (Np.norm_index n i) as [j0|] eqn:E0; [|discriminate]. simpl.
    destruct (Np.norm_indices n idx) as [js0|] eqn:E1; [|discriminate]. simpl.
    intros [= <-]. destruct (IH js0 eq_refl) as [Hall Hiff]. split.
    + constructor; [by eapply norm_index_lt | done].
    + intros j. rewrite elem_of_cons, Hiff. split.
      * intros [-> | (i' & Hin & Hn)].
        -- exists i. split; [left|]; done.
        -- exists i'. split; [by right | done].
      * intros (i' & Hin & Hn). apply elem_of_cons in Hin as [-> | Hin].
        -- left. congruence.
        -- right. eauto.
Qed.

Lemma fold_insert_lookup {A} (x : A) (js : list nat) (a : list A) (j : nat) :
  Forall (fun j => j < length a) js ->
  fold_left (fun acc j => <[j := x]> acc) js a !! j
  = if decide (j ∈ js) then Some x else a !! j.
Proof.
  revert a. induction js as [|j0 js IH]; intros a Hall; simpl.
  - destruct (decide (j ∈ [])) as [Hin|]; [|done].
    by apply elem_of_nil in Hin.
  - apply Forall_cons in Hall as [Hj0 Hall].
    rewrite IH by (by rewrite length_insert).
    destruct (decide (j ∈ js)) as [Hin | Hnin];
      destruct (decide (j ∈ j0 :: js)) as [Hin' | Hnin'].
    + done.
    + exfalso. apply Hnin'. by right.
    + apply elem_of_cons in Hin' as [-> | ?]; [|done].
      by apply list_lookup_insert_eq.
    + apply list_lookup_insert_ne. intros ->. apply Hnin'. by left.
Qed.

(** A mask built from all-false by [mask[idx] = True] is true at the
    positions the indices denote, and nowhere else. *)
Lemma setitem_fancy_mask (n : nat) (idx : list Z) (m : list bool) :
  Np.setitem_fancy (replicate n false) idx true = Ok m ->
  length m = n
  /\ forall j, m !! j = Some true
       <-> exists i, i ∈ idx /\ Np.norm_index n i = Ok j.
Proof.
  unfold Np.setitem_fancy. rewrite length_replicate.
  destruct (Np.norm_indices n idx) as [js|] eqn:E; [|discriminate]. simpl.
  intros [= <-]. apply norm_indices_spec in E as [Hall Hiff]. split.
  - generalize (replicate n false) (length_replicate n false).
    clear. induction js as [|j js IH]; intros a Ha; simpl; [done|].
    apply IH. by rewrite length_insert.
  - intros j. rewrite fold_insert_lookup by (by rewrite length_replicate).
    rewrite <- Hiff. destruct (decide (j ∈ js)) as [Hin|Hnin].
    + done.
    + split; [|done]. intros E. apply lookup_replicate in E as [? _]. done.
Qed.

(** ** Claims about the filters *)



(** C10: [save_adjacency], and [kcore_decomposition] given a non-empty
    vertex or edge list, replace the filters of the shared graph by the
    masks induced by the two lists and return without putting the previous
    filters back: the graph of the world after the call carries the new
    masks, whatever filters it carried before. *)
Theorem C10_filters_stay_installed `{Collaborators}
    (w : World) (vlist elist : seqobj) (filename : string)
    (vp ep : list bool) :
  Np.setitem_fancy (GT.new_vp (the_graph w) false) (items vlist) true = Ok vp ->
  Np.setitem_fancy (GT.new_ep (the_graph w) false) (items elist) true = Ok ep ->
  let G := the_graph w in
  let after_save := the_graph (snd (save_adjacency vlist elist filename w)) in
  let after_peel := the_graph (snd (kcore_decomposition vlist elist w)) in
  (* the masks are the induced ones *)
  (forall j, vp !! j = Some true
     <-> exists i, i ∈ items vlist /\ Np.norm_index (GT.num_stored G) i = Ok j)
  /\ (forall j, ep !! j = Some true
     <-> exists i, i ∈ items elist
           /\ Np.norm_index (length (GT.stored_edges G)) i = Ok j)
  (* save_adjacency leaves them on the graph *)
  /\ GT.vertex_filter after_save = Some vp
  /\ GT.edge_filter after_save = Some ep
  (* and so does kcore_decomposition, when a list is non-empty *)
  /\ (oid vlist < next_oid w -> oid elist < next_oid w ->
      truthy_list vlist || truthy_list elist = true ->
      GT.vertex_filter after_peel = Some vp
      /\ GT.edge_filter after_peel = Some ep).
Proof.
  intros Hvp Hep G after_save after_peel.
  split; [by apply setitem_fancy_mask in Hvp as [_ ?] |].
  split; [by apply setitem_fancy_mask in Hep as [_ ?] |].
  subst after_save after_peel.
  rewrite (save_adjacency_induce w vlist elist filename vp ep Hvp Hep).
  split; [done|]. split; [done|].
  intros Hv He Ht.
  by rewrite (kcore_decomposition_induce w vlist elist vp ep Hv He Ht Hvp Hep).
Qed.

(** C10 at path5, unfiltered before the call: three vertices and two edges
    are selected, and both filters are still in place afterwards. *)
Lemma C10_filters_stay_installed_witness :
  let w := mkWorld Ref.path5 4 [] ∅ in
  let vlist := SeqObj 2 [0; 1; 2]%Z in
  let elist := SeqObj 3 [0; 1]%Z in
  GT.vertex_filter
    (the_graph (snd (save_adjacency vlist elist "adj.txt" w)))
    = Some [true; true; true; false; false]
  /\ GT.edge_filter
       (the_graph (snd (@kcore_decomposition Ref.reference vlist elist w)))
     = Some [true; true; false; false].
Proof.
  intros w vlist elist.
  pose proof (@C10_filters_stay_installed Ref.reference w vlist elist
                "adj.txt" [true; true; true; false; false]
                [true; true; false; false] eq_refl eq_refl)
    as (_ & _ & Hs & _ & Hk).
  split; [exact Hs |].
  apply Hk; simpl; [lia | lia | reflexivity].
Defined.

(** ** Label resolution *)

Lemma lower_ascii_r (c : ascii) :
  lower_ascii c = "r"%char -> c = "r"%char \/ c = "R"%char.
Proof.
  destruct c as [[] [] [] [] [] [] [] []]; vm_compute; intros E;
    try discriminate E; auto.
Qed.

Lemma lower_ascii_o (c : ascii) :
  lower_ascii c = "o"%char -> c = "o"%char \/ c = "O"%char.
Proof.
  destruct c as [[] [] [] [] [] [] [] []]; vm_compute; intros E;
    try discriminate E; auto.
Qed.

Lemma lower_ascii_t (c : ascii) :
  lower_ascii c = "t"%char -> c = "t"%char \/ c = "T"%char.
Proof.
  destruct c as [[] [] [] [] [] [] [] []]; vm_compute; intros E;
    try discriminate E; auto.
Qed.

(** The label [root], in any case, has no token left once [root] is
    dropped: the early return of [traverse_tree] agrees with the loop. *)
Lemma label_tokens_root (label : string) :
  lower label = "root" -> label_tokens label = [].
Proof.
  destruct label as [|c1 [|c2 [|c3 [|c4 [|c5 r]]]]]; simpl; try discriminate.
  intros [= H1 H2 H3 H4].
  apply lower_ascii_r in H1. apply lower_ascii_o in H2.
  apply lower_ascii_o in H3. apply lower_ascii_t in H4.
  destruct H1 as [-> | ->], H2 as [-> | ->], H3 as [-> | ->],
    H4 as [-> | ->]; reflexivity.
Qed.

Lemma traverse_tree_walk (T : PartitionTree) (label : string) :
  traverse_tree T label = walk (root T) (label_tokens label).
Proof.
  unfold traverse_tree.
  destruct (String.eqb_spec (lower label) "root") as [E | _]; [|done].
  by rewrite (label_tokens_root label E).
Qed.

Lemma walk_app (node : PartitionNode) (pre rest : list string) :
  walk node (pre ++ rest)%list = Py.bind (walk node pre) (fun n => walk n rest).
Proof.
  revert node. induction pre as [|s pre IH]; intros node; simpl; [done|].
  unfold mbind, res_bind.
  destruct (int _) as [idx|]; simpl; [|done].
  destruct (getitem _ _) as [child|]; simpl; [|done].
  apply IH.
Qed.

Lemma getitem_nil {A} (i : Z) : getitem (@nil A) i = Raise IndexError.
Proof. unfold getitem. simpl. by destruct (_ && _). Qed.

Lemma getitem_beyond {A} (l : list A) (i : Z) :
  (Z.of_nat (length l) <= i)%Z -> getitem l i = Raise IndexError.
Proof.
  intros Hle. unfold getitem.
  destruct (Z.ltb_spec i 0%Z); [lia|].
  destruct (Z.ltb_spec i (Z.of_nat (length l))); [lia|].
  by rewrite andb_false_r.
Qed.

(** [int] raises nothing but [ValueError]. *)
Lemma int_raises (s : string) (e : exn) : int s = Raise e -> e = ValueError.
Proof.
  unfold int. destruct (strip s) as [|c r]; [by intros [= <-]|].
  destruct (Ascii.eqb c "-"); [|destruct (Ascii.eqb c "+")];
    match goal with |- context [digits ?x] => destruct (digits x) end;
    simpl; by intros [= <-].
Qed.

(** C6: label resolution fails on every label with a token whose trailing
    integer is beyond the children of the node reached at that depth, and
    on every label that goes on past a leaf: both [traverse_tree] and
    [get_indices] raise ([IndexError] is the exception Python raises for
    the bad child index; a token after a leaf that carries no integer at
    all raises [ValueError] before the index is tried). *)
Theorem C6_label_out_of_range
    (T : PartitionTree) (label : string) (pre rest : list string)
    (s : string) (node : PartitionNode) :
  label_tokens label = (pre ++ s :: rest)%list ->
  walk (root T) pre = Ok node ->
  children node = []
  \/ (exists idx, int (last_piece (split s "_")) = Ok idx
        /\ (Z.of_nat (length (children node)) <= idx)%Z) ->
  let e := if is_ok (int (last_piece (split s "_")))
           then IndexError else ValueError in
  traverse_tree T label = Raise e /\ get_indices T label = Raise e.
Proof.
  intros Htok Hpre Hbad e.
  assert (Ht : traverse_tree T label = Raise e).
  { rewrite traverse_tree_walk, Htok, walk_app, Hpre. simpl.
    unfold mbind, res_bind. subst e.
    destruct (int (last_piece (split s "_"))) as [idx|[]] eqn:Ei; simpl.
    - destruct Hbad as [Hleaf | (idx' & [= <-] & Hle)].
      + by rewrite Hleaf, getitem_nil.
      + by rewrite getitem_beyond.
    - by apply int_raises in Ei.
    - done. }
  split; [done|]. unfold get_indices, mbind, res_bind. by rewrite Ht.
Qed.

(** C6 at a root with two leaves: child 2 does not exist. *)
Lemma C6_label_out_of_range_witness :
  traverse_tree Ref.two_leaves "Root|cluster_2" = Raise IndexError
  /\ get_indices Ref.two_leaves "Root|cluster_2" = Raise IndexError.
Proof.
  apply (C6_label_out_of_range Ref.two_leaves "Root|cluster_2"
           [] [] "cluster_2" (root Ref.two_leaves) eq_refl eq_refl).
  right. exists 2%Z. split; [reflexivity | simpl; lia].
Defined.

(** Going on below a leaf fails as well, and a well-formed label resolves. *)
Example past_a_leaf :
  get_indices Ref.two_leaves "root|cluster_1|cluster_0" = Raise IndexError.
Proof. reflexivity. Qed.

Example resolve_leaf :
  get_indices Ref.two_leaves "root|cluster_1" = Ok ([2; 3]%Z, [1]%Z).
Proof. reflexivity. Qed.

Example resolve_root :
  get_indices Ref.two_leaves "ROOT" = Ok ([0; 1; 2; 3]%Z, [0; 1]%Z).
Proof. reflexivity. Qed.

(** ** Reading the output of the peeling process *)

Lemma read_core_lines_diagnostics
    (pre rest : list string) (pp : gmap Z (list string)) :
  Forall diagnostic pre ->
  read_core_lines (pre ++ rest)%list pp = read_core_lines rest pp.
Proof.
  induction 1 as [|line pre [Hne Hcore] _ IH]; simpl; [done|].
  destruct (String.eqb_spec line ""); [done|].
  by rewrite Hcore.
Qed.



Lemma read_core_lines_core
    (line : string) (rest : list string) (pp : gmap Z (list string)) :
  line <> "" -> startswith line "Core" = true ->
  read_core_lines (line :: rest) pp
  = match parse_core_line line with
    | Ok (peel, vertices) => read_core_lines rest (<[peel := vertices]> pp)
    | Raise e => Raise e
    end.
Proof.
  intros Hne Hcore. simpl.
  destruct (String.eqb_spec line ""); [done|].
  rewrite Hcore. simpl. unfold mbind, res_bind.
  by destruct (parse_core_line line) as [[peel vertices]|].
Qed.

Lemma startswith_nonempty (line : string) :
  startswith line "Core" = true -> line <> "".
Proof. by intros Hs ->. Qed.













(** What the loop returns on the outputs above: the later line has
    replaced the earlier one, and a garbled result line raises. *)
Example reading_talkative :
  fst (@kcore_decomposition Ref.talkative default_vlist default_elist
         (Ref.fresh_world Ref.path5))
  = Ok {[ 1%Z := ["0"]; 2%Z := ["1"; "2"; "3"] ]}.
Proof. vm_compute. reflexivity. Qed.

Example reading_garbled :
  fst (@kcore_decomposition Ref.garbled default_vlist default_elist
         (Ref.fresh_world Ref.path5))
  = Raise ValueError.
Proof. reflexivity. Qed.

(** ** The degree histogram *)

Lemma where_from_seq (g : nat -> bool) (i n : nat) :
  Np.where_from i (map g (seq i n)) = List.filter g (seq i n).
Proof.
  revert i. induction n as [|n IH]; intros i; simpl; [done|].
  rewrite IH. by destruct (g i).
Qed.

Lemma take_seq (m : nat) (idx : list nat) :
  Forall (fun i => i < m) idx -> Np.take (seq 0 m) idx = Ok idx.
Proof.
  induction 1 as [|i idx Hi _ IH]; simpl; [done|].
  rewrite lookup_seq_lt by done. by rewrite IH.
Qed.

Lemma take_map_seq {A} (f : nat -> A) (n : nat) (idx : list nat) :
  Forall (fun i => i < n) idx ->
  Np.take (map f (seq 0 n)) idx = Ok (map f idx).
Proof.
  induction 1 as [|i idx Hi _ IH]; simpl; [done|].
  rewrite list_lookup_fmap, lookup_seq_lt by done. simpl. by rewrite IH.
Qed.

Lemma occupied_bins_lt (G : GT.Graph) :
  Forall (fun d => d < S (top_degree G)) (occupied_bins G).
Proof.
  apply Forall_forall. intros d Hd. apply list_elem_of_In in Hd.
  apply filter_In in Hd as [Hd _]. apply in_seq in Hd. lia.
Qed.

(** The two arrays that [statistics] keeps of the histogram. *)
Lemma vertex_hist_kept (G : GT.Graph) :
  let counts := (GT.vertex_hist G).1 in
  let bins := (GT.vertex_hist G).2 in
  Np.take bins (Np.where_nonzero counts) = Ok (occupied_bins G)
  /\ Np.take counts (Np.where_nonzero counts)
     = Ok (map (degree_count G) (occupied_bins G)).
Proof.
  intros counts bins. subst counts bins.
  unfold GT.vertex_hist. cbv zeta. cbn [fst snd]. fold (top_degree G).
  assert (Hw : Np.where_nonzero
             (map (fun d => length (List.filter (Nat.eqb d)
                     (map (GT.out_degree G) (GT.vertices G))))
                  (seq 0 (S (top_degree G))))
           = occupied_bins G).
  { unfold Np.where_nonzero. rewrite map_map. apply where_from_seq. }
  rewrite Hw. split.
  - apply (take_seq (S (S (top_degree G)))).
    eapply Forall_impl; [apply occupied_bins_lt|]. simpl. lia.
  - apply (take_map_seq (degree_count G)), occupied_bins_lt.
Qed.

(** ** Running [statistics] *)

Section StatisticsRuns.
Context `{Collaborators}.

Lemma getitem_head {A} (x : A) (l : list A) : getitem (x :: l) 0 = Ok x.
Proof.
  unfold getitem. cbn [length]. rewrite Nat2Z.inj_succ.
  destruct (Z.ltb_spec 0%Z 0%Z); [lia|].
  destruct (Z.leb_spec 0%Z 0%Z); [|lia].
  destruct (Z.ltb_spec 0%Z (Z.succ (Z.of_nat (length l)))); [|lia].
  reflexivity.
Qed.

(** Either strategy leaves the graph, the object counter and the files as
    they were. *)
Lemma peel_histogram_frame (w : World) :
  let w' := snd (peel_histogram (the_graph w) w) in
  the_graph w' = the_graph w /\ next_oid w' = next_oid w
  /\ files w' = files w.
Proof.
  unfold peel_histogram.
  destruct (_ || _); [|done].
  unfold exact_peel_histogram, mbind, M_bind.
  rewrite kcore_decomposition_default.
  by destruct (read_core_lines _ _).
Qed.

(** [statistics] on a loaded graph: the first degree bin is read before
    anything else is reported, then one peeling strategy runs. *)
Lemma statistics_run (w : World) :
  statistics TheGraph w
  = let G := the_graph w in
    match occupied_bins G with
    | [] => (Raise IndexError, w)
    | bin0 :: _ =>
        let singletons := if bin0 =? 0 then degree_count G bin0 else 0 in
        match peel_histogram G w with
        | (Ok peel, w') =>
            (Ok (Stats (report_of G (occupied_bins G) singletons peel)), w')
        | (Raise e, w') => (Raise e, w')
        end
    end.
Proof.
  cbv zeta. unfold statistics.
  unfold mbind at 1. unfold M_bind at 1. unfold get_graph at 1.
  destruct (vertex_hist_kept (the_graph w)) as [Hbins Hcounts].
  destruct (GT.vertex_hist (the_graph w)) as [counts bins].
  cbn [fst snd] in Hbins, Hcounts.
  unfold mbind at 1. unfold M_bind at 1. unfold lift at 1. rewrite Hbins.
  unfold mbind at 1. unfold M_bind at 1. unfold lift at 1. rewrite Hcounts.
  unfold report_of.
  destruct (label_components (the_graph w)) as [comp cc_hist].
  cbn [fst snd].
  destruct (occupied_bins (the_graph w)) as [|bin0 bins'] eqn:Eb.
  { reflexivity. }
  unfold mbind at 1. unfold M_bind at 1. unfold lift at 1.
  rewrite getitem_head.
  cbn [map]. 
  assert (Hs : forall (k : nat -> M stats_result) (w0 : World),
             mbind k (if bin0 =? 0
                      then lift (getitem (degree_count (the_graph w) bin0
                                   :: map (degree_count (the_graph w)) bins') 0)
                      else mret 0) w0
             = k (if bin0 =? 0 then degree_count (the_graph w) bin0 else 0) w0).
  { intros k w0. destruct (bin0 =? 0); [|done].
    unfold mbind, M_bind, lift. by rewrite getitem_head. }
  rewrite Hs. clear Hs.
  unfold mbind at 1. unfold M_bind at 1.
  fold (active_index (the_graph w)).
  fold (peel_histogram (the_graph w)).
  pose proof (peel_histogram_frame w) as (Hg & _ & _).
  destruct (peel_histogram (the_graph w) w) as [[[pb pc]|e] w'];
    [|reflexivity].
  cbn [snd] in Hg.
  unfold mbind, M_bind, get_graph, mret, M_ret. rewrite Hg. reflexivity.
Qed.

End StatisticsRuns.

(** ** A view without vertices *)

Lemma vertex_visible_vertices (G : GT.Graph) (v : nat) :
  GT.vertex_visible G v = true -> In v (GT.vertices G).
Proof.
  intros Hv. apply filter_In. split; [|done].
  apply in_seq. unfold GT.vertex_visible in Hv.
  apply andb_true_iff in Hv as [Hlt _]. apply Nat.ltb_lt in Hlt. lia.
Qed.

Lemma no_vertices_no_edges (G : GT.Graph) :
  GT.vertices G = [] -> GT.edges G = [].
Proof.
  intros Hv. unfold GT.edges. rewrite filter_none; [done|].
  intros ie. unfold GT.edge_visible.
  destruct (GT.vertex_visible G ie.2.1) eqn:E.
  - apply vertex_visible_vertices in E. rewrite Hv in E. destruct E.
  - by rewrite andb_false_r.
Qed.

Lemma no_vertices_no_bins (G : GT.Graph) :
  GT.vertices G = [] -> occupied_bins G = [].
Proof.
  intros Hv. unfold occupied_bins, top_degree, degree_count.
  by rewrite Hv.
Qed.

(** With no visible vertex there is no first degree bin to read:
    [deg_bins[0]] raises before anything is reported. *)
Lemma statistics_no_vertices `{Collaborators} (w : World) :
  GT.vertices (the_graph w) = [] ->
  statistics TheGraph w = (Raise IndexError, w).
Proof.
  intros Hv. rewrite statistics_run. cbv zeta.
  by rewrite (no_vertices_no_bins _ Hv).
Qed.

(** A report means that some vertex is visible. *)
Lemma statistics_report_vertices `{Collaborators} (w : World) (r : Report) :
  fst (statistics TheGraph w) = Ok (Stats r) ->
  0 < GT.num_vertices (the_graph w).
Proof.
  intros Hr. unfold GT.num_vertices.
  destruct (GT.vertices (the_graph w)) eqn:Hv; [|simpl; lia].
  by rewrite (statistics_no_vertices w Hv) in Hr.
Qed.

(** What a report holds, from [statistics_run]. *)
Lemma statistics_report `{Collaborators} (w : World) (r : Report) :
  fst (statistics TheGraph w) = Ok (Stats r) ->
  let G := the_graph w in
  exists bin0 bins peel,
    occupied_bins G = bin0 :: bins
    /\ fst (peel_histogram G w) = Ok peel
    /\ snd (statistics TheGraph w) = snd (peel_histogram G w)
    /\ r = report_of G (occupied_bins G)
             (if bin0 =? 0 then degree_count G bin0 else 0) peel.
Proof.
  rewrite statistics_run. cbv zeta.
  destruct (occupied_bins (the_graph w)) as [|bin0 bins]; [done|].
  destruct (peel_histogram (the_graph w) w) as [[peel|e] w']; [|done].
  simpl. intros [= <-]. by exists bin0, bins, peel.
Qed.

(** ** The complexity estimate *)

(** C7: the estimate of a report is [V * log2(V)] of the visible vertex
    count in fixed notation, and [V] is positive there.  With [V = 0]
    nothing is reported: [statistics] raises [IndexError] at [deg_bins[0]],
    and the estimate itself would be [0 * -inf], which is not a number and
    prints as [nan], not as zero. *)
Theorem C7_vlogv `{Collaborators} (w : World) :
  let G := the_graph w in
  let V := GT.num_vertices G in
  (forall r, fst (statistics TheGraph w) = Ok (Stats r) ->
     0 < V
     /\ vlogv r = float_formatter
                    (PrimFloat.mul (float_of_nat V)
                                   (libm_log2 (float_of_nat V))))
  /\ (V = 0 -> fst (statistics TheGraph w) = Raise IndexError)
  /\ float_formatter (PrimFloat.mul (float_of_nat 0) (np_log2 0)) = "nan".
Proof.
  intros G V. split; [|split].
  - intros r Hr. pose proof (statistics_report_vertices w r Hr) as Hpos.
    split; [done|].
    apply statistics_report in Hr as (bin0 & bins & peel & _ & _ & _ & ->).
    unfold report_of. cbn [vlogv]. fold G. fold V. unfold np_log2.
    destruct (Nat.eqb_spec V 0) as [E|]; [|done].
    unfold V, G in E. lia.
  - intros HV. subst V. unfold GT.num_vertices in HV.
    apply length_zero_iff_nil in HV.
    by rewrite (statistics_no_vertices w HV).
  - reflexivity.
Qed.

(** ** The degree histogram of a report *)

Lemma filter_seq_sorted (f : nat -> bool) (a n : nat) :
  StronglySorted lt (List.filter f (seq a n)).
Proof.
  revert a. induction n as [|n IH]; intros a; simpl; [constructor|].
  destruct (f a); [|apply IH].
  constructor; [apply IH|].
  apply Forall_forall. intros x Hx. apply list_elem_of_In in Hx.
  apply filter_In in Hx as [Hx _]. apply in_seq in Hx. lia.
Qed.

Lemma le_foldr_max (x : nat) (l : list nat) :
  In x l -> x <= foldr Nat.max 0 l.
Proof.
  induction l as [|y l IH]; simpl; [done|].
  intros [-> | Hin]; [lia|]. specialize (IH Hin). lia.
Qed.

Lemma filter_length_pos {A} (f : A -> bool) (l : list A) :
  length (List.filter f l) <> 0 -> exists x, In x l /\ f x = true.
Proof.
  induction l as [|y l IH]; simpl; [done|].
  destruct (f y) eqn:E.
  - intros _. exists y. auto.
  - intros Hl. destruct (IH Hl) as (x & Hin & Hx). exists x. auto.
Qed.

(** A degree is a bin of the histogram exactly when some visible vertex
    has it. *)
Lemma occupied_bins_spec (G : GT.Graph) (d : nat) :
  d ∈ occupied_bins G <-> degree_count G d <> 0.
Proof.
  unfold occupied_bins. rewrite list_elem_of_In, filter_In, in_seq.
  rewrite negb_true_iff, Nat.eqb_neq. split; [by intros [_ ?]|].
  intros Hd. split; [|done]. split; [lia|].
  apply filter_length_pos in Hd as (x & Hin & Hx).
  apply Nat.eqb_eq in Hx as <-. apply le_foldr_max in Hin.
  unfold top_degree. lia.
Qed.

(** The count read at [deg_bins[0]] is the number of isolated vertices. *)
Lemma first_bin_singletons (G : GT.Graph) (bin0 : nat) (bins : list nat) :
  occupied_bins G = bin0 :: bins ->
  (if bin0 =? 0 then degree_count G bin0 else 0) = degree_count G 0.
Proof.
  intros Hb. destruct (Nat.eqb_spec bin0 0) as [-> | Hne]; [done|].
  destruct (Nat.eq_dec (degree_count G 0) 0) as [-> | Hpos]; [done|].
  exfalso. apply occupied_bins_spec in Hpos.
  pose proof (filter_seq_sorted
                (fun d => negb (degree_count G d =? 0)) 0 (S (top_degree G)))
    as Hs.
  fold (occupied_bins G) in Hs. rewrite Hb in Hs, Hpos.
  apply StronglySorted_inv in Hs as [_ Hall].
  apply elem_of_cons in Hpos as [? | Hin]; [lia|].
  rewrite Forall_forall in Hall. specialize (Hall 0 Hin). lia.
Qed.

(** C8: in a report the degree bins are the degrees that some visible
    vertex has, in ascending order, each with its count, and
    [num_singletons] is the number of visible vertices of degree 0 (the
    count of the degree-0 bin when there is one, else 0).  When the
    histogram is empty there is no report: reading [deg_bins[0]] raises
    [IndexError]. *)
Theorem C8_degree_histogram `{Collaborators} (w : World) :
  let G := the_graph w in
  (forall r, fst (statistics TheGraph w) = Ok (Stats r) ->
     StronglySorted lt (deg_bins r)
     /\ (forall d, d ∈ deg_bins r <-> degree_count G d <> 0)
     /\ deg_counts r = map (degree_count G) (deg_bins r)
     /\ num_singletons r = degree_count G 0)
  /\ (occupied_bins G = [] ->
        fst (statistics TheGraph w) = Raise IndexError)
  /\ (GT.vertices G = [] -> occupied_bins G = []).
Proof.
  intros G. split; [|split].
  - intros r Hr.
    apply statistics_report in Hr as (bin0 & bins & peel & Hb & _ & _ & ->).
    unfold report_of.
    cbn [deg_bins deg_counts num_singletons].
    split; [apply filter_seq_sorted|].
    split; [apply occupied_bins_spec|].
    split; [done|]. by eapply first_bin_singletons.
  - intros Hb. rewrite statistics_run. cbv zeta. fold G. by rewrite Hb.
  - apply no_vertices_no_bins.
Qed.

(** The end-to-end examples: a path on five vertices, three isolated
    vertices, and a graph without vertices. *)
Example statistics_path5 :
  fst (@statistics Ref.reference TheGraph (Ref.fresh_world Ref.path5))
  = Ok (Stats {|
      num_vertices := 5; num_edges := 4; num_cc := 1; num_singletons := 0;
      vlogv := "11.61";
      deg_bins := [1; 2]; deg_counts := [2; 3];
      cc_sizes := [5]; cc_counts := [1];
      peel_bins := [1%Z]; peel_counts := [5] |}).
Proof. vm_compute. reflexivity. Qed.

Example statistics_isolated3 :
  fst (@statistics Ref.reference TheGraph (Ref.fresh_world (Ref.isolated 3)))
  = Ok (Stats {|
      num_vertices := 3; num_edges := 0; num_cc := 3; num_singletons := 3;
      vlogv := "4.75";
      deg_bins := [0]; deg_counts := [3];
      cc_sizes := [1]; cc_counts := [3];
      peel_bins := [0%Z]; peel_counts := [3] |}).
Proof. vm_compute. reflexivity. Qed.

Example statistics_no_vertex :
  fst (@statistics Ref.reference TheGraph (Ref.fresh_world (Ref.isolated 0)))
  = Raise IndexError.
Proof. vm_compute. reflexivity. Qed.

(** ** Zero vertices *)

(** Grouping an empty selection leaves nothing to unpack. *)
Lemma fast_peel_histogram_nil `{Collaborators} (G : GT.Graph) :
  fast_peel_histogram G [] = Raise ValueError.
Proof. reflexivity. Qed.

(** C5, as the code has it: for a view without vertices the exact strategy
    has no special case.  It launches the peeling process, writes no edge
    to it, and returns what it parses from the output: the empty mapping
    whenever the process prints no [Core] line.  The empty edge stream
    makes nothing fail. *)
Theorem C5_exact_without_vertices `{Collaborators} (w : World) :
  GT.vertices (the_graph w) = [] ->
  let out := graph_peeling_bin [] in
  let run := kcore_decomposition default_vlist default_elist w in
  fst run = read_core_lines out ∅
  /\ spawned (snd run) = (spawned w ++ [[]])%list
  /\ (Forall diagnostic out -> fst run = Ok ∅).
Proof.
  intros Hv out run. subst run. rewrite kcore_decomposition_default.
  unfold after_peeling, edge_stream.
  rewrite (no_vertices_no_edges _ Hv). cbn [map fst snd spawned].
  fold out. split; [done|]. split; [done|].
  intros Hd. rewrite <- (app_nil_r out).
  by rewrite read_core_lines_diagnostics.
Qed.

(** C5 on the graph without vertices. *)
Lemma C5_exact_without_vertices_witness :
  let run := @kcore_decomposition Ref.reference default_vlist default_elist
               (Ref.fresh_world (Ref.isolated 0)) in
  fst run = Ok ∅ /\ spawned (snd run) = [[]].
Proof.
  intros run.
  destruct (@C5_exact_without_vertices Ref.reference
              (Ref.fresh_world (Ref.isolated 0)) eq_refl)
    as (_ & Hs & He).
  split; [apply He; constructor | exact Hs].
Defined.

(** C5 as stated fails on the graph without vertices: the fast strategy
    raises when it unpacks the empty grouping, and the exact strategy does
    launch the peeling process. *)
Lemma C5_zero_vertices_counterexample :
  @fast_peel_histogram Ref.reference (Ref.isolated 0)
     (active_index (Ref.isolated 0))
  = Raise ValueError
  /\ spawned (snd (@kcore_decomposition Ref.reference
                     default_vlist default_elist
                     (Ref.fresh_world (Ref.isolated 0))))
     = [[]].
Proof. split; reflexivity. Qed.

(** ** The choice of the peeling strategy *)

Lemma filter_active_truthy (G : GT.Graph) :
  filter_active G
  <-> truthy_obj (GT.vertex_filter G) || truthy_obj (GT.edge_filter G) = true.
Proof.
  unfold filter_active.
  destruct (GT.vertex_filter G), (GT.edge_filter G); simpl;
    split; intros; auto; try done.
  destruct H as [? | ?]; done.
Qed.

Lemma filter_all {A} (f : A -> bool) (l : list A) :
  (forall x, In x l -> f x = true) -> List.filter f l = l.
Proof.
  induction l as [|x l IH]; simpl; intros Hf; [done|].
  rewrite Hf by auto. f_equal. apply IH. auto.
Qed.

(** Without a vertex filter the positions grouped over are the vertices. *)
Lemma unfiltered_vertices (G : GT.Graph) :
  GT.vertex_filter G = None ->
  GT.vertices G = seq 0 (GT.num_stored G)
  /\ active_index G = GT.vertices G.
Proof.
  intros Hf.
  assert (Hv : GT.vertices G = seq 0 (GT.num_stored G)).
  { unfold GT.vertices. apply filter_all. intros v Hv%in_seq.
    unfold GT.vertex_visible. rewrite Hf. simpl.
    rewrite andb_true_r. apply Nat.ltb_lt. lia. }
  split; [done|].
  unfold active_index, GT.num_vertices, Np.arange.
  by rewrite Hf, Hv, length_seq.
Qed.

Lemma app_singleton_neq {A} (l : list A) (x : A) : (l ++ [x])%list <> l.
Proof.
  intros E. apply (f_equal length) in E. rewrite length_app in E.
  simpl in E. lia.
Qed.

Lemma exact_peel_histogram_run `{Collaborators} (w : World) :
  exact_peel_histogram w
  = (exact_histogram_of (the_graph w), after_peeling w).
Proof.
  unfold exact_peel_histogram, exact_histogram_of, mbind, M_bind, res_bind.
  rewrite kcore_decomposition_default.
  by destruct (read_core_lines _ _).
Qed.

Lemma filter_eqb_self (x : nat) (l : list nat) :
  In x l -> length (List.filter (Nat.eqb x) l) <> 0.
Proof.
  induction l as [|y l IH]; simpl; [done|].
  intros [-> | Hin].
  - by rewrite Nat.eqb_refl.
  - destruct (x =? y); [done | by apply IH].
Qed.

(** A visible vertex gives the histogram a bin. *)
Lemma vertices_occupied (G : GT.Graph) :
  GT.vertices G <> [] -> occupied_bins G <> [].
Proof.
  destruct (GT.vertices G) as [|v vs] eqn:Hv; [done|]. intros _ Hb.
  assert (Hin : GT.out_degree G v ∈ occupied_bins G).
  { apply occupied_bins_spec. unfold degree_count. rewrite Hv.
    apply filter_eqb_self. simpl. auto. }
  rewrite Hb in Hin. by apply elem_of_nil in Hin.
Qed.

(** C1: on a loaded graph with a visible vertex, [statistics] runs the
    exact strategy (a peeling process fed with the visible edges) if and
    only if a vertex filter or an edge filter is set on the graph, and it
    runs the fast strategy (the decomposition of the library, grouped over
    the visible vertices, no process) if and only if none is.  On a loaded
    graph without a visible vertex it runs neither, filter or not: reading
    [deg_bins[0]] raises [IndexError] before the choice is reached, and no
    process is launched. *)
Theorem C1_strategy_choice `{Collaborators} (w : World) :
  let G := the_graph w in
  let run := statistics TheGraph w in
  (GT.vertices G <> [] ->
     (ran_exact w run <-> filter_active G)
     /\ (ran_fast w run <-> ~ filter_active G))
  /\ (GT.vertices G = [] ->
     run = (Raise IndexError, w)
     /\ ~ ran_exact w run /\ ~ ran_fast w run).
Proof.
  intros G run. split.
  - intros Hv. subst run. rewrite statistics_run. cbv zeta. fold G.
    apply vertices_occupied in Hv. fold G in Hv.
    destruct (occupied_bins G) as [|bin0 bins] eqn:Hb; [done|]. clear Hv.
    unfold ran_exact, ran_fast. fold G. rewrite (filter_active_truthy G).
    unfold peel_histogram.
    destruct (truthy_obj (GT.vertex_filter G)
              || truthy_obj (GT.edge_filter G)) eqn:Ht.
    + (* a filter is set: the exact strategy *)
      rewrite exact_peel_histogram_run. fold G.
      destruct (exact_histogram_of G) as [[pb pc]|e] eqn:Hx; cbn [fst snd].
      * split.
        -- split; [done|]. intros _. split; [done|]. eexists. split; done.
        -- split; [|done]. intros [Hs _]. by apply app_singleton_neq in Hs.
      * split.
        -- split; [done|]. intros _. by split.
        -- split; [|done]. intros [Hs _]. by apply app_singleton_neq in Hs.
    + (* no filter: the fast strategy *)
      apply orb_false_iff in Ht as [Hvf Hef].
      assert (Hnone : GT.vertex_filter G = None)
        by (by destruct (GT.vertex_filter G)).
      destruct (unfiltered_vertices G Hnone) as [_ Hidx].
      rewrite Hidx. unfold lift.
      destruct (fast_peel_histogram G (GT.vertices G)) as [[pb pc]|e];
        cbn [fst snd].
      * split.
        -- split; [|done]. intros [Hs _]. symmetry in Hs.
           by apply app_singleton_neq in Hs.
        -- split; [done|]. intros _. split; [done|]. eexists. split; done.
      * split.
        -- split; [|done]. intros [Hs _]. symmetry in Hs.
           by apply app_singleton_neq in Hs.
        -- split; [done|]. intros _. by split.
  - intros Hv. subst run. rewrite (statistics_no_vertices w Hv).
    split; [done|]. unfold ran_exact, ran_fast. cbn [fst snd]. split.
    + intros [Hs _]. symmetry in Hs. by apply app_singleton_neq in Hs.
    + intros [_ Hr]. fold G in Hr. unfold G in Hv. fold G in Hv.
      rewrite Hv, fast_peel_histogram_nil in Hr. simpl in Hr. done.
Qed.

(** C1 on the path with an all-true vertex filter: the exact strategy
    runs, one process is launched. *)
Lemma C1_strategy_choice_witness :
  let w := Ref.fresh_world (Ref.all_visible Ref.path5) in
  let run := @statistics Ref.reference TheGraph w in
  (@ran_exact Ref.reference w run <-> filter_active (the_graph w))
  /\ (@ran_fast Ref.reference w run <-> ~ filter_active (the_graph w)).
Proof.
  intros w.
  apply (proj1 (@C1_strategy_choice Ref.reference w)).
  vm_compute. discriminate.
Defined.

(** C1 as stated fails on a graph without a visible vertex.  Behind a
    vertex filter that lets nothing pass a filter is set and the exact
    strategy does not run; on the graph without vertices no filter is set
    and the fast strategy does not run.  [statistics] raises [IndexError]
    in both. *)
Lemma C1_no_visible_vertex_counterexample :
  (let w := Ref.fresh_world (Ref.none_visible Ref.path5) in
   let run := @statistics Ref.reference TheGraph w in
   filter_active (the_graph w)
   /\ run = (Raise IndexError, w)
   /\ ~ @ran_exact Ref.reference w run)
  /\ (let w := Ref.fresh_world (Ref.isolated 0) in
      let run := @statistics Ref.reference TheGraph w in
      ~ filter_active (the_graph w)
      /\ run = (Raise IndexError, w)
      /\ ~ @ran_fast Ref.reference w run).
Proof.
  split.
  - split; [by left|]. split; [reflexivity|].
    intros [Hs _]. vm_compute in Hs. discriminate.
  - split; [by intros [? | ?]|]. split; [reflexivity|].
    intros [_ Hr]. vm_compute in Hr. discriminate.
Qed.

(** ** What the two strategies count *)

Lemma total_count_insert_new (m : gmap Z nat) (k : Z) (c : nat) :
  m !! k = None -> total_count (<[k := c]> m) = c + total_count m.
Proof.
  intros Hk. unfold total_count.
  rewrite map_fold_insert_L; [done | intros; lia | done].
Qed.

Lemma total_count_insert_old (m : gmap Z nat) (k : Z) (c c' : nat) :
  m !! k = Some c ->
  total_count (<[k := c']> m) + c = total_count m + c'.
Proof.
  intros Hk.
  rewrite <- (insert_delete_eq m k c').
  rewrite <- (insert_delete_id m k c Hk) at 2.
  rewrite !total_count_insert_new by apply lookup_delete_eq. lia.
Qed.

(** A counter accounts for every item it was fed. *)
Lemma Counter_total (xs : list Z) : total_count (Counter xs) = length xs.
Proof.
  unfold Counter.
  enough (Hgen : forall m : gmap Z nat,
             total_count
               (fold_left (fun c x => <[x := S (default 0 (c !! x))]> c) xs m)
             = length xs + total_count m).
  { rewrite Hgen. unfold total_count. rewrite map_fold_empty. lia. }
  induction xs as [|x xs IH]; intros m; simpl; [done|].
  rewrite IH. destruct (m !! x) as [c|] eqn:Hx; simpl.
  - pose proof (total_count_insert_old m x c (S c) Hx). lia.
  - rewrite total_count_insert_new by done. lia.
Qed.

Lemma take_length {A} (a : list A) (idx : list nat) (xs : list A) :
  Np.take a idx = Ok xs -> length xs = length idx.
Proof.
  revert xs. induction idx as [|i idx IH]; intros xs; simpl.
  - by intros [= <-].
  - destruct (a !! i); [|done].
    destruct (Np.take a idx) as [ys|]; [|done]. simpl.
    intros [= <-]. simpl. f_equal. by apply IH.
Qed.

Lemma zip_map_fst_snd {A B} (l : list (A * B)) :
  zip (map fst l) (map snd l) = l.
Proof. induction l as [|[a b] l IH]; simpl; [done|]. by rewrite IH. Qed.

(** The fast strategy accounts for every vertex it groups over. *)
Lemma fast_peel_histogram_total `{Collaborators}
    (G : GT.Graph) (v_idx : list nat) (h : list Z * list nat) :
  fast_peel_histogram G v_idx = Ok h ->
  total_count (histogram_map h) = length v_idx.
Proof.
  unfold fast_peel_histogram, mbind, res_bind.
  destruct (Np.take (kcore_values G) v_idx) as [cores|] eqn:Ht; [|done].
  simpl. unfold unzip_items.
  destruct (map_to_list (Counter cores)) as [|p l] eqn:El; [done|].
  intros [= <-]. unfold histogram_map. cbn [fst snd].
  change (p.1 :: map fst l) with (map fst (p :: l)).
  change (p.2 :: map snd l) with (map snd (p :: l)).
  rewrite zip_map_fst_snd, <- El, list_to_map_to_list.
  rewrite Counter_total. by eapply take_length.
Qed.

(** The exact strategy depends on the visible edges, and on nothing else
    of the graph. *)
Lemma exact_depends_on_edges `{Collaborators} (w1 w2 : World) :
  GT.edges (the_graph w1) = GT.edges (the_graph w2) ->
  fst (kcore_decomposition default_vlist default_elist w1)
  = fst (kcore_decomposition default_vlist default_elist w2)
  /\ fst (exact_peel_histogram w1) = fst (exact_peel_histogram w2).
Proof.
  intros He. unfold exact_peel_histogram, mbind, M_bind.
  rewrite !kcore_decomposition_default. unfold edge_stream.
  rewrite He. split; [done|].
  by destruct (read_core_lines _ _).
Qed.

(** ** The buckets of the exact strategy *)

(** C3 on the code: the buckets of the exact strategy come from the
    visible edges alone.  Two views with the same visible edges get the same
    buckets, so when a vertex is visible in one and not in the other (an
    isolated vertex), the buckets cannot partition the vertex set of both:
    the isolated vertex is in no bucket. *)
Theorem C3_exact_misses_isolated `{Collaborators}
    (w1 w2 : World) (v : nat) :
  GT.edges (the_graph w1) = GT.edges (the_graph w2) ->
  v ∈ GT.vertices (the_graph w1) ->
  v ∉ GT.vertices (the_graph w2) ->
  let r1 := fst (kcore_decomposition default_vlist default_elist w1) in
  let r2 := fst (kcore_decomposition default_vlist default_elist w2) in
  r1 = r2
  /\ ~ ((exists pp, r1 = Ok pp /\ partitions pp (GT.vertices (the_graph w1)))
        /\ (exists pp, r2 = Ok pp
                       /\ partitions pp (GT.vertices (the_graph w2)))).
Proof.
  intros He Hin Hout r1 r2.
  assert (Heq : r1 = r2) by apply (exact_depends_on_edges w1 w2 He).
  split; [done|].
  intros [(pp1 & H1 & [Hcover1 _]) (pp2 & H2 & [_ Honly2])].
  assert (pp1 = pp2) as -> by congruence.
  destruct (Hcover1 v Hin) as (k & Hb & _).
  destruct (Honly2 _ _ Hb) as (v' & Hin' & Hv').
  apply (inj pretty) in Hv' as <-. done.
Qed.

(** C3 on two and on one isolated vertex behind an all-true vertex filter:
    the exact strategy returns no bucket at all, and vertex 1 is missed. *)
Lemma C3_exact_misses_isolated_witness :
  let w1 := Ref.fresh_world (Ref.all_visible (Ref.isolated 2)) in
  let w2 := Ref.fresh_world (Ref.all_visible (Ref.isolated 1)) in
  let r1 := fst (@kcore_decomposition Ref.reference
                   default_vlist default_elist w1) in
  let r2 := fst (@kcore_decomposition Ref.reference
                   default_vlist default_elist w2) in
  r1 = r2
  /\ ~ ((exists pp, r1 = Ok pp /\ partitions pp [0; 1])
        /\ (exists pp, r2 = Ok pp /\ partitions pp [0])).
Proof.
  intros w1 w2.
  apply (@C3_exact_misses_isolated Ref.reference w1 w2 1 eq_refl).
  - apply list_elem_of_In. simpl. auto.
  - intros Hin. apply list_elem_of_In in Hin. simpl in Hin.
    destruct Hin as [Hin | []]. discriminate Hin.
Defined.

Example exact_isolated3 :
  fst (@kcore_decomposition Ref.reference default_vlist default_elist
         (Ref.fresh_world (Ref.all_visible (Ref.isolated 3))))
  = Ok ∅.
Proof. reflexivity. Qed.

(** ** The two strategies side by side *)

(** C2 on the code: on unfiltered graphs the exact strategy answers from
    the visible edges alone, while the fast strategy accounts for every
    vertex.  Two unfiltered graphs with the same edges and different
    numbers of vertices (they differ in isolated vertices) cannot both see
    the two strategies agree. *)
Theorem C2_strategies_disagree `{Collaborators} (w1 w2 : World) :
  ~ filter_active (the_graph w1) ->
  ~ filter_active (the_graph w2) ->
  GT.edges (the_graph w1) = GT.edges (the_graph w2) ->
  GT.num_vertices (the_graph w1) <> GT.num_vertices (the_graph w2) ->
  ~ (strategies_agree w1 /\ strategies_agree w2).
Proof.
  intros _ _ He Hn [(he1 & hf1 & Hx1 & Hf1 & Ha1) (he2 & hf2 & Hx2 & Hf2 & Ha2)].
  destruct (exact_depends_on_edges w1 w2 He) as [_ Hsame].
  assert (he1 = he2) as -> by congruence.
  apply fast_peel_histogram_total in Hf1, Hf2.
  apply Hn. unfold GT.num_vertices. congruence.
Qed.

(** C2 on one and on two isolated vertices, no filter set. *)
Lemma C2_strategies_disagree_witness :
  ~ (@strategies_agree Ref.reference (Ref.fresh_world (Ref.isolated 1))
     /\ @strategies_agree Ref.reference (Ref.fresh_world (Ref.isolated 2))).
Proof.
  apply (@C2_strategies_disagree Ref.reference
           (Ref.fresh_world (Ref.isolated 1))
           (Ref.fresh_world (Ref.isolated 2))).
  - intros [Hf | Hf]; apply Hf; reflexivity.
  - intros [Hf | Hf]; apply Hf; reflexivity.
  - reflexivity.
  - simpl. discriminate.
Defined.

(** Three isolated vertices, no filter set: the fast strategy puts them in
    core 0, the exact strategy has no bucket for them. *)
Example strategies_isolated3 :
  let w := Ref.fresh_world (Ref.isolated 3) in
  fst (@exact_peel_histogram Ref.reference w) = Ok ([], [])
  /\ @fast_peel_histogram Ref.reference (the_graph w)
       (GT.vertices (the_graph w))
     = Ok ([0%Z], [3]).
Proof. split; reflexivity. Qed.

(** On the path with five vertices they agree. *)
Example strategies_path5 :
  let w := Ref.fresh_world Ref.path5 in
  fst (@exact_peel_histogram Ref.reference w) = Ok ([1%Z], [5])
  /\ @fast_peel_histogram Ref.reference (the_graph w)
       (GT.vertices (the_graph w))
     = Ok ([1%Z], [5]).
Proof. split; vm_compute; reflexivity. Qed.

(** ** The string primitives on the lines of the protocols *)

Example split_eq : split "Core_3 = 1 2 3" " = " = ["Core_3"; "1 2 3"].
Proof. reflexivity. Qed.
Example split_none : split "Core_3" " = " = ["Core_3"].
Proof. reflexivity. Qed.
Example split_trailing : split "a|b||" "|" = ["a"; "b"; ""; ""].
Proof. reflexivity. Qed.
Example split_ws_ex : split_ws (strip "  1 22   3 ") = ["1"; "22"; "3"].
Proof. reflexivity. Qed.
Example int_ex : int " -42 " = Ok (-42)%Z.
Proof. reflexivity. Qed.
Example int_bad : int "root" = Raise ValueError.
Proof. reflexivity. Qed.
Example int_sign_only : int "-" = Raise ValueError.
Proof. reflexivity. Qed.
Example getitem_neg : getitem [10; 20; 30] (-1)%Z = Ok 30.
Proof. reflexivity. Qed.
Example getitem_oob : getitem [10; 20; 30] 3%Z = Raise IndexError.
Proof. reflexivity. Qed.

(* ===================================================================== *)
(** * Properties beyond the claims *)
(* ===================================================================== *)

Import Further.

(** ** Labels that resolve *)

Lemma getitem_nat {A} (l : list A) (i : nat) (x : A) :
  l !! i = Some x -> getitem l (Z.of_nat i) = Ok x.
Proof.
  intros Hx. pose proof (lookup_lt_Some _ _ _ Hx) as Hlt.
  unfold getitem.
  destruct (Z.ltb_spec (Z.of_nat i) 0%Z); [lia|].
  destruct (Z.leb_spec 0%Z (Z.of_nat i)); [|lia].
  destruct (Z.ltb_spec (Z.of_nat i) (Z.of_nat (length l))); [|lia].
  simpl. by rewrite Nat2Z.id, Hx.
Qed.

Lemma getitem_from_end {A} (l : list A) (k : nat) (x : A) :
  1 <= k <= length l ->
  l !! (length l - k) = Some x ->
  getitem l (- Z.of_nat k) = Ok x.
Proof.
  intros Hk Hx. unfold getitem.
  destruct (Z.ltb_spec (- Z.of_nat k) 0%Z); [|lia].
  destruct (Z.leb_spec 0%Z (- Z.of_nat k + Z.of_nat (length l))); [|lia].
  destruct (Z.ltb_spec (- Z.of_nat k + Z.of_nat (length l))
              (Z.of_nat (length l))); [|lia].
  simpl.
  replace (Z.to_nat (- Z.of_nat k + Z.of_nat (length l)))
    with (length l - k) by lia.
  by rewrite Hx.
Qed.

Lemma walk_descend (node target : PartitionNode)
    (tokens : list string) (path : list nat) :
  Forall2 (fun s i => token_index s = Ok (Z.of_nat i)) tokens path ->
  descend node path = Some target ->
  walk node tokens = Ok target.
Proof.
  intros Hall. revert node.
  induction Hall as [|s i tokens path Hs _ IH]; intros node; simpl.
  - by intros [= ->].
  - destruct (children node !! i) as [child|] eqn:Hc; [|done].
    intros Hd. unfold token_index in Hs. rewrite Hs. simpl.
    rewrite (getitem_nat _ _ _ Hc). simpl. by apply IH.
Qed.

(** X1: a label whose tokens end in the zero-based positions of a path
    that exists in the tree resolves to the node at the end of that path;
    nothing of a token but its trailing integer matters. *)
Theorem X1_traverse_tree_follows_path
    (T : PartitionTree) (label : string) (path : list nat)
    (target : PartitionNode) :
  Forall2 (fun s i => token_index s = Ok (Z.of_nat i))
          (label_tokens label) path ->
  descend (root T) path = Some target ->
  traverse_tree T label = Ok target.
Proof.
  intros Htok Hpath. rewrite traverse_tree_walk.
  by eapply walk_descend.
Qed.

Lemma X1_traverse_tree_follows_path_witness :
  traverse_tree Ref.two_leaves "Root|part_b_1"
  = Ok (Node [2; 3]%Z [1]%Z []).
Proof.
  apply (X1_traverse_tree_follows_path Ref.two_leaves "Root|part_b_1" [1]).
  - repeat constructor.
  - reflexivity.
Defined.

(** X2: a token that ends in a negative integer [-k] is not rejected: for
    [k] up to the number of children it selects the [k]-th child from the
    end, as Python indexing does. *)
Theorem X2_negative_index_wraps
    (T : PartitionTree) (label : string) (pre : list string) (s : string)
    (node child : PartitionNode) (k : nat) :
  label_tokens label = (pre ++ [s])%list ->
  walk (root T) pre = Ok node ->
  token_index s = Ok (- Z.of_nat k)%Z ->
  1 <= k <= length (children node) ->
  children node !! (length (children node) - k) = Some child ->
  traverse_tree T label = Ok child.
Proof.
  intros Htok Hpre Hs Hk Hc.
  rewrite traverse_tree_walk, Htok, walk_app, Hpre. simpl.
  unfold token_index in Hs. rewrite Hs. simpl.
  by rewrite (getitem_from_end _ _ _ Hk Hc).
Qed.

Lemma X2_negative_index_wraps_witness :
  traverse_tree Ref.two_leaves "root|cluster_-1"
  = Ok (Node [2; 3]%Z [1]%Z []).
Proof.
  apply (X2_negative_index_wraps Ref.two_leaves "root|cluster_-1"
           [] "cluster_-1" (root Ref.two_leaves) _ 1 eq_refl eq_refl eq_refl).
  - simpl. lia.
  - reflexivity.
Defined.

(** X3: a token that does not end in an integer (an empty token left by a
    doubled or trailing [|] among them) makes resolution raise
    [ValueError] as soon as the walk reaches it, whatever the tree holds
    there. *)
Theorem X3_token_without_integer
    (T : PartitionTree) (label : string) (pre rest : list string)
    (s : string) (node : PartitionNode) :
  label_tokens label = (pre ++ s :: rest)%list ->
  walk (root T) pre = Ok node ->
  is_ok (token_index s) = false ->
  traverse_tree T label = Raise ValueError
  /\ get_indices T label = Raise ValueError.
Proof.
  intros Htok Hpre Hs.
  assert (Ht : traverse_tree T label = Raise ValueError).
  { rewrite traverse_tree_walk, Htok, walk_app, Hpre. simpl.
    unfold token_index in Hs.
    destruct (int (last_piece (split s "_"))) as [idx|e] eqn:Ei; [done|].
    by apply int_raises in Ei as ->. }
  split; [done|]. unfold get_indices, mbind, res_bind. by rewrite Ht.
Qed.

Lemma X3_token_without_integer_witness :
  traverse_tree Ref.two_leaves "root|cluster_1|" = Raise ValueError
  /\ get_indices Ref.two_leaves "root|cluster_1|" = Raise ValueError.
Proof.
  apply (X3_token_without_integer Ref.two_leaves "root|cluster_1|"
           ["cluster_1"] [] "" (Node [2; 3]%Z [1]%Z [])
           eq_refl eq_refl eq_refl).
Defined.

Lemma split_go_cons (sep : string) (k : nat) (s : string) :
  exists h t, split_go sep k s = h :: t.
Proof.
  revert k. induction s as [|c r IH]; intros k; simpl; [by eexists _, _|].
  destruct k as [|k]; [|apply IH].
  match goal with |- context [if ?b then _ else _] => destruct b end;
    [by eexists _, _|].
  destruct (IH 0) as (h & t & ->). by eexists _, _.
Qed.

Lemma split_root_bar (l : string) :
  split ("root|" +:+ l) "|" = "root" :: split l "|".
Proof.
  unfold split.
  change ("root|" +:+ l)
    with (String "r" (String "o" (String "o" (String "t" (String "|" l))))).
  cbn. replace (String.prefix "" l) with true by (by destruct l).
  reflexivity.
Qed.

(** X4: the leading [root] token is optional.  When the first token of a
    label is not [root] itself, the label resolves to the same node, or
    fails in the same way, with and without [root|] in front. *)
Theorem X4_root_prefix_optional (T : PartitionTree) (l : string) :
  (forall s0 tl, split l "|" = s0 :: tl -> lower s0 <> "root") ->
  traverse_tree T ("root|" +:+ l) = traverse_tree T l.
Proof.
  intros Hfirst. rewrite !traverse_tree_walk. f_equal.
  unfold label_tokens. rewrite split_root_bar. simpl.
  destruct (split l "|") as [|s0 tl] eqn:E; [done|].
  destruct (String.eqb_spec (lower s0) "root") as [Hr|]; [|done].
  by apply (Hfirst s0 tl eq_refl) in Hr.
Qed.

Lemma X4_root_prefix_optional_witness :
  traverse_tree Ref.two_leaves "root|cluster_1"
  = traverse_tree Ref.two_leaves "cluster_1".
Proof.
  apply (X4_root_prefix_optional Ref.two_leaves "cluster_1").
  intros s0 tl E. injection E as <- <-. discriminate.
Defined.

(** ** Result lines with the same core number *)

(** X5: when two result lines of the peeling process carry the same core
    number, the later one replaces the earlier one: the vertices listed on
    the earlier line are dropped from the mapping without any error. *)
Theorem X5_later_line_replaces
    (l1 l2 : string) (mid rest : list string) (k : Z)
    (vs1 vs2 : list string) (pp : gmap Z (list string)) :
  startswith l1 "Core" = true -> parse_core_line l1 = Ok (k, vs1) ->
  Forall diagnostic mid ->
  startswith l2 "Core" = true -> parse_core_line l2 = Ok (k, vs2) ->
  read_core_lines (l1 :: mid ++ l2 :: rest)%list pp
  = read_core_lines (l2 :: rest) pp.
Proof.
  intros Hc1 Hp1 Hmid Hc2 Hp2.
  rewrite read_core_lines_core by eauto using startswith_nonempty.
  rewrite Hp1, read_core_lines_diagnostics by done.
  rewrite !(read_core_lines_core l2) by eauto using startswith_nonempty.
  rewrite Hp2. by rewrite insert_insert_eq.
Qed.

Lemma X5_later_line_replaces_witness :
  read_core_lines
    ["Core_2 = 0 1" +:+ LF; "progress" +:+ LF; "Core_2 = 5" +:+ LF] ∅
  = read_core_lines ["Core_2 = 5" +:+ LF] ∅.
Proof.
  apply (X5_later_line_replaces ("Core_2 = 0 1" +:+ LF) ("Core_2 = 5" +:+ LF)
           ["progress" +:+ LF] [] 2%Z ["0"; "1"] ["5"] ∅
           eq_refl eq_refl).
  - repeat constructor. discriminate.
  - reflexivity.
  - reflexivity.
Defined.

(** ** Indices out of range *)

Lemma norm_index_out_of_range (n : nat) (i : Z) :
  out_of_range n i <-> Np.norm_index n i = Raise IndexError.
Proof.
  unfold out_of_range, Np.norm_index.
  destruct (Z.ltb_spec i 0%Z);
    match goal with |- context [(?a <=? ?b)%Z && (?c <? ?d)%Z] =>
      destruct (Z.leb_spec a b); destruct (Z.ltb_spec c d)
    end; simpl; split; intros; try done; try lia.
Qed.

Lemma norm_indices_raises (n : nat) (idx : list Z) (e : exn) :
  Np.norm_indices n idx = Raise e -> e = IndexError.
Proof.
  induction idx as [|i idx IH]; simpl; [done|].
  unfold Np.norm_index.
  destruct (_ && _); simpl; [|by intros [= <-]].
  destruct (Np.norm_indices n idx); simpl; [done|].
  intros [= <-]. by apply IH.
Qed.

Lemma norm_indices_bad (n : nat) (idx : list Z) :
  (exists i, i ∈ idx /\ out_of_range n i) ->
  Np.norm_indices n idx = Raise IndexError.
Proof.
  induction idx as [|i idx IH]; intros (j & Hin & Hbad).
  - by apply elem_of_nil in Hin.
  - simpl. destruct (Np.norm_index n i) as [j0|e] eqn:E0; simpl.
    + apply elem_of_cons in Hin as [-> | Hin].
      * apply norm_index_out_of_range in Hbad. congruence.
      * rewrite IH; [done | eauto].
    + apply elem_of_cons in Hin as [-> | Hin].
      * apply norm_index_out_of_range in Hbad. congruence.
      * assert (out_of_range n i) as Hi.
        { apply norm_index_out_of_range. rewrite E0. f_equal.
          unfold Np.norm_index in E0. destruct (_ && _); [done|].
          by injection E0 as <-. }
        apply norm_index_out_of_range in Hi. congruence.
Qed.

Lemma setitem_fancy_bad {A} (a : list A) (idx : list Z) (x : A) :
  (exists i, i ∈ idx /\ out_of_range (length a) i) ->
  Np.setitem_fancy a idx x = Raise IndexError.
Proof.
  intros Hbad. unfold Np.setitem_fancy.
  by rewrite (norm_indices_bad _ _ Hbad).
Qed.

Lemma setitem_fancy_raises {A} (a : list A) (idx : list Z) (x : A) (e : exn) :
  Np.setitem_fancy a idx x = Raise e -> e = IndexError.
Proof.
  unfold Np.setitem_fancy.
  destruct (Np.norm_indices (length a) idx) eqn:E; simpl; [done|].
  intros [= <-]. by apply norm_indices_raises in E.
Qed.

Lemma truthy_list_elem (l : seqobj) (i : Z) :
  i ∈ items l -> truthy_list l = true.
Proof.
  unfold truthy_list. destruct (items l); [|done].
  by intros ?%elem_of_nil.
Qed.

Section InduceRuns.
Context `{Collaborators}.

(** [save_adjacency], whatever the indices. *)
Lemma save_adjacency_run (w : World) (vlist elist : seqobj)
    (filename : string) :
  let G := the_graph w in
  save_adjacency vlist elist filename w
  = match Np.setitem_fancy (GT.new_vp G false) (items vlist) true,
          Np.setitem_fancy (GT.new_ep G false) (items elist) true with
    | Ok vp, Ok ep =>
        let G' := with_filters G vp ep in
        (Ok ("Adjacency saved as " +:+ filename),
         mkWorld G' (next_oid w) (spawned w)
           (<[filename :=
                map (fun v => adjacency_line v (GT.out_neighbours G' v))
                    (GT.vertices G')]> (files w)))
    | Ok _, Raise e => (Raise e, w)
    | Raise e, _ => (Raise e, w)
    end.
Proof.
  intros G. unfold save_adjacency, mbind, M_bind, get_graph, lift. fold G.
  destruct (Np.setitem_fancy (GT.new_vp G false) _ _) as [vp|e];
    [|by destruct w].
  destruct (Np.setitem_fancy (GT.new_ep G false) _ _) as [ep|e];
    [done | by destruct w].
Qed.

(** [kcore_decomposition] with a non-empty list, whatever the indices. *)
Lemma kcore_decomposition_run (w : World) (vlist elist : seqobj) :
  oid vlist < next_oid w -> oid elist < next_oid w ->
  truthy_list vlist || truthy_list elist = true ->
  let G := the_graph w in
  let stopped :=
    mkWorld G (S (S (next_oid w))) (spawned w) (files w) in
  kcore_decomposition vlist elist w
  = match Np.setitem_fancy (GT.new_vp G false) (items vlist) true,
          Np.setitem_fancy (GT.new_ep G false) (items elist) true with
    | Ok vp, Ok ep =>
        let G' := with_filters G vp ep in
        (read_core_lines (graph_peeling_bin (edge_stream G')) ∅,
         mkWorld G' (S (S (next_oid w))) (spawned w ++ [edge_stream G'])
                 (files w))
    | Ok _, Raise e => (Raise e, stopped)
    | Raise e, _ => (Raise e, stopped)
    end.
Proof.
  intros Hv He Ht G stopped.
  destruct (Np.setitem_fancy (GT.new_vp G false) (items vlist) true)
    as [vp|e] eqn:Hvp;
    [destruct (Np.setitem_fancy (GT.new_ep G false) (items elist) true)
       as [ep|e] eqn:Hep|].
  - by apply kcore_decomposition_induce.
  - unfold kcore_decomposition. rewrite Ht.
    unfold mbind, M_bind, get_graph at 1.
    rewrite rebind_empty_same by assumption.
    unfold lift. fold G. by rewrite Hvp, Hep.
  - unfold kcore_decomposition. rewrite Ht.
    unfold mbind, M_bind, get_graph at 1.
    rewrite rebind_empty_same by assumption.
    unfold lift. fold G. by rewrite Hvp.
Qed.

End InduceRuns.

(** X6: an index out of range in either list makes [save_adjacency] and
    [kcore_decomposition] raise [IndexError] before anything is installed:
    the filters of the graph are as before, no file is written and no
    peeling process is launched. *)
Theorem X6_bad_index_changes_nothing `{Collaborators}
    (w : World) (vlist elist : seqobj) (filename : string) :
  (exists i, i ∈ items vlist /\ out_of_range (GT.num_stored (the_graph w)) i)
  \/ (exists i, i ∈ items elist
        /\ out_of_range (length (GT.stored_edges (the_graph w))) i) ->
  save_adjacency vlist elist filename w = (Raise IndexError, w)
  /\ (oid vlist < next_oid w -> oid elist < next_oid w ->
      let run := kcore_decomposition vlist elist w in
      fst run = Raise IndexError
      /\ the_graph (snd run) = the_graph w
      /\ spawned (snd run) = spawned w
      /\ files (snd run) = files w).
Proof.
  intros Hbad.
  assert (Ht : truthy_list vlist || truthy_list elist = true).
  { destruct Hbad as [(i & Hin & _) | (i & Hin & _)];
      rewrite (truthy_list_elem _ _ Hin); [done | apply orb_true_r]. }
  assert (Hcases :
    match Np.setitem_fancy (GT.new_vp (the_graph w) false) (items vlist) true,
          Np.setitem_fancy (GT.new_ep (the_graph w) false) (items elist) true
    with
    | Ok _, Ok _ => False
    | Ok _, Raise e => e = IndexError
    | Raise e, _ => e = IndexError
    end).
  { destruct (Np.setitem_fancy (GT.new_vp _ _) _ _) as [vp|e] eqn:Hvp;
      [|by apply setitem_fancy_raises in Hvp].
    destruct (Np.setitem_fancy (GT.new_ep _ _) _ _) as [ep|e] eqn:Hep;
      [|by apply setitem_fancy_raises in Hep].
    destruct Hbad as [Hb | Hb].
    - rewrite setitem_fancy_bad in Hvp; [done|].
      unfold GT.new_vp. by rewrite length_replicate.
    - rewrite setitem_fancy_bad in Hep; [done|].
      unfold GT.new_ep. by rewrite length_replicate. }
  split.
  - rewrite save_adjacency_run. cbv zeta.
    destruct (Np.setitem_fancy (GT.new_vp _ _) _ _) as [vp|e];
      [destruct (Np.setitem_fancy (GT.new_ep _ _) _ _) as [ep|e]|];
      [done | by subst | by subst].
  - intros Hv He run. subst run.
    rewrite (kcore_decomposition_run w vlist elist Hv He Ht). cbv zeta.
    destruct (Np.setitem_fancy (GT.new_vp _ _) _ _) as [vp|e];
      [destruct (Np.setitem_fancy (GT.new_ep _ _) _ _) as [ep|e]|];
      [done | by subst | by subst].
Qed.

Lemma X6_bad_index_changes_nothing_witness :
  let w := mkWorld Ref.path5 4 [] ∅ in
  save_adjacency (SeqObj 2 [0; 5]%Z) (SeqObj 3 [0]%Z) "adj.txt" w
  = (Raise IndexError, w).
Proof.
  intros w.
  refine (proj1 (@X6_bad_index_changes_nothing Ref.reference w
            (SeqObj 2 [0; 5]%Z) (SeqObj 3 [0]%Z) "adj.txt" _)).
  left. exists 5%Z. split.
  - apply list_elem_of_In. simpl. auto.
  - right. simpl. lia.
Defined.

(** ** The induced view *)

Lemma with_filters_same_storage (G1 G2 : GT.Graph) (vp ep : list bool) :
  same_storage G1 G2 -> with_filters G1 vp ep = with_filters G2 vp ep.
Proof.
  intros (Hd & Hn & He). unfold with_filters, GT.set_edge_filter,
    GT.set_vertex_filter. simpl. by rewrite Hd, Hn, He.
Qed.

(** X7: inducing replaces the view, it does not refine it.  With indices
    in range, [save_adjacency] and [kcore_decomposition] (given a non-empty
    list) end in the same world and with the same outcome whatever filters
    were set on the graph before the call. *)
Theorem X7_previous_filters_ignored `{Collaborators}
    (w1 w2 : World) (vlist elist : seqobj) (filename : string)
    (vp ep : list bool) :
  same_storage (the_graph w1) (the_graph w2) ->
  next_oid w1 = next_oid w2 -> spawned w1 = spawned w2 ->
  files w1 = files w2 ->
  Np.setitem_fancy (GT.new_vp (the_graph w1) false) (items vlist) true
    = Ok vp ->
  Np.setitem_fancy (GT.new_ep (the_graph w1) false) (items elist) true
    = Ok ep ->
  save_adjacency vlist elist filename w1
    = save_adjacency vlist elist filename w2
  /\ (oid vlist < next_oid w1 -> oid elist < next_oid w1 ->
      truthy_list vlist || truthy_list elist = true ->
      kcore_decomposition vlist elist w1 = kcore_decomposition vlist elist w2).
Proof.
  intros Hs Hn Hsp Hf Hvp Hep.
  pose proof Hs as (_ & Hnum & Hedges).
  assert (Hvp2 : Np.setitem_fancy (GT.new_vp (the_graph w2) false)
                   (items vlist) true = Ok vp).
  { unfold GT.new_vp in *. by rewrite <- Hnum. }
  assert (Hep2 : Np.setitem_fancy (GT.new_ep (the_graph w2) false)
                   (items elist) true = Ok ep).
  { unfold GT.new_ep in *. by rewrite <- Hedges. }
  split.
  - rewrite (save_adjacency_induce w1 _ _ _ vp ep Hvp Hep).
    rewrite (save_adjacency_induce w2 _ _ _ vp ep Hvp2 Hep2).
    cbv zeta. by rewrite (with_filters_same_storage _ _ vp ep Hs), Hn, Hsp, Hf.
  - intros Hv He Ht.
    rewrite (kcore_decomposition_induce w1 _ _ vp ep Hv He Ht Hvp Hep).
    rewrite (kcore_decomposition_induce w2 _ _ vp ep) by (done || lia).
    cbv zeta. by rewrite (with_filters_same_storage _ _ vp ep Hs), Hn, Hsp, Hf.
Qed.

Lemma X7_previous_filters_ignored_witness :
  let vlist := SeqObj 2 [0; 1; 2]%Z in
  let elist := SeqObj 3 [0; 1]%Z in
  @kcore_decomposition Ref.reference vlist elist
     (mkWorld Ref.path5 4 [] ∅)
  = @kcore_decomposition Ref.reference vlist elist
      (mkWorld (GT.set_vertex_filter Ref.path5
                  [false; false; false; true; true]) 4 [] ∅).
Proof.
  intros vlist elist.
  refine (proj2 (@X7_previous_filters_ignored Ref.reference
            (mkWorld Ref.path5 4 [] ∅)
            (mkWorld (GT.set_vertex_filter Ref.path5
                        [false; false; false; true; true]) 4 [] ∅)
            vlist elist "adj.txt"
            [true; true; true; false; false] [true; true; false; false]
            _ eq_refl eq_refl eq_refl eq_refl eq_refl) _ _ eq_refl).
  - repeat split.
  - simpl. lia.
  - simpl. lia.
Defined.

(** The vertices seen through a vertex mask. *)
Lemma vertices_with_filters (G : GT.Graph) (vp ep : list bool) (v : nat) :
  length vp = GT.num_stored G ->
  v ∈ GT.vertices (with_filters G vp ep) <-> vp !! v = Some true.
Proof.
  intros Hlen. unfold GT.vertices. rewrite list_elem_of_In, filter_In, in_seq.
  unfold GT.vertex_visible. simpl. rewrite andb_true_iff, Nat.ltb_lt.
  split.
  - intros (_ & _ & Hp). destruct (vp !! v) as [[]|]; done.
  - intros Hv. pose proof (lookup_lt_Some _ _ _ Hv). rewrite Hv.
    repeat split; simpl; lia.
Qed.

(** X8: [save_adjacency] writes one line per vertex that the vertex list
    names, each vertex once and in ascending order, however the list is
    ordered and whatever it repeats (a negative index names a vertex from
    the end); the line of a vertex starts with it and lists its visible
    neighbours; the other files are left alone. *)
Theorem X8_one_line_per_selected_vertex
    (w : World) (vlist elist : seqobj) (filename : string)
    (vp ep : list bool) :
  Np.setitem_fancy (GT.new_vp (the_graph w) false) (items vlist) true = Ok vp ->
  Np.setitem_fancy (GT.new_ep (the_graph w) false) (items elist) true = Ok ep ->
  let G' := with_filters (the_graph w) vp ep in
  let w' := snd (save_adjacency vlist elist filename w) in
  exists vs,
    files w' !! filename
      = Some (map (fun v => adjacency_line v (GT.out_neighbours G' v)) vs)
    /\ StronglySorted lt vs
    /\ (forall v, v ∈ vs
          <-> exists i, i ∈ items vlist
                /\ Np.norm_index (GT.num_stored (the_graph w)) i = Ok v)
    /\ (forall other, other <> filename ->
          files w' !! other = files w !! other).
Proof.
  intros Hvp Hep G' w'. subst w'.
  rewrite (save_adjacency_induce w _ _ _ vp ep Hvp Hep). cbv zeta. simpl.
  fold G'. exists (GT.vertices G'). split; [|split; [|split]].
  - apply lookup_insert_eq.
  - apply filter_seq_sorted.
  - intros v. apply setitem_fancy_mask in Hvp as [Hlen Hmask].
    rewrite <- Hmask. by apply vertices_with_filters.
  - intros other Hne. by apply lookup_insert_ne.
Qed.

Lemma X8_one_line_per_selected_vertex_witness :
  let w := mkWorld Ref.path5 4 [] ∅ in
  let G' := with_filters Ref.path5 [true; true; false; false; false]
              [true; false; false; false] in
  exists vs,
    files (snd (save_adjacency (SeqObj 2 [1; 0; 1; -5]%Z) (SeqObj 3 [0]%Z)
                  "adj.txt" w)) !! "adj.txt"
      = Some (map (fun v => adjacency_line v (GT.out_neighbours G' v)) vs)
    /\ StronglySorted lt vs.
Proof.
  intros w G'.
  destruct (X8_one_line_per_selected_vertex w
              (SeqObj 2 [1; 0; 1; -5]%Z) (SeqObj 3 [0]%Z) "adj.txt"
              [true; true; false; false; false] [true; false; false; false]
              eq_refl eq_refl) as (vs & Hfile & Hsorted & _).
  exists vs. split; [exact Hfile | exact Hsorted].
Defined.

(** The file of that call: vertices 0 and 1, each once. *)
Example save_adjacency_two_vertices :
  files (snd (save_adjacency (SeqObj 2 [1; 0; 1; -5]%Z) (SeqObj 3 [0]%Z)
                "adj.txt" (mkWorld Ref.path5 4 [] ∅)))
    !! "adj.txt"
  = Some ["0 1" +:+ LF; "1 0" +:+ LF].
Proof. reflexivity. Qed.

Lemma out_neighbours_no_edges (G : GT.Graph) (v : nat) :
  GT.edges G = [] -> GT.out_neighbours G v = [].
Proof. intros He. unfold GT.out_neighbours. by rewrite He. Qed.

(** X9: with an empty edge list [save_adjacency] installs an edge filter
    that hides every edge, so no line lists any neighbour: each line is the
    vertex, a space and the line feed, also for vertices that are adjacent
    in the graph. *)
Theorem X9_empty_edge_list_no_neighbours
    (w : World) (vlist elist : seqobj) (filename : string)
    (vp : list bool) :
  items elist = [] ->
  Np.setitem_fancy (GT.new_vp (the_graph w) false) (items vlist) true = Ok vp ->
  let G' := the_graph (snd (save_adjacency vlist elist filename w)) in
  GT.edges G' = []
  /\ files (snd (save_adjacency vlist elist filename w)) !! filename
     = Some (map (fun v => pretty v +:+ " " +:+ LF) (GT.vertices G')).
Proof.
  intros Hel Hvp G'. subst G'.
  assert (Hep : Np.setitem_fancy (GT.new_ep (the_graph w) false)
                  (items elist) true = Ok (GT.new_ep (the_graph w) false))
    by (by rewrite Hel).
  rewrite (save_adjacency_induce w _ _ _ _ _ Hvp Hep). cbv zeta. simpl.
  set (G' := with_filters (the_graph w) vp (GT.new_ep (the_graph w) false)).
  assert (He : GT.edges G' = []) by (by apply edges_all_false).
  split; [done|]. rewrite lookup_insert_eq. f_equal.
  apply map_ext. intros v. by rewrite (out_neighbours_no_edges _ _ He).
Qed.

Lemma X9_empty_edge_list_no_neighbours_witness :
  files (snd (save_adjacency (SeqObj 2 [0; 1]%Z) (SeqObj 3 [])
                "adj.txt" (mkWorld Ref.path5 4 [] ∅)))
    !! "adj.txt"
  = Some ["0 " +:+ LF; "1 " +:+ LF].
Proof.
  exact (proj2 (X9_empty_edge_list_no_neighbours
                  (mkWorld Ref.path5 4 [] ∅)
                  (SeqObj 2 [0; 1]%Z) (SeqObj 3 []) "adj.txt"
                  [true; true; false; false; false] eq_refl eq_refl)).
Defined.

(** ** [statistics] after a subgraph was induced *)

Section Compose.
Context `{Collaborators}.

(** With a filter set and a vertex visible, the exact strategy runs. *)
Lemma statistics_exact_when_filtered (w : World) :
  filter_active (the_graph w) ->
  GT.vertices (the_graph w) <> [] ->
  ran_exact w (statistics TheGraph w).
Proof.
  intros Hf Hv. rewrite statistics_run. cbv zeta.
  apply vertices_occupied in Hv.
  destruct (occupied_bins (the_graph w)) as [|bin0 bins]; [done|].
  unfold ran_exact, peel_histogram.
  apply filter_active_truthy in Hf. rewrite Hf.
  rewrite exact_peel_histogram_run.
  destruct (exact_histogram_of (the_graph w)) as [[pb pc]|e]; cbn [fst snd].
  - split; [done|]. eexists. split; done.
  - by split.
Qed.

Lemma statistics_when_filtered (w : World) :
  filter_active (the_graph w) ->
  (GT.vertices (the_graph w) = []
   /\ statistics TheGraph w = (Raise IndexError, w))
  \/ (GT.vertices (the_graph w) <> []
      /\ ran_exact w (statistics TheGraph w)).
Proof.
  intros Hf. destruct (GT.vertices (the_graph w)) as [|v vs] eqn:Hv.
  - left. split; [done|]. by apply statistics_no_vertices.
  - right. split; [done|]. apply statistics_exact_when_filtered; [done|].
    by rewrite Hv.
Qed.

Lemma with_filters_active (G : GT.Graph) (vp ep : list bool) :
  filter_active (with_filters G vp ep).
Proof. by left. Qed.

End Compose.

(** X10: the filters that [save_adjacency] and [kcore_decomposition] leave
    on the graph decide the next [statistics] on it: it never takes the
    fast strategy.  It launches a peeling process over the edges of the
    induced view, or, when that view has no vertex, raises [IndexError]. *)
Theorem X10_statistics_after_inducing `{Collaborators}
    (w : World) (vlist elist : seqobj) (filename : string)
    (vp ep : list bool) :
  Np.setitem_fancy (GT.new_vp (the_graph w) false) (items vlist) true = Ok vp ->
  Np.setitem_fancy (GT.new_ep (the_graph w) false) (items elist) true = Ok ep ->
  let next (w1 : World) :=
    (GT.vertices (the_graph w1) = []
     /\ statistics TheGraph w1 = (Raise IndexError, w1))
    \/ (GT.vertices (the_graph w1) <> []
        /\ ran_exact w1 (statistics TheGraph w1)) in
  next (snd (save_adjacency vlist elist filename w))
  /\ (oid vlist < next_oid w -> oid elist < next_oid w ->
      truthy_list vlist || truthy_list elist = true ->
      next (snd (kcore_decomposition vlist elist w))).
Proof.
  intros Hvp Hep next. subst next. cbv beta. split.
  - apply statistics_when_filtered.
    rewrite (save_adjacency_induce w _ _ _ vp ep Hvp Hep).
    apply with_filters_active.
  - intros Hv He Ht. apply statistics_when_filtered.
    rewrite (kcore_decomposition_induce w _ _ vp ep Hv He Ht Hvp Hep).
    apply with_filters_active.
Qed.

Lemma X10_statistics_after_inducing_witness :
  let w1 := snd (save_adjacency (SeqObj 2 [0; 1; 2]%Z) (SeqObj 3 [0; 1]%Z)
                   "adj.txt" (mkWorld Ref.path5 4 [] ∅)) in
  (GT.vertices (the_graph w1) = []
   /\ @statistics Ref.reference TheGraph w1 = (Raise IndexError, w1))
  \/ (GT.vertices (the_graph w1) <> []
      /\ @ran_exact Ref.reference w1 (@statistics Ref.reference TheGraph w1)).
Proof.
  exact (proj1 (@X10_statistics_after_inducing Ref.reference
                  (mkWorld Ref.path5 4 [] ∅)
                  (SeqObj 2 [0; 1; 2]%Z) (SeqObj 3 [0; 1]%Z) "adj.txt"
                  [true; true; true; false; false]
                  [true; true; false; false] eq_refl eq_refl)).
Defined.

(** X11: after a call that induces with an empty vertex list
    ([save_adjacency(G, [], elist, f)], or [kcore_decomposition(G, [],
    elist)] with a non-empty edge list), [statistics] on the same graph
    raises [IndexError]: the call has left a vertex filter that hides
    every vertex. *)
Theorem X11_statistics_after_empty_vertex_list `{Collaborators}
    (w : World) (vlist elist : seqobj) (filename : string)
    (ep : list bool) :
  items vlist = [] ->
  Np.setitem_fancy (GT.new_ep (the_graph w) false) (items elist) true = Ok ep ->
  let raises (w1 : World) :=
    statistics TheGraph w1 = (Raise IndexError, w1) in
  raises (snd (save_adjacency vlist elist filename w))
  /\ (oid vlist < next_oid w -> oid elist < next_oid w ->
      items elist <> [] ->
      raises (snd (kcore_decomposition vlist elist w))).
Proof.
  intros Hvl Hep raises. subst raises. cbv beta.
  assert (Hvp : Np.setitem_fancy (GT.new_vp (the_graph w) false)
                  (items vlist) true = Ok (GT.new_vp (the_graph w) false))
    by (by rewrite Hvl).
  split.
  - apply statistics_no_vertices.
    rewrite (save_adjacency_induce w _ _ _ _ _ Hvp Hep). cbv zeta. simpl.
    by apply vertices_all_false.
  - intros Hv He Hne. apply statistics_no_vertices.
    assert (Ht : truthy_list vlist || truthy_list elist = true).
    { unfold truthy_list at 2. destruct (items elist); [done|].
      apply orb_true_r. }
    rewrite (kcore_decomposition_induce w _ _ _ _ Hv He Ht Hvp Hep).
    cbv zeta. simpl. by apply vertices_all_false.
Qed.

Lemma X11_statistics_after_empty_vertex_list_witness :
  let w1 := snd (@kcore_decomposition Ref.reference
                   (SeqObj 2 []) (SeqObj 3 [0; 1]%Z)
                   (mkWorld Ref.path5 4 [] ∅)) in
  @statistics Ref.reference TheGraph w1 = (Raise IndexError, w1).
Proof.
  refine (proj2 (@X11_statistics_after_empty_vertex_list Ref.reference
                   (mkWorld Ref.path5 4 [] ∅)
                   (SeqObj 2 []) (SeqObj 3 [0; 1]%Z) "adj.txt"
                   [true; true; false; false] eq_refl eq_refl) _ _ _).
  - simpl. lia.
  - simpl. lia.
  - discriminate.
Defined.

(** ** What [statistics] leaves alone *)

(** X12: [statistics] reads the graph and changes nothing on it: whatever
    it returns or raises, the graph with its filters, the files and the
    object counter are as before, and at most one peeling process has been
    launched, on the visible edges. *)
Theorem X12_statistics_read_only `{Collaborators}
    (G : graph_arg) (w : World) :
  let w' := snd (statistics G w) in
  same_but_spawned w w'
  /\ (spawned w' = spawned w
      \/ spawned w' = (spawned w ++ [edge_stream (the_graph w)])%list).
Proof.
  intros w'. subst w'. destruct G as [|].
  { repeat split; by left. }
  rewrite statistics_run. cbv zeta.
  destruct (occupied_bins (the_graph w)) as [|bin0 bins].
  { repeat split; by left. }
  pose proof (peel_histogram_frame w) as Hframe. cbv zeta in Hframe.
  assert (Hsp : spawned (snd (peel_histogram (the_graph w) w)) = spawned w
          \/ spawned (snd (peel_histogram (the_graph w) w))
             = (spawned w ++ [edge_stream (the_graph w)])%list).
  { unfold peel_histogram. destruct (_ || _); [|by left].
    rewrite exact_peel_histogram_run. by right. }
  destruct (peel_histogram (the_graph w) w) as [[peel|e] w1]; by split.
Qed.

(** ** Sums over histograms *)

Lemma sum_list_map {A} (f : A -> nat) (l : list A) :
  sum_list (map f l) = sum_list_with f l.
Proof. induction l as [|x l IH]; simpl; [done|]. by rewrite IH. Qed.

Lemma sum_with_ext {A} (f g : A -> nat) (l : list A) :
  (forall x, f x = g x) -> sum_list_with f l = sum_list_with g l.
Proof. intros E. induction l as [|x l IH]; simpl; [done|]. by rewrite E, IH. Qed.

Lemma sum_with_add {A} (f g : A -> nat) (l : list A) :
  sum_list_with (fun x => f x + g x) l
  = sum_list_with f l + sum_list_with g l.
Proof. induction l as [|x l IH]; simpl; [done|]. rewrite IH. lia. Qed.

Lemma sum_with_zero {A} (f : A -> nat) (l : list A) :
  (forall x, f x = 0) -> sum_list_with f l = 0.
Proof. intros E. induction l as [|x l IH]; simpl; [done|]. rewrite E, IH. lia. Qed.

Lemma sum_with_zero_tail {A} (f : A -> nat) (l : list A) :
  (forall x, In x l -> f x = 0) -> sum_list_with f l = 0.
Proof.
  induction l as [|x l IH]; simpl; intros E; [done|].
  rewrite E, IH by auto. lia.
Qed.

Lemma weighted_sum_map (f : nat -> nat) (l : list nat) :
  weighted_sum l (map f l) = sum_list_with (fun d => d * f d) l.
Proof.
  unfold weighted_sum. induction l as [|x l IH]; simpl; [done|].
  by rewrite IH.
Qed.

Lemma weighted_sum_pairs (l : list (nat * nat)) :
  weighted_sum (map fst l) (map snd l) = sum_list_with (fun p => p.1 * p.2) l.
Proof.
  unfold weighted_sum. induction l as [|x l IH]; simpl; [done|].
  by rewrite IH.
Qed.

(** Dropping the bins whose count is zero changes no sum weighted by the
    counts. *)
Lemma sum_with_filter_nonzero (g f : nat -> nat) (l : list nat) :
  (forall d, f d = 0 -> g d = 0) ->
  sum_list_with g (List.filter (fun d => negb (f d =? 0)) l)
  = sum_list_with g l.
Proof.
  intros Hz. induction l as [|x l IH]; simpl; [done|].
  destruct (Nat.eqb_spec (f x) 0) as [E|_]; simpl; rewrite IH; [|done].
  rewrite (Hz x E). lia.
Qed.

Lemma sum_indicator_seq (w : nat -> nat) (x a n : nat) :
  a <= x < a + n ->
  sum_list_with (fun d => if d =? x then w d else 0) (seq a n) = w x.
Proof.
  revert a. induction n as [|n IH]; intros a Hx; simpl; [lia|].
  destruct (Nat.eqb_spec a x) as [-> | Hne].
  - rewrite sum_with_zero_tail; [lia|].
    intros d Hd. apply in_seq in Hd.
    destruct (Nat.eqb_spec d x); [lia | done].
  - rewrite IH by lia. lia.
Qed.

Lemma sum_indicator_NoDup (x : nat) (vs : list nat) :
  NoDup vs -> x ∈ vs ->
  sum_list_with (fun v => if x =? v then 1 else 0) vs = 1.
Proof.
  induction 1 as [|v vs Hnin Hnd IH]; intros Hin; simpl.
  - by apply elem_of_nil in Hin.
  - apply elem_of_cons in Hin as [-> | Hin].
    + rewrite Nat.eqb_refl. rewrite sum_with_zero_tail; [done|].
      intros d Hd. destruct (Nat.eqb_spec v d) as [-> | _]; [|done].
      by apply list_elem_of_In in Hd.
    + destruct (Nat.eqb_spec x v) as [-> | _]; [done|].
      by rewrite IH.
Qed.

(** The counts of the values below [n], weighted, add up to the weights of
    the list. *)
Lemma count_sum (w : nat -> nat) (l : list nat) (n : nat) :
  Forall (fun x => x < n) l ->
  sum_list_with (fun d => w d * length (List.filter (Nat.eqb d) l)) (seq 0 n)
  = sum_list_with w l.
Proof.
  induction 1 as [|x l Hx _ IH]; simpl.
  - apply sum_with_zero. intros d. lia.
  - rewrite <- IH, <- (sum_indicator_seq w x 0 n) by lia.
    rewrite <- sum_with_add. apply sum_with_ext. intros d.
    destruct (d =? x); simpl; lia.
Qed.

(** Every edge counted at the vertex that [f] sends it to. *)
Lemma sum_incidence {E} (f : E -> nat) (es : list E) (vs : list nat) :
  NoDup vs -> (forall e, In e es -> f e ∈ vs) ->
  sum_list_with (fun v => length (List.filter (fun e => f e =? v) es)) vs
  = length es.
Proof.
  intros Hnd. induction es as [|e es IH]; intros Hin; simpl.
  - apply sum_with_zero. done.
  - assert (He : f e ∈ vs) by (apply Hin; by left).
    assert (Hes : forall e', In e' es -> f e' ∈ vs)
      by (intros e' He'; apply Hin; by right).
    rewrite <- (IH Hes).
    change (S ?n) with (1 + n).
    rewrite <- (sum_indicator_NoDup (f e) vs Hnd He).
    rewrite <- sum_with_add. apply sum_with_ext. intros v.
    by destruct (f e =? v).
Qed.

(** ** The degree histogram and the counts of a report *)

Lemma degrees_below_top (G : GT.Graph) :
  Forall (fun d => d < S (top_degree G))
         (map (GT.out_degree G) (GT.vertices G)).
Proof.
  apply Forall_forall. intros d Hd. apply list_elem_of_In in Hd.
  apply le_foldr_max in Hd. unfold top_degree. lia.
Qed.

(** A sum over the kept bins, weighted by the counts, is the sum over the
    degrees of the visible vertices. *)
Lemma occupied_bins_sum (G : GT.Graph) (w : nat -> nat) :
  sum_list_with (fun d => w d * degree_count G d) (occupied_bins G)
  = sum_list_with (fun v => w (GT.out_degree G v)) (GT.vertices G).
Proof.
  unfold occupied_bins.
  rewrite (sum_with_filter_nonzero _ (degree_count G))
    by (intros d ->; lia).
  unfold degree_count. rewrite count_sum by apply degrees_below_top.
  generalize (GT.vertices G). intros vs.
  induction vs as [|v vs IH]; simpl; [done|]. by rewrite IH.
Qed.

Lemma edge_endpoints_visible (G : GT.Graph) (e : nat * nat) :
  In e (GT.edges G) -> e.1 ∈ GT.vertices G /\ e.2 ∈ GT.vertices G.
Proof.
  unfold GT.edges. intros Hin. apply in_map_iff in Hin as (ie & <- & Hie).
  apply filter_In in Hie as [_ Hvis]. unfold GT.edge_visible in Hvis.
  apply andb_true_iff in Hvis as [Hvis H2].
  apply andb_true_iff in Hvis as [_ H1].
  split; apply list_elem_of_In; by apply vertex_visible_vertices.
Qed.

Lemma vertices_NoDup (G : GT.Graph) : NoDup (GT.vertices G).
Proof.
  apply NoDup_ListNoDup, List.NoDup_filter, NoDup_ListNoDup, NoDup_seq.
Qed.

(** The degrees of the visible vertices add up to the number of visible
    edges, counted once in a directed graph and twice in an undirected
    one. *)
Lemma degree_sum (G : GT.Graph) :
  sum_list_with (GT.out_degree G) (GT.vertices G)
  = (if GT.directed G then 1 else 2) * GT.num_edges G.
Proof.
  pose proof (sum_incidence fst (GT.edges G) (GT.vertices G)
                (vertices_NoDup G)
                (fun e He => proj1 (edge_endpoints_visible G e He))) as Hout.
  pose proof (sum_incidence snd (GT.edges G) (GT.vertices G)
                (vertices_NoDup G)
                (fun e He => proj2 (edge_endpoints_visible G e He))) as Hin.
  unfold GT.num_edges, GT.out_degree. cbv zeta.
  destruct (GT.directed G).
  - rewrite Hout. lia.
  - rewrite sum_with_add, Hout, Hin. lia.
Qed.

(** X13: in every report the counts of the degree histogram add up to the
    number of visible vertices: dropping the empty bins loses no vertex. *)
Theorem X13_degree_counts_total `{Collaborators} (w : World) (r : Report) :
  fst (statistics TheGraph w) = Ok (Stats r) ->
  sum_list (deg_counts r) = num_vertices r.
Proof.
  intros Hr.
  apply statistics_report in Hr as (bin0 & bins & peel & _ & _ & _ & ->).
  unfold report_of. cbn [deg_counts num_vertices].
  rewrite sum_list_map.
  rewrite (sum_with_ext _ (fun d => 1 * degree_count (the_graph w) d))
    by (intros; lia).
  rewrite (occupied_bins_sum _ (fun _ => 1)).
  unfold GT.num_vertices. generalize (GT.vertices (the_graph w)).
  intros vs. induction vs as [|v vs IH]; simpl; [done|]. by rewrite IH.
Qed.

Lemma X13_degree_counts_total_witness :
  let r := {| num_vertices := 5; num_edges := 4; num_cc := 1;
              num_singletons := 0; vlogv := "11.61";
              deg_bins := [1; 2]; deg_counts := [2; 3];
              cc_sizes := [5]; cc_counts := [1];
              peel_bins := [1%Z]; peel_counts := [5] |} in
  fst (@statistics Ref.reference TheGraph (Ref.fresh_world Ref.path5))
    = Ok (Stats r)
  /\ sum_list (deg_counts r) = num_vertices r.
Proof.
  intros r.
  assert (Hr : fst (@statistics Ref.reference TheGraph
                      (Ref.fresh_world Ref.path5)) = Ok (Stats r))
    by (vm_compute; reflexivity).
  split; [exact Hr |].
  exact (@X13_degree_counts_total Ref.reference
           (Ref.fresh_world Ref.path5) r Hr).
Defined.

(** X14: in every report the degree bins weighted by their counts add up
    to the number of visible edges, once for a directed graph and twice
    for an undirected one: the degree histogram and [num_edges] agree. *)
Theorem X14_degree_histogram_edges `{Collaborators} (w : World) (r : Report) :
  fst (statistics TheGraph w) = Ok (Stats r) ->
  weighted_sum (deg_bins r) (deg_counts r)
  = (if GT.directed (the_graph w) then 1 else 2) * num_edges r.
Proof.
  intros Hr.
  apply statistics_report in Hr as (bin0 & bins & peel & _ & _ & _ & ->).
  unfold report_of. cbn [deg_bins deg_counts num_edges].
  rewrite weighted_sum_map, (occupied_bins_sum _ (fun d => d)).
  apply degree_sum.
Qed.

Lemma X14_degree_histogram_edges_witness :
  let r := {| num_vertices := 5; num_edges := 4; num_cc := 1;
              num_singletons := 0; vlogv := "11.61";
              deg_bins := [1; 2]; deg_counts := [2; 3];
              cc_sizes := [5]; cc_counts := [1];
              peel_bins := [1%Z]; peel_counts := [5] |} in
  fst (@statistics Ref.reference TheGraph (Ref.fresh_world Ref.path5))
    = Ok (Stats r)
  /\ weighted_sum (deg_bins r) (deg_counts r) = 2 * num_edges r.
Proof.
  intros r.
  assert (Hr : fst (@statistics Ref.reference TheGraph
                      (Ref.fresh_world Ref.path5)) = Ok (Stats r))
    by (vm_compute; reflexivity).
  split; [exact Hr |].
  exact (@X14_degree_histogram_edges Ref.reference
           (Ref.fresh_world Ref.path5) r Hr).
Defined.

(** ** Grouping with a counter *)

Lemma insert_items_fresh `{Countable K} (m : gmap K nat) (k : K) (c : nat)
    (f : K * nat -> nat) :
  m !! k = None ->
  sum_list_with f (map_to_list (<[k := c]> m))
  = f (k, c) + sum_list_with f (map_to_list m).
Proof. intros Hk. by rewrite (map_to_list_insert m k c Hk). Qed.

Lemma insert_items_present `{Countable K} (m : gmap K nat) (k : K)
    (c c' : nat) (f : K * nat -> nat) :
  m !! k = Some c ->
  sum_list_with f (map_to_list (<[k := c']> m)) + f (k, c)
  = sum_list_with f (map_to_list m) + f (k, c').
Proof.
  intros Hk.
  rewrite <- (insert_delete_eq m k c').
  rewrite insert_items_fresh by apply lookup_delete_eq.
  rewrite <- (map_to_list_delete m k c Hk). simpl. lia.
Qed.

(** The items of a counter, each weighted by its key, account for every
    element that was counted. *)
Lemma Counter_weighted `{Countable K} (wt : K -> nat) (xs : list K) :
  sum_list_with (fun p => wt p.1 * p.2) (map_to_list (Counter xs))
  = sum_list_with wt xs.
Proof.
  unfold Counter.
  enough (Hgen : forall m : gmap K nat,
    sum_list_with (fun p => wt p.1 * p.2)
      (map_to_list
         (fold_left (fun c x => <[x := S (default 0 (c !! x))]> c) xs m))
    = sum_list_with wt xs
      + sum_list_with (fun p => wt p.1 * p.2) (map_to_list m)).
  { rewrite Hgen, map_to_list_empty. simpl. lia. }
  induction xs as [|x xs IH]; intros m; simpl; [done|].
  rewrite IH. destruct (m !! x) as [c|] eqn:Hx; simpl.
  - pose proof (insert_items_present m x c (S c)
                  (fun p => wt p.1 * p.2) Hx) as E.
    simpl in E. lia.
  - rewrite insert_items_fresh by done. simpl. lia.
Qed.

(** A counter holds no zero. *)
Lemma Counter_positive `{Countable K} (xs : list K) (k : K) (c : nat) :
  Counter xs !! k = Some c -> 0 < c.
Proof.
  unfold Counter.
  enough (Hgen : forall m : gmap K nat,
    (forall k c, m !! k = Some c -> 0 < c) ->
    forall k c,
      fold_left (fun c x => <[x := S (default 0 (c !! x))]> c) xs m !! k
        = Some c -> 0 < c).
  { apply Hgen. intros k' c'. by rewrite lookup_empty. }
  clear k c. induction xs as [|x xs IH]; intros m Hm k c; simpl.
  - apply Hm.
  - apply IH. intros k' c'. rewrite lookup_insert.
    destruct (decide (x = k')) as [-> | _]; [intros [= <-]; lia | apply Hm].
Qed.

#[local] Instance key_le_total {V} : Total (@key_le V).
Proof. intros a b. unfold key_le. lia. Qed.

#[local] Instance key_le_trans {V} : Transitive (@key_le V).
Proof. intros a b c. unfold key_le. lia. Qed.

Lemma sorted_items_perm {V} (d : gmap nat V) :
  sorted_items d ≡ₚ map_to_list d.
Proof. apply merge_sort_Permutation. Qed.

Lemma strictly_sorted (l : list nat) :
  StronglySorted le l -> NoDup l -> StronglySorted lt l.
Proof.
  induction 1 as [|x l Hs IH Hall]; intros Hnd; [constructor|].
  apply NoDup_cons in Hnd as [Hnin Hnd]. constructor; [by apply IH|].
  rewrite Forall_forall in Hall |- *. intros y Hy.
  specialize (Hall y Hy). destruct (decide (x = y)) as [-> | ?]; [done | lia].
Qed.

(** The keys of the sorted items ascend strictly. *)
Lemma sorted_items_keys {V} (d : gmap nat V) :
  StronglySorted lt (map fst (sorted_items d)).
Proof.
  apply strictly_sorted.
  - pose proof (StronglySorted_merge_sort key_le (map_to_list d)) as Hs.
    fold (sorted_items d) in Hs.
    induction Hs as [|p l Hs IH Hall]; simpl; constructor; [done|].
    rewrite Forall_forall in Hall. apply Forall_forall.
    intros k Hk. apply list_elem_of_In, in_map_iff in Hk as (q & <- & Hq).
    apply (Hall q). by apply list_elem_of_In.
  - change (map fst (sorted_items d)) with ((sorted_items d).*1).
    rewrite sorted_items_perm. apply NoDup_fst_map_to_list.
Qed.

(** X15: the component-size histogram of a report is a regrouping of the
    component sizes that the library returned: the sizes ascend strictly,
    every count is positive, the counts add up to the number of
    components and the sizes weighted by their counts to the sum of the
    component sizes. *)
Theorem X15_component_histogram `{Collaborators} (w : World) (r : Report) :
  fst (statistics TheGraph w) = Ok (Stats r) ->
  let cc_hist := (label_components (the_graph w)).2 in
  StronglySorted lt (cc_sizes r)
  /\ Forall (fun c => 0 < c) (cc_counts r)
  /\ length (cc_sizes r) = length (cc_counts r)
  /\ sum_list (cc_counts r) = length cc_hist
  /\ weighted_sum (cc_sizes r) (cc_counts r) = sum_list cc_hist.
Proof.
  intros Hr cc_hist.
  apply statistics_report in Hr as (bin0 & bins & peel & _ & _ & _ & ->).
  unfold report_of. cbn [cc_sizes cc_counts]. fold cc_hist.
  split; [apply sorted_items_keys|].
  split.
  { apply Forall_forall. intros c Hc.
    apply list_elem_of_In, in_map_iff in Hc as ([k c'] & <- & Hin).
    apply list_elem_of_In in Hin. rewrite sorted_items_perm in Hin.
    apply elem_of_map_to_list in Hin. by eapply Counter_positive. }
  split; [by rewrite !length_map|].
  split.
  - rewrite sum_list_map.
    rewrite (sum_with_ext _ (fun p => 1 * p.2)) by (intros; simpl; lia).
    rewrite sorted_items_perm.
    rewrite (Counter_weighted (fun _ => 1)).
    induction cc_hist as [|x l IH]; simpl; [done|]. by rewrite IH.
  - rewrite weighted_sum_pairs, sorted_items_perm.
    rewrite (Counter_weighted (fun k => k)).
    induction cc_hist as [|x l IH]; simpl; [done|]. by rewrite IH.
Qed.

Lemma X15_component_histogram_witness :
  let r := {| num_vertices := 3; num_edges := 0; num_cc := 3;
              num_singletons := 3; vlogv := "4.75";
              deg_bins := [0]; deg_counts := [3];
              cc_sizes := [1]; cc_counts := [3];
              peel_bins := [0%Z]; peel_counts := [3] |} in
  fst (@statistics Ref.reference TheGraph (Ref.fresh_world (Ref.isolated 3)))
    = Ok (Stats r)
  /\ weighted_sum (cc_sizes r) (cc_counts r)
     = sum_list (Ref.ref_label_components (Ref.isolated 3)).2.
Proof.
  intros r.
  assert (Hr : fst (@statistics Ref.reference TheGraph
                      (Ref.fresh_world (Ref.isolated 3))) = Ok (Stats r))
    by (vm_compute; reflexivity).
  split; [exact Hr |].
  exact (proj2 (proj2 (proj2 (proj2
           (@X15_component_histogram Ref.reference
              (Ref.fresh_world (Ref.isolated 3)) r Hr))))).
Defined.

(** ** The peeling histogram of a report *)

Lemma strictly_sorted_Z (l : list Z) :
  StronglySorted Z.le l -> NoDup l -> StronglySorted Z.lt l.
Proof.
  induction 1 as [|x l Hs IH Hall]; intros Hnd; [constructor|].
  apply NoDup_cons in Hnd as [Hnin Hnd]. constructor; [by apply IH|].
  rewrite Forall_forall in Hall |- *. intros y Hy.
  specialize (Hall y Hy). destruct (decide (x = y)) as [-> | ?]; [done | lia].
Qed.

Lemma sorted_keys_ascending {V} (d : gmap Z V) :
  StronglySorted Z.lt (sorted_keys d).
Proof.
  unfold sorted_keys. apply strictly_sorted_Z.
  - apply (StronglySorted_merge_sort Z.le).
  - rewrite merge_sort_Permutation.
    change (map fst (map_to_list d)) with ((map_to_list d).*1).
    apply NoDup_fst_map_to_list.
Qed.

Lemma StronglySorted_lt_NoDup (l : list Z) :
  StronglySorted Z.lt l -> NoDup l.
Proof.
  induction 1 as [|x l Hs IH Hall]; constructor; [|done].
  intros Hin. rewrite Forall_forall in Hall. specialize (Hall x Hin). lia.
Qed.

Section PeelRuns.
Context `{Collaborators}.

(** The histogram of a report, by the strategy that produced it. *)
Lemma statistics_report_peel (w : World) (r : Report) :
  fst (statistics TheGraph w) = Ok (Stats r) ->
  let G := the_graph w in
  (filter_active G
   /\ exact_histogram_of G = Ok (peel_bins r, peel_counts r))
  \/ (~ filter_active G
      /\ fast_peel_histogram G (GT.vertices G)
         = Ok (peel_bins r, peel_counts r)).
Proof.
  intros Hr G.
  apply statistics_report in Hr as (bin0 & bins & peel & _ & Hp & _ & ->).
  fold G in Hp. unfold report_of. cbn [peel_bins peel_counts].
  unfold peel_histogram in Hp.
  destruct (truthy_obj (GT.vertex_filter G) || truthy_obj (GT.edge_filter G))
    eqn:Ht.
  - left. split; [by apply filter_active_truthy|].
    rewrite exact_peel_histogram_run in Hp. fold G in Hp. simpl in Hp.
    rewrite Hp. by destruct peel.
  - right. split.
    + intros Hf%filter_active_truthy. congruence.
    + apply orb_false_iff in Ht as [Hvf _].
      assert (Hnone : GT.vertex_filter G = None)
        by (by destruct (GT.vertex_filter G)).
      destruct (unfiltered_vertices G Hnone) as [_ Hidx].
      rewrite Hidx in Hp. unfold lift in Hp. simpl in Hp.
      rewrite Hp. by destruct peel.
Qed.

Lemma fast_peel_histogram_items (G : GT.Graph) (v_idx : list nat)
    (h : list Z * list nat) :
  fast_peel_histogram G v_idx = Ok h ->
  exists picked,
    length picked = length v_idx
    /\ h = (map fst (map_to_list (Counter picked)),
            map snd (map_to_list (Counter picked))).
Proof.
  unfold fast_peel_histogram, mbind, res_bind.
  destruct (Np.take (kcore_values G) v_idx) as [picked|] eqn:Ht; [|done].
  simpl. unfold unzip_items.
  destruct (map_to_list (Counter picked)) as [|p l] eqn:El; [done|].
  intros [= <-]. exists picked. split; [by eapply take_length|].
  by rewrite El.
Qed.

End PeelRuns.

(** X16: with no filter set, the peeling histogram of a report accounts
    for every vertex: its counts are positive and add up to the number of
    vertices, whatever core numbers the library assigns. *)
Theorem X16_fast_histogram_total `{Collaborators} (w : World) (r : Report) :
  ~ filter_active (the_graph w) ->
  fst (statistics TheGraph w) = Ok (Stats r) ->
  sum_list (peel_counts r) = num_vertices r
  /\ Forall (fun c => 0 < c) (peel_counts r).
Proof.
  intros Hnf Hr.
  assert (Hn : num_vertices r = GT.num_vertices (the_graph w)).
  { apply statistics_report in Hr as (? & ? & ? & _ & _ & _ & ->). done. }
  destruct (statistics_report_peel w r Hr) as [[Hf _] | [_ Hfast]]; [done|].
  apply fast_peel_histogram_items in Hfast as (picked & Hlen & [= Hb Hc]).
  rewrite Hn, Hc. unfold GT.num_vertices. rewrite <- Hlen. split.
  - rewrite sum_list_map.
    rewrite (sum_with_ext _ (fun p => 1 * p.2)) by (intros; simpl; lia).
    rewrite (Counter_weighted (fun _ => 1)).
    clear. induction picked as [|x l IH]; simpl; [done|]. by rewrite IH.
  - apply Forall_forall. intros c Hin.
    apply list_elem_of_In, in_map_iff in Hin as ([k c'] & <- & Hin).
    apply list_elem_of_In, elem_of_map_to_list in Hin.
    by eapply Counter_positive.
Qed.

Lemma X16_fast_histogram_total_witness :
  let r := {| num_vertices := 3; num_edges := 0; num_cc := 3;
              num_singletons := 3; vlogv := "4.75";
              deg_bins := [0]; deg_counts := [3];
              cc_sizes := [1]; cc_counts := [3];
              peel_bins := [0%Z]; peel_counts := [3] |} in
  fst (@statistics Ref.reference TheGraph (Ref.fresh_world (Ref.isolated 3)))
    = Ok (Stats r)
  /\ sum_list (peel_counts r) = num_vertices r.
Proof.
  intros r.
  assert (Hr : fst (@statistics Ref.reference TheGraph
                      (Ref.fresh_world (Ref.isolated 3))) = Ok (Stats r))
    by (vm_compute; reflexivity).
  split; [exact Hr |].
  refine (proj1 (@X16_fast_histogram_total Ref.reference
                   (Ref.fresh_world (Ref.isolated 3)) r _ Hr)).
  intros [Hf | Hf]; apply Hf; reflexivity.
Defined.

(** X17: in every report the peeling bins and counts are aligned and no
    bin occurs twice; when a filter is set (the exact strategy) the bins
    ascend strictly and are the core numbers of the mapping that
    [kcore_decomposition] returns. *)
Theorem X17_peel_histogram_shape `{Collaborators} (w : World) (r : Report) :
  fst (statistics TheGraph w) = Ok (Stats r) ->
  length (peel_bins r) = length (peel_counts r)
  /\ NoDup (peel_bins r)
  /\ (filter_active (the_graph w) ->
      StronglySorted Z.lt (peel_bins r)
      /\ exists pp,
           fst (kcore_decomposition default_vlist default_elist w) = Ok pp
           /\ forall k, k ∈ peel_bins r <-> is_Some (pp !! k)).
Proof.
  intros Hr.
  destruct (statistics_report_peel w r Hr) as [[Hf Hx] | [Hnf Hfast]].
  - unfold exact_histogram_of, mbind, res_bind in Hx.
    destruct (read_core_lines _ _) as [pp|] eqn:Hread; [|done].
    simpl in Hx. injection Hx as Hb Hc. rewrite <- Hc, <- Hb.
    split; [by rewrite length_map|].
    split; [apply StronglySorted_lt_NoDup, sorted_keys_ascending|].
    intros _. split; [apply sorted_keys_ascending|].
    exists pp. split.
    + rewrite kcore_decomposition_default. by rewrite <- Hread.
    + intros k. unfold sorted_keys. rewrite merge_sort_Permutation.
      change (map fst (map_to_list pp)) with ((map_to_list pp).*1).
      split.
      * intros ([k' v] & -> & Hin)%list_elem_of_fmap.
        apply elem_of_map_to_list in Hin. by exists v.
      * intros [v Hv]. apply list_elem_of_fmap. exists (k, v).
        split; [done|]. by apply elem_of_map_to_list.
  - apply fast_peel_histogram_items in Hfast as (picked & _ & [= Hb Hc]).
    rewrite Hb, Hc. split; [by rewrite !length_map|].
    split; [|done].
    change (map fst (map_to_list (Counter picked)))
      with ((map_to_list (Counter picked)).*1).
    apply NoDup_fst_map_to_list.
Qed.

Lemma X17_peel_histogram_shape_witness :
  let r := {| num_vertices := 5; num_edges := 4; num_cc := 1;
              num_singletons := 0; vlogv := "11.61";
              deg_bins := [1; 2]; deg_counts := [2; 3];
              cc_sizes := [5]; cc_counts := [1];
              peel_bins := [1%Z]; peel_counts := [5] |} in
  fst (@statistics Ref.reference TheGraph
         (Ref.fresh_world (Ref.all_visible Ref.path5)))
    = Ok (Stats r)
  /\ length (peel_bins r) = length (peel_counts r)
  /\ NoDup (peel_bins r).
Proof.
  intros r.
  assert (Hr : fst (@statistics Ref.reference TheGraph
                      (Ref.fresh_world (Ref.all_visible Ref.path5)))
               = Ok (Stats r))
    by (vm_compute; reflexivity).
  split; [exact Hr |].
  destruct (@X17_peel_histogram_shape Ref.reference
              (Ref.fresh_world (Ref.all_visible Ref.path5)) r Hr)
    as (Hlen & Hnd & _).
  split; [exact Hlen | exact Hnd].
Defined.

(** ** The exports for Vis.js *)

Import Vis.

Lemma for_each_returns {A B} (f : A -> outcome B) (g : A -> B) (l : list A) :
  (forall x, In x l -> f x = Returns (g x)) ->
  for_each f l = Returns (map g l).
Proof.
  induction l as [|x l IH]; intros Hf; simpl; [done|].
  rewrite (Hf x (or_introl eq_refl)). simpl.
  rewrite IH; [done|]. intros y Hy. apply Hf. by right.
Qed.

Lemma for_each_key_error {A B} (f : A -> outcome B) (l : list A)
    (key : value) :
  for_each f l = KeyError key <-> 
  exists pre x rest, l = (pre ++ x :: rest)%list
    /\ (forall y, In y pre -> exists b, f y = Returns b)
    /\ f x = KeyError key.
Proof.
  induction l as [|x l IH]; simpl.
  - split; [done|]. intros (pre & y & rest & E & _). by destruct pre.
  - destruct (f x) as [b|k] eqn:Ex; simpl.
    + destruct (for_each f l) as [ys|k] eqn:El; simpl.
      * split; [done|]. intros (pre & y & rest & E & Hpre & Hy).
        destruct pre as [|p pre]; simplify_eq/=; [congruence|].
        assert (KeyError (A:=list B) key = Returns ys) as Habs; [|done].
        symmetry. apply IH. exists pre, y, rest. auto.
      * split.
        -- intros [= ->]. apply proj1 in IH.
           destruct (IH eq_refl) as (pre & y & rest & -> & Hpre & Hy).
           exists (x :: pre), y, rest. split; [done|]. split; [|done].
           intros z [<- | Hz]; eauto.
        -- intros (pre & y & rest & E & Hpre & Hy).
           destruct pre as [|p pre]; simplify_eq/=; [congruence|].
           f_equal. assert (KeyError (A:=list B) k = KeyError key) as Heq.
           { apply IH. exists pre, y, rest. auto. }
           congruence.
    + split.
      * intros [= ->]. exists [], x, l. by repeat split.
      * intros (pre & y & rest & E & Hpre & Hy).
        destruct pre as [|p pre]; simplify_eq/=; [congruence|].
        destruct (Hpre p (or_introl eq_refl)) as [b Hb]. congruence.
Qed.

Lemma dict_id (a : value) (rest : list (string * value)) :
  dict (("id", a) :: rest) !! "id" = Some a.
Proof. unfold dict. simpl. apply lookup_insert_eq. Qed.

Lemma getkey_some `{Countable K} {V} (d : gmap K V) (k : K) (shown : value)
    (x : V) :
  d !! k = Some x -> getkey d k shown = Returns x.
Proof. unfold getkey. by intros ->. Qed.

Lemma getkey_none `{Countable K} {V} (d : gmap K V) (k : K) (shown : value) :
  d !! k = None -> getkey d k shown = KeyError shown.
Proof. unfold getkey. by intros ->. Qed.

Lemma edges_indexed_edges (G : GT.Graph) :
  map snd (edges_indexed G) = GT.edges G.
Proof. reflexivity. Qed.

(** The indices of the visible edges ascend, so no two are the same. *)
Lemma edges_indexed_NoDup (G : GT.Graph) :
  NoDup (map fst (edges_indexed G)).
Proof.
  unfold edges_indexed.
  assert (Hgen : forall (l : list (nat * nat)) (k : nat),
            StronglySorted lt
              (map fst (List.filter (GT.edge_visible G)
                          (imap (fun i => pair (k + i)) l)))).
  { induction l as [|e l IH]; intros k; simpl; [constructor|].
    assert (Htail : StronglySorted lt
              (map fst (List.filter (GT.edge_visible G)
                          (imap ((fun i => pair (k + i)) ∘ S) l)))).
    { rewrite (imap_ext _ (fun i => pair (S k + i))); [apply IH|].
      intros i x _. simpl. f_equal. lia. }
    destruct (GT.edge_visible G (k + 0, e)); [|done].
    simpl. constructor; [done|].
    apply Forall_forall. intros j Hj.
    apply list_elem_of_In, in_map_iff in Hj as ([j' e'] & <- & Hin).
    apply filter_In in Hin as [Hin _].
    apply list_elem_of_In, elem_of_lookup_imap in Hin as (i & x & [= -> ->] & _).
    simpl. lia. }
  specialize (Hgen (GT.stored_edges G) 0).
  rewrite (imap_ext _ pair) in Hgen by done.
  induction Hgen as [|x l Hs IH Hall]; constructor; [|done].
  intros Hin. rewrite Forall_forall in Hall. specialize (Hall x Hin). lia.
Qed.

Lemma edges_indexed_endpoints (G : GT.Graph) (e : nat * (nat * nat)) :
  In e (edges_indexed G) ->
  In e.2.1 (GT.vertices G) /\ In e.2.2 (GT.vertices G).
Proof.
  intros He.
  assert (Hin : In e.2 (GT.edges G)).
  { rewrite <- edges_indexed_edges. by apply in_map. }
  apply edge_endpoints_visible in Hin as [H1 H2].
  split; by apply list_elem_of_In.
Qed.

Lemma edges_indexed_no_vertices (G : GT.Graph) :
  GT.vertices G = [] -> edges_indexed G = [].
Proof.
  intros Hv. destruct (edges_indexed G) as [|e es] eqn:E; [done|].
  destruct (edges_indexed_endpoints G e) as [H1 _].
  { rewrite E. by left. }
  rewrite Hv in H1. done.
Qed.

Lemma vertices_ascending (G : GT.Graph) : StronglySorted lt (GT.vertices G).
Proof.
  unfold GT.vertices. generalize 0 as a.
  induction (GT.num_stored G) as [|n IH]; intros a; simpl; [constructor|].
  destruct (GT.vertex_visible G a); [|apply IH].
  constructor; [apply IH|].
  apply Forall_forall. intros v Hv.
  apply list_elem_of_In, filter_In in Hv as [Hv _]. apply in_seq in Hv. lia.
Qed.

(** A loop whose body either fails with one fixed key or appends: it fails
    when some element makes the body fail. *)
Lemma for_each_guard {A B} (p : A -> bool) (g : A -> B) (key : value)
    (f : A -> outcome B) (l : list A) :
  (forall x, In x l -> f x = if p x then KeyError key else Returns (g x)) ->
  for_each f l = if existsb p l then KeyError key else Returns (map g l).
Proof.
  induction l as [|x l IH]; intros Hf; simpl; [done|].
  rewrite (Hf x (or_introl eq_refl)).
  destruct (p x); simpl; [done|].
  rewrite IH; [by destruct (existsb p l)|].
  intros y Hy. apply Hf. by right.
Qed.

Lemma for_each_inv {A B} (f : A -> outcome B) (l : list A) (ys : list B) :
  for_each f l = Returns ys -> Forall2 (fun x y => f x = Returns y) l ys.
Proof.
  revert ys. induction l as [|x l IH]; intros ys; simpl.
  - intros [= <-]. constructor.
  - destruct (f x) as [y|k] eqn:Ex; simpl; [|done].
    destruct (for_each f l) as [ys'|k] eqn:El; simpl; [|done].
    intros [= <-]. constructor; [done|]. by apply IH.
Qed.

Lemma field_map {A} (k : string) (g : A -> gmap string value) (l : list A) :
  VisRef.field k (map g l) = map (fun x => g x !! k) l.
Proof. unfold VisRef.field. by rewrite map_map. Qed.

Lemma field_Forall2 {A} (k : string) (h : A -> option value)
    (R : A -> gmap string value -> Prop) (l : list A)
    (ds : list (gmap string value)) :
  (forall x d, R x d -> d !! k = h x) ->
  Forall2 R l ds -> VisRef.field k ds = map h l.
Proof.
  intros HR H. induction H as [|x d l ds Hxd _ IH]; simpl; [done|].
  rewrite (HR x d Hxd). by f_equal.
Qed.

(** What the loop over the edges of the plain export appends for an
    edge. *)
Lemma to_vis_json_edges (G : PropGraph) :
  for_each (fun e : nat * (nat * nat) =>
      Returns (dict [("id", of_nat e.1); ("from", of_nat e.2.1);
                     ("to", of_nat e.2.2)]))
    (edges_indexed (graph G))
  = Returns (map (fun e : nat * (nat * nat) =>
      dict [("id", of_nat e.1); ("from", of_nat e.2.1);
            ("to", of_nat e.2.2)]) (edges_indexed (graph G))).
Proof. by apply for_each_returns. Qed.

(** The plain export, case by case. *)
Lemma to_vis_json_cases (G : PropGraph) (filename : option string) :
  to_vis_json G filename =
    let es := map (fun e : nat * (nat * nat) =>
                dict [("id", of_nat e.1); ("from", of_nat e.2.1);
                      ("to", of_nat e.2.2)]) (edges_indexed (graph G)) in
    match vp G !! "id" with
    | Some ids =>
        Returns (mkVisData
          (map (fun v => dict [("id", of_nat v); ("label", ids v);
                  ("title", ids v);
                  ("value", of_nat (GT.out_degree (graph G) v));
                  ("group", VInt 1)]) (GT.vertices (graph G)))
          es)
    | None =>
        if existsb (fun _ => true) (GT.vertices (graph G))
        then KeyError (VStr "id")
        else Returns (mkVisData [] es)
    end.
Proof.
  unfold to_vis_json. cbv zeta. rewrite to_vis_json_edges.
  destruct (vp G !! "id") as [ids|] eqn:Hid.
  - erewrite for_each_returns; [reflexivity|].
    intros v _. unfold getkey. rewrite Hid. reflexivity.
  - erewrite (for_each_guard (fun _ => true)
                (fun _ : nat => (∅ : gmap string value)) (VStr "id")).
    + destruct (GT.vertices (graph G)); reflexivity.
    + intros v _. unfold getkey. rewrite Hid. reflexivity.
Qed.

(** X18 (to_vis_json): when the graph carries an ['id'] property map, the
    export returns one node per visible vertex, numbered by vertex index and
    labelled by the property, and one edge per visible edge; both ends of
    every exported edge are the ['id'] of an exported node. *)
Theorem X18_export_edges_join_nodes (G : PropGraph)
    (filename : option string) (ids : nat -> value) :
  vp G !! "id" = Some ids ->
  exists d, to_vis_json G filename = Returns d
    /\ VisRef.field "id" (nodes d)
       = map (fun v => Some (of_nat v)) (GT.vertices (graph G))
    /\ VisRef.field "label" (nodes d)
       = map (fun v => Some (ids v)) (GT.vertices (graph G))
    /\ length (edges d) = GT.num_edges (graph G)
    /\ forall e, In e (edges d) ->
         In (e !! "from") (VisRef.field "id" (nodes d))
         /\ In (e !! "to") (VisRef.field "id" (nodes d)).
Proof.
  intros Hid. rewrite to_vis_json_cases, Hid. cbv zeta.
  eexists. split; [reflexivity|]. cbn [nodes edges].
  rewrite !field_map.
  split; [reflexivity|]. split; [reflexivity|]. split.
  { unfold GT.num_edges. rewrite <- edges_indexed_edges.
    by rewrite !length_map. }
  intros e He. apply in_map_iff in He as (ie & <- & Hie).
  apply edges_indexed_endpoints in Hie as [H1 H2].
  split.
  - apply in_map_iff. exists ie.2.1. split; [reflexivity | done].
  - apply in_map_iff. exists ie.2.2. split; [reflexivity | done].
Qed.

Lemma X18_export_edges_join_nodes_witness :
  vp (VisRef.named Ref.path5) !! "id"
    = Some (fun v => VStr ("v" +:+ pretty v))
  /\ exists d, to_vis_json (VisRef.named Ref.path5) None = Returns d
    /\ VisRef.field "id" (nodes d)
       = map (fun v => Some (of_nat v))
           (GT.vertices (graph (VisRef.named Ref.path5)))
    /\ VisRef.field "label" (nodes d)
       = map (fun v => Some (VStr ("v" +:+ pretty v)))
           (GT.vertices (graph (VisRef.named Ref.path5)))
    /\ length (edges d) = GT.num_edges (graph (VisRef.named Ref.path5))
    /\ forall e, In e (edges d) ->
         In (e !! "from") (VisRef.field "id" (nodes d))
         /\ In (e !! "to") (VisRef.field "id" (nodes d)).
Proof.
  split; [reflexivity|].
  apply (X18_export_edges_join_nodes (VisRef.named Ref.path5) None).
  reflexivity.
Defined.

(** X19 (to_vis_json): whenever the export returns, the ['value'] entries
    of its nodes add up to the number of its edges, counted twice for an
    undirected graph. *)
Theorem X19_node_values_count_edges (G : PropGraph)
    (filename : option string) (d : VisData) :
  to_vis_json G filename = Returns d ->
  sum_list_with (fun n => Z.to_nat (VisRef.int_field "value" n)) (nodes d)
  = (if GT.directed (graph G) then 1 else 2) * length (edges d).
Proof.
  rewrite to_vis_json_cases. cbv zeta.
  destruct (vp G !! "id") as [ids|].
  - intros [= <-]. cbn [nodes edges].
    rewrite length_map.
    replace (length (edges_indexed (graph G)))
      with (GT.num_edges (graph G))
      by (unfold GT.num_edges; rewrite <- edges_indexed_edges;
          by rewrite length_map).
    rewrite <- degree_sum.
    induction (GT.vertices (graph G)) as [|v vs IH]; simpl; [done|].
    rewrite IH. f_equal.
    change (Z.to_nat (Z.of_nat (GT.out_degree (graph G) v))
            = GT.out_degree (graph G) v).
    apply Nat2Z.id.
  - destruct (GT.vertices (graph G)) as [|v vs] eqn:Hv; simpl; [|done].
    intros [= <-]. cbn [nodes edges].
    rewrite (edges_indexed_no_vertices _ Hv). simpl. lia.
Qed.

Lemma X19_node_values_count_edges_witness :
  exists d, to_vis_json (VisRef.named Ref.path5) None = Returns d
    /\ sum_list_with (fun n => Z.to_nat (VisRef.int_field "value" n))
         (nodes d) = 2 * length (edges d).
Proof.
  destruct (to_vis_json (VisRef.named Ref.path5) None) as [d|k] eqn:E;
    [|by vm_compute in E].
  exists d. split; [reflexivity|].
  exact (X19_node_values_count_edges (VisRef.named Ref.path5) None d E).
Defined.

(** X20 (to_vis_json): without an ['id'] property map the export raises
    [KeyError('id')] as soon as one vertex is visible; when no vertex is
    visible it returns no node and no edge. *)
Theorem X20_missing_id_map (G : PropGraph) (filename : option string) :
  vp G !! "id" = None ->
  to_vis_json G filename
  = match GT.vertices (graph G) with
    | [] => Returns (mkVisData [] [])
    | _ :: _ => KeyError (VStr "id")
    end.
Proof.
  intros Hid. rewrite to_vis_json_cases, Hid. cbv zeta.
  destruct (GT.vertices (graph G)) as [|v vs] eqn:Hv; simpl; [|done].
  by rewrite (edges_indexed_no_vertices _ Hv).
Qed.

Lemma X20_missing_id_map_witness :
  vp (VisRef.bare Ref.path5) !! "id" = None
  /\ to_vis_json (VisRef.bare Ref.path5) None = KeyError (VStr "id").
Proof.
  split; [reflexivity|].
  exact (X20_missing_id_map (VisRef.bare Ref.path5) None eq_refl).
Defined.

(** The loop over the edges of the block-cut tree never asks for
    ['id']. *)
Lemma bcc_edges_no_id (G : PropGraph) :
  for_each (fun e : nat * (nat * nat) =>
      counts ← getkey (ep G) "count" (VStr "count");
      Returns (dict [("id", of_nat e.1); ("from", of_nat e.2.1);
                     ("to", of_nat e.2.2); ("value", counts e.1)]))
    (edges_indexed (graph G))
  <> KeyError (VStr "id").
Proof.
  intros Habs. apply for_each_key_error in Habs
    as (pre & e & rest & _ & _ & He).
  unfold getkey in He. by destruct (ep G !! "count").
Qed.

(** X21 (to_vis_json_bcc_tree): on a tree that carries ['count'] and
    ['is_articulation'] but no ['id'] property map, the export raises
    [KeyError('id')] exactly when some visible vertex is an articulation
    point; the blocks alone never need the map. *)
Theorem X21_id_needed_for_articulation_points (G : PropGraph)
    (filename : option string) (counts arts : nat -> value) :
  vp G !! "count" = Some counts ->
  vp G !! "is_articulation" = Some arts ->
  vp G !! "id" = None ->
  to_vis_json_bcc_tree G filename = KeyError (VStr "id")
  <-> exists v, In v (GT.vertices (graph G)) /\ truthy (arts v) = true.
Proof.
  intros Hc Ha Hid. unfold to_vis_json_bcc_tree. cbv zeta.
  erewrite (for_each_guard (fun v => truthy (arts v))
              (fun v => dict [("id", of_nat v);
                 ("label", VStr ("BCC: " +:+ str (of_nat v)
                                 +:+ " | Count: " +:+ str (counts v)));
                 ("title", VStr ("BCC: " +:+ str (of_nat v)
                                 +:+ " | Count: " +:+ str (counts v)));
                 ("value", counts v); ("group", VInt 1)])
              (VStr "id")).
  2:{ intros v _. unfold getkey. rewrite Hc, Ha, Hid. simpl.
      by destruct (truthy (arts v)). }
  destruct (existsb (fun v => truthy (arts v)) (GT.vertices (graph G)))
    eqn:Eart.
  - split; [intros _|done].
    apply existsb_exists in Eart as (v & Hv & Hart). eauto.
  - split.
    + simpl. intros Habs. exfalso.
      pose proof (bcc_edges_no_id G) as Hno.
      destruct (for_each _ (edges_indexed (graph G))) as [es|k]; [done|].
      simpl in Habs. congruence.
    + intros (v & Hv & Hart).
      assert (existsb (fun v => truthy (arts v)) (GT.vertices (graph G))
              = true) as Hex by (apply existsb_exists; eauto).
      congruence.
Qed.

Lemma X21_id_needed_for_articulation_points_witness :
  to_vis_json_bcc_tree (VisRef.bcc_tree VisRef.star3 (Nat.eqb 1)) None
  = KeyError (VStr "id").
Proof.
  apply (X21_id_needed_for_articulation_points
           (VisRef.bcc_tree VisRef.star3 (Nat.eqb 1)) None
           (fun _ => VInt 2) (fun v => VBool (Nat.eqb 1 v)));
    [reflexivity | reflexivity | reflexivity |].
  exists 1. split; [vm_compute; auto | reflexivity].
Defined.

Lemma StronglySorted_after {A} (R : A -> A -> Prop) (pre : list A) (x : A)
    (rest : list A) :
  StronglySorted R (pre ++ x :: rest) -> Forall (R x) rest.
Proof.
  induction pre as [|p pre IH]; simpl; intros H.
  - by apply StronglySorted_inv in H as [_ H].
  - apply StronglySorted_inv in H as [H _]. by apply IH.
Qed.

(** The loop over the edges of the cluster map always returns. *)
Lemma cluster_map_edges (G : PropGraph) (spine branches : gset nat) :
  exists es,
    for_each (fun e : nat * (nat * nat) =>
        Returns (dict [("id", of_nat e.1); ("from", of_nat e.2.1);
                       ("to", of_nat e.2.2);
                       ("category",
                        if bool_decide (e.1 ∈ spine) then VStr "spine"
                        else if bool_decide (e.1 ∈ branches)
                             then VStr "branch" else VStr "none")]))
      (edges_indexed (graph G)) = Returns es.
Proof. eexists. by apply for_each_returns. Qed.

(** X22 (to_vis_json_cluster_map): on a graph with an ['id'] property map
    the export returns exactly when [cluster_assignment] has an entry for
    every visible vertex; otherwise it raises [KeyError] with the smallest
    visible vertex index that has none. *)
Theorem X22_every_vertex_needs_a_cluster (G : PropGraph)
    (cluster_assignment : gmap nat value) (landmark_map : gset nat)
    (spine branches : gset nat) (ids : nat -> value) :
  vp G !! "id" = Some ids ->
  ((exists d, to_vis_json_cluster_map G cluster_assignment landmark_map
                spine branches = Returns d)
   <-> forall v, In v (GT.vertices (graph G)) ->
         is_Some (cluster_assignment !! v))
  /\ forall key,
       to_vis_json_cluster_map G cluster_assignment landmark_map
         spine branches = KeyError key ->
       exists v, key = of_nat v
         /\ In v (GT.vertices (graph G))
         /\ cluster_assignment !! v = None
         /\ forall u, In u (GT.vertices (graph G)) -> u < v ->
              is_Some (cluster_assignment !! u).
Proof.
  intros Hid. unfold to_vis_json_cluster_map. cbv zeta.
  destruct (cluster_map_edges G spine branches) as [es ->].
  set (f := fun v : nat => _ : outcome (gmap string value)).
  assert (Hf : forall v,
            match cluster_assignment !! v with
            | Some c => exists n, f v = Returns n
            | None => f v = KeyError (of_nat v)
            end).
  { intros v. unfold f, getkey. rewrite Hid. simpl.
    destruct (cluster_assignment !! v); simpl; [|done].
    destruct (bool_decide (v ∈ landmark_map)); eauto. }
  destruct (for_each f (GT.vertices (graph G))) as [ns|k] eqn:E; simpl.
  - split; [|done]. split; [intros _|eauto].
    intros v Hv. apply for_each_inv in E.
    apply list_elem_of_In, list_elem_of_lookup in Hv as [i Hi].
    destruct (Forall2_lookup_l _ _ _ i v E Hi) as (n & _ & Hn).
    specialize (Hf v). destruct (cluster_assignment !! v); [done|].
    congruence.
  - apply for_each_key_error in E as (pre & x & rest & Hl & Hpre & Hx).
    assert (Hnone : cluster_assignment !! x = None).
    { specialize (Hf x). destruct (cluster_assignment !! x); [|done].
      destruct Hf as [n Hn]. congruence. }
    assert (Hk : k = of_nat x).
    { specialize (Hf x). rewrite Hnone in Hf. congruence. }
    split.
    + split; [by intros [d Hd]|]. intros Hall.
      destruct (Hall x) as [c Hc]; [|congruence].
      rewrite Hl. apply in_or_app. right. by left.
    + intros key [= <-]. exists x. split; [done|]. split.
      { rewrite Hl. apply in_or_app. right. by left. }
      split; [done|]. intros u Hu Hlt.
      pose proof (vertices_ascending (graph G)) as Hs.
      rewrite Hl in Hs, Hu.
      apply in_app_or in Hu as [Hu | [-> | Hu]].
      * destruct (Hpre u Hu) as [n Hn]. specialize (Hf u).
        destruct (cluster_assignment !! u); [done | congruence].
      * lia.
      * apply StronglySorted_after in Hs as Hall.
        rewrite Forall_forall in Hall.
        apply list_elem_of_In in Hu. specialize (Hall u Hu). lia.
Qed.

Lemma X22_every_vertex_needs_a_cluster_witness :
  exists d, to_vis_json_cluster_map (VisRef.named Ref.path5)
              VisRef.five_clustered ∅ ∅ ∅ = Returns d.
Proof.
  apply (proj1 (X22_every_vertex_needs_a_cluster (VisRef.named Ref.path5)
                  VisRef.five_clustered ∅ ∅ ∅
                  (fun v => VStr ("v" +:+ pretty v)) eq_refl)).
  intros v Hv. vm_compute in Hv.
  destruct Hv as [<-|[<-|[<-|[<-|[<-|[]]]]]]; vm_compute; eauto.
Defined.

(** What the cluster map appends for a vertex and for an edge, read back
    from a result. *)
Lemma cluster_map_inv (G : PropGraph) (cluster_assignment : gmap nat value)
    (landmark_map spine branches : gset nat) (d : VisData) :
  to_vis_json_cluster_map G cluster_assignment landmark_map spine branches
    = Returns d ->
  Forall2 (fun v n => exists ids c,
      vp G !! "id" = Some ids /\ cluster_assignment !! v = Some c
      /\ n = dict [("id", of_nat v); ("label", ids v); ("title", ids v);
                   ("value", of_nat (GT.out_degree (graph G) v));
                   ("group", c);
                   ("shape", if bool_decide (v ∈ landmark_map)
                             then VStr "star" else VStr "dot");
                   ("borderWidth", if bool_decide (v ∈ landmark_map)
                                   then VInt 2 else VInt 1)])
    (GT.vertices (graph G)) (nodes d)
  /\ edges d
     = map (fun e : nat * (nat * nat) =>
         dict [("id", of_nat e.1); ("from", of_nat e.2.1);
               ("to", of_nat e.2.2);
               ("category",
                if bool_decide (e.1 ∈ spine) then VStr "spine"
                else if bool_decide (e.1 ∈ branches)
                     then VStr "branch" else VStr "none")])
         (edges_indexed (graph G)).
Proof.
  unfold to_vis_json_cluster_map. cbv zeta.
  erewrite (for_each_returns _ _ (edges_indexed (graph G)));
    [|intros e _; reflexivity].
  set (f := fun v : nat => _ : outcome (gmap string value)).
  destruct (for_each f (GT.vertices (graph G))) as [ns|k] eqn:E; simpl;
    [|done].
  intros [= <-]. cbn [nodes edges]. split; [|reflexivity].
  apply for_each_inv in E. eapply Forall2_impl; [exact E|].
  intros v n. unfold f, getkey. simpl.
  destruct (vp G !! "id") as [ids|]; simpl; [|done].
  destruct (cluster_assignment !! v) as [c|]; simpl; [|done].
  intros Hn. exists ids, c. split; [done|]. split; [done|].
  destruct (bool_decide (v ∈ landmark_map)); by injection Hn.
Qed.

(** X23 (to_vis_json, to_vis_json_cluster_map): when both exports return
    for the same graph, the cluster map only adds to the plain export: the
    nodes agree on ['id'], ['label'], ['title'] and ['value'], the edges on
    ['id'], ['from'] and ['to']. *)
Theorem X23_cluster_map_extends_plain_export (G : PropGraph)
    (filename : option string) (cluster_assignment : gmap nat value)
    (landmark_map spine branches : gset nat) (d d' : VisData) :
  to_vis_json G filename = Returns d ->
  to_vis_json_cluster_map G cluster_assignment landmark_map spine branches
    = Returns d' ->
  (forall k, In k ["id"; "label"; "title"; "value"] ->
     VisRef.field k (nodes d') = VisRef.field k (nodes d))
  /\ (forall k, In k ["id"; "from"; "to"] ->
     VisRef.field k (edges d') = VisRef.field k (edges d)).
Proof.
  intros Hd Hd'. apply cluster_map_inv in Hd' as [Hn He].
  rewrite to_vis_json_cases in Hd. cbv zeta in Hd.
  assert (Hedges : edges d
            = map (fun e : nat * (nat * nat) =>
                dict [("id", of_nat e.1); ("from", of_nat e.2.1);
                      ("to", of_nat e.2.2)]) (edges_indexed (graph G))).
  { destruct (vp G !! "id"); [by injection Hd as <-|].
    destruct (existsb _ _); [done | by injection Hd as <-]. }
  split.
  - intros k Hk. destruct (vp G !! "id") as [ids|] eqn:Hid.
    + injection Hd as <-. cbn [nodes]. rewrite field_map.
      eapply field_Forall2; [|exact Hn].
      intros v n (ids' & c & [= <-] & _ & ->).
      destruct Hk as [<-|[<-|[<-|[<-|[]]]]]; reflexivity.
    + destruct (GT.vertices (graph G)) as [|v vs]; [|done].
      injection Hd as <-. by inversion Hn.
  - intros k Hk. rewrite He, Hedges, !field_map.
    apply map_ext. intros e.
    destruct Hk as [<-|[<-|[<-|[]]]]; reflexivity.
Qed.

Lemma X23_cluster_map_extends_plain_export_witness :
  exists d d',
    to_vis_json (VisRef.named Ref.path5) None = Returns d
    /\ to_vis_json_cluster_map (VisRef.named Ref.path5)
         VisRef.five_clustered {[ 0 ]} {[ 0; 1 ]} {[ 1; 2 ]} = Returns d'
    /\ (forall k, In k ["id"; "label"; "title"; "value"] ->
          VisRef.field k (nodes d') = VisRef.field k (nodes d))
    /\ (forall k, In k ["id"; "from"; "to"] ->
          VisRef.field k (edges d') = VisRef.field k (edges d)).
Proof.
  destruct (to_vis_json (VisRef.named Ref.path5) None) as [d|k] eqn:E;
    [|by vm_compute in E].
  destruct (to_vis_json_cluster_map (VisRef.named Ref.path5)
              VisRef.five_clustered {[ 0 ]} {[ 0; 1 ]} {[ 1; 2 ]})
    as [d'|k] eqn:E'; [|by vm_compute in E'].
  exists d, d'. split; [reflexivity|]. split; [reflexivity|].
  exact (X23_cluster_map_extends_plain_export (VisRef.named Ref.path5) None
           VisRef.five_clustered {[ 0 ]} {[ 0; 1 ]} {[ 1; 2 ]} d d' E E').
Defined.

(** X24 (to_vis_json_cluster_map): in a returned cluster map a node is a
    star with border 2 exactly when its vertex is a landmark, and a dot with
    border 1 otherwise; an edge is on the ['spine'] exactly when its index
    is in [spine], so an edge in both sets is never a ['branch']. *)
Theorem X24_landmarks_and_spine (G : PropGraph)
    (cluster_assignment : gmap nat value)
    (landmark_map spine branches : gset nat) (d : VisData) :
  to_vis_json_cluster_map G cluster_assignment landmark_map spine branches
    = Returns d ->
  (forall n, In n (nodes d) -> exists v,
     n !! "id" = Some (of_nat v)
     /\ (v ∈ landmark_map ->
         n !! "shape" = Some (VStr "star")
         /\ n !! "borderWidth" = Some (VInt 2))
     /\ (v ∉ landmark_map ->
         n !! "shape" = Some (VStr "dot")
         /\ n !! "borderWidth" = Some (VInt 1)))
  /\ (forall e, In e (edges d) -> exists i,
     e !! "id" = Some (of_nat i)
     /\ (i ∈ spine <-> e !! "category" = Some (VStr "spine"))
     /\ (i ∈ branches /\ i ∉ spine
         <-> e !! "category" = Some (VStr "branch"))).
Proof.
  intros Hd. apply cluster_map_inv in Hd as [Hn He]. split.
  - intros n Hin. apply list_elem_of_In, list_elem_of_lookup in Hin as [j Hj].
    destruct (Forall2_lookup_r _ _ _ j n Hn Hj)
      as (v & _ & ids & c & _ & _ & ->).
    exists v. split; [reflexivity|]. split; intros Hv.
    + rewrite <- (bool_decide_eq_true (v ∈ landmark_map)) in Hv.
      change (Some (if bool_decide (v ∈ landmark_map)
                    then VStr "star" else VStr "dot") = Some (VStr "star")
              /\ Some (if bool_decide (v ∈ landmark_map)
                       then VInt 2 else VInt 1) = Some (VInt 2)).
      by rewrite Hv.
    + rewrite <- (bool_decide_eq_false (v ∈ landmark_map)) in Hv.
      change (Some (if bool_decide (v ∈ landmark_map)
                    then VStr "star" else VStr "dot") = Some (VStr "dot")
              /\ Some (if bool_decide (v ∈ landmark_map)
                       then VInt 2 else VInt 1) = Some (VInt 1)).
      by rewrite Hv.
  - intros e Hin. rewrite He in Hin.
    apply in_map_iff in Hin as (ie & <- & _).
    exists ie.1. split; [reflexivity|].
    change ((ie.1 ∈ spine
             <-> Some (if bool_decide (ie.1 ∈ spine) then VStr "spine"
                       else if bool_decide (ie.1 ∈ branches)
                            then VStr "branch" else VStr "none")
                 = Some (VStr "spine"))
            /\ (ie.1 ∈ branches /\ ie.1 ∉ spine
                <-> Some (if bool_decide (ie.1 ∈ spine) then VStr "spine"
                          else if bool_decide (ie.1 ∈ branches)
                               then VStr "branch" else VStr "none")
                    = Some (VStr "branch"))).
    destruct (bool_decide_reflect (ie.1 ∈ spine)) as [Hs|Hs];
      destruct (bool_decide_reflect (ie.1 ∈ branches)) as [Hb|Hb];
      split; split; try done; try tauto; intros [? ?]; done.
Qed.

Lemma X24_landmarks_and_spine_witness :
  exists d,
    to_vis_json_cluster_map (VisRef.named Ref.path5)
      VisRef.five_clustered {[ 0 ]} {[ 0; 1 ]} {[ 1; 2 ]} = Returns d
    /\ forall e, In e (edges d) -> exists i,
         e !! "id" = Some (of_nat i)
         /\ (i ∈ ({[ 0; 1 ]} : gset nat)
             <-> e !! "category" = Some (VStr "spine"))
         /\ (i ∈ ({[ 1; 2 ]} : gset nat) /\ i ∉ ({[ 0; 1 ]} : gset nat)
             <-> e !! "category" = Some (VStr "branch")).
Proof.
  destruct (to_vis_json_cluster_map (VisRef.named Ref.path5)
              VisRef.five_clustered {[ 0 ]} {[ 0; 1 ]} {[ 1; 2 ]})
    as [d|k] eqn:E; [|by vm_compute in E].
  exists d. split; [reflexivity|].
  exact (proj2 (X24_landmarks_and_spine (VisRef.named Ref.path5)
                  VisRef.five_clustered {[ 0 ]} {[ 0; 1 ]} {[ 1; 2 ]} d E)).
Defined.

Lemma enumerate_fst {A} (l : list A) :
  map fst (enumerate l) = seq 0 (length l).
Proof.
  unfold enumerate.
  assert (Hgen : forall (l : list A) (k : nat),
            map fst (imap (fun i => pair (k + i)) l) = seq k (length l)).
  { clear l. induction l as [|x l IH]; intros k; simpl; [done|].
    f_equal; [lia|].
    rewrite (imap_ext _ (fun i => pair (S k + i))); [apply IH|].
    intros i y _. simpl. f_equal. lia. }
  specialize (Hgen l 0). by rewrite (imap_ext _ pair) in Hgen.
Qed.

Lemma enumerate_snd {A} (l : list A) : map snd (enumerate l) = l.
Proof.
  unfold enumerate.
  assert (Hgen : forall (l : list A) (f : nat -> nat),
            map snd (imap (fun i => pair (f i)) l) = l).
  { clear l. induction l as [|x l IH]; intros f; simpl; [done|].
    f_equal. apply (IH (f ∘ S)). }
  apply (Hgen l id).
Qed.

(** The loop over the cross edges always returns. *)
Lemma metagraph_edges (cross_edges : items (Z * Z) (list Z)) :
  for_each (fun '(idx, (e, edge_indices)) =>
      let value := of_nat (length edge_indices) in
      Returns (dict [("id", of_nat idx); ("from", VInt e.1); ("to", VInt e.2);
                     ("value", value);
                     ("title", VStr ("meta-edge size: " +:+ str value))]))
    (enumerate cross_edges)
  = Returns (map (fun p : nat * ((Z * Z) * list Z) =>
      dict [("id", of_nat p.1); ("from", VInt p.2.1.1); ("to", VInt p.2.1.2);
            ("value", of_nat (length p.2.2));
            ("title", VStr ("meta-edge size: "
                            +:+ str (of_nat (length p.2.2))))])
      (enumerate cross_edges)).
Proof. apply for_each_returns. by intros [idx [e edge_indices]] _. Qed.

(** The body of the loop over the metanodes. *)
Lemma metanode_body (mn_id : Z) (node_info : gmap string value) :
  let body :=
    long_label ← getkey node_info "fully_qualified_label"
                   (VStr "fully_qualified_label");
    nv ← getkey node_info "num_vertices" (VStr "num_vertices");
    ne ← getkey node_info "num_edges" (VStr "num_edges");
    short ← getkey node_info "short_label" (VStr "short_label");
    value ← getkey node_info "num_vertices" (VStr "num_vertices");
    Returns (dict [("id", VInt mn_id); ("label", short);
                   ("title",
                    VStr ("<p>" +:+ str long_label +:+ "<br>|V|: "
                          +:+ str nv +:+ "<br>|E|: " +:+ str ne));
                   ("value", value)]) in
  match body with
  | Returns n =>
      (forall k, In k VisRef.metanode_keys -> is_Some (node_info !! k))
      /\ n !! "id" = Some (VInt mn_id)
      /\ n !! "label" = node_info !! "short_label"
      /\ n !! "value" = node_info !! "num_vertices"
  | KeyError key =>
      exists k, key = VStr k /\ In k VisRef.metanode_keys
                /\ node_info !! k = None
  end.
Proof.
  cbv zeta. unfold getkey, VisRef.metanode_keys.
  destruct (node_info !! "fully_qualified_label") as [l|] eqn:E1; simpl;
    [|exists "fully_qualified_label"; simpl; tauto].
  destruct (node_info !! "num_vertices") as [nv|] eqn:E2; simpl;
    [|exists "num_vertices"; simpl; tauto].
  destruct (node_info !! "num_edges") as [ne|] eqn:E3; simpl;
    [|exists "num_edges"; simpl; tauto].
  destruct (node_info !! "short_label") as [s|] eqn:E4; simpl;
    [|exists "short_label"; simpl; tauto].
  split; [|by repeat split].
  intros k [<-|[<-|[<-|[<-|[]]]]]; eauto.
Qed.

(** X25 (to_vis_json_metagraph): the export returns exactly when every
    metanode has the four entries it reads (the full and the short label,
    the vertex and the edge count); otherwise it raises [KeyError] with one
    of these four keys, missing from some metanode.  The cross edges never
    make it fail. *)
Theorem X25_metanodes_need_four_entries
    (metanodes : items Z (gmap string value))
    (cross_edges : items (Z * Z) (list Z)) :
  ((exists d, to_vis_json_metagraph metanodes cross_edges = Returns d)
   <-> forall mn_id node_info, In (mn_id, node_info) metanodes ->
         forall k, In k VisRef.metanode_keys -> is_Some (node_info !! k))
  /\ forall key,
       to_vis_json_metagraph metanodes cross_edges = KeyError key ->
       exists mn_id node_info k,
         In (mn_id, node_info) metanodes
         /\ In k VisRef.metanode_keys
         /\ node_info !! k = None
         /\ key = VStr k.
Proof.
  unfold to_vis_json_metagraph. rewrite metagraph_edges.
  set (f := fun '(mn_id, node_info) => _ : outcome (gmap string value)).
  destruct (for_each f metanodes) as [ns|key] eqn:E; simpl.
  - split; [|done]. split; [intros _|eauto].
    intros mn_id node_info Hin.
    apply for_each_inv in E.
    apply list_elem_of_In, list_elem_of_lookup in Hin as [j Hj].
    destruct (Forall2_lookup_l _ _ _ j _ E Hj) as (n & _ & Hn).
    pose proof (metanode_body mn_id node_info) as Hb. cbv zeta in Hb.
    unfold f in Hn. rewrite Hn in Hb. apply Hb.
  - apply for_each_key_error in E
      as (pre & [mn_id node_info] & rest & Hl & _ & Hx).
    pose proof (metanode_body mn_id node_info) as Hb. cbv zeta in Hb.
    unfold f in Hx. rewrite Hx in Hb. destruct Hb as (k & -> & Hk & Hnone).
    assert (Hin : In (mn_id, node_info) metanodes).
    { rewrite Hl. apply in_or_app. right. by left. }
    split.
    + split; [by intros [d Hd]|]. intros Hall.
      destruct (Hall mn_id node_info Hin k Hk) as [x Hx']. congruence.
    + intros key [= <-]. exists mn_id, node_info, k. auto.
Qed.

(** X26 (to_vis_json_metagraph): a returned metagraph has one node per
    metanode, carrying the metanode's identifier, and one edge per entry of
    [cross_edges]; the edges are numbered 0, 1, 2, ... in the order of the
    dictionary, whatever the metanodes they join, and their values add up
    to the number of edge indices that [cross_edges] holds. *)
Theorem X26_cross_edges_are_numbered
    (metanodes : items Z (gmap string value))
    (cross_edges : items (Z * Z) (list Z)) (d : VisData) :
  to_vis_json_metagraph metanodes cross_edges = Returns d ->
  VisRef.field "id" (nodes d) = map (fun i => Some (VInt i)) (keys metanodes)
  /\ VisRef.field "id" (edges d)
     = map (fun i => Some (of_nat i)) (seq 0 (length cross_edges))
  /\ sum_list_with (fun e => Z.to_nat (VisRef.int_field "value" e)) (edges d)
     = sum_list_with (fun p => length p.2) cross_edges.
Proof.
  unfold to_vis_json_metagraph. rewrite metagraph_edges.
  set (f := fun '(mn_id, node_info) => _ : outcome (gmap string value)).
  destruct (for_each f metanodes) as [ns|key] eqn:E; simpl; [|done].
  intros [= <-]. cbn [nodes edges]. split; [|split].
  - unfold keys. rewrite map_map.
    apply for_each_inv in E. eapply field_Forall2; [|exact E].
    intros [mn_id node_info] n Hn.
    pose proof (metanode_body mn_id node_info) as Hb. cbv zeta in Hb.
    unfold f in Hn. rewrite Hn in Hb. apply Hb.
  - rewrite field_map, <- enumerate_fst.
    rewrite (map_map fst). reflexivity.
  - rewrite <- (enumerate_snd cross_edges) at 2.
    induction (enumerate cross_edges) as [|p ps IH]; simpl; [done|].
    rewrite IH. f_equal.
    change (Z.to_nat (Z.of_nat (length p.2.2)) = length p.2.2).
    apply Nat2Z.id.
Qed.

Lemma X26_cross_edges_are_numbered_witness :
  exists d,
    to_vis_json_metagraph VisRef.two_metanodes VisRef.one_cross_edge
      = Returns d
    /\ VisRef.field "id" (nodes d) = [Some (VInt 0); Some (VInt 1)]
    /\ VisRef.field "id" (edges d) = [Some (VInt 0)]
    /\ sum_list_with (fun e => Z.to_nat (VisRef.int_field "value" e))
         (edges d) = 3.
Proof.
  destruct (to_vis_json_metagraph VisRef.two_metanodes VisRef.one_cross_edge)
    as [d|k] eqn:E; [|by vm_compute in E].
  exists d. split; [reflexivity|].
  exact (X26_cross_edges_are_numbered VisRef.two_metanodes
           VisRef.one_cross_edge d E).
Defined.
